(** * The AdCP:Buy full-lifecycle simulation (simulation_full.py)

    A shallow embedding of [FullLifecycleSimulation]: the seven phases, the
    gateway wrapper [_call_tool] and the decisions they take on the
    responses of the remote service.

    - Responses are JSON documents that Python holds as dynamically typed
      values: [pyval].  A dict is an association list, [.get] is [get].
    - Python floats are binary64: the kernel's primitive [float].  Python
      ints are [Z]; the conversions between the two round as CPython does
      and raise [OverflowError] where CPython does.
    - The remote service is a function from the calls issued so far and
      the current call to an outcome: a result object or a raised
      [Exception].
    - What the program takes from Python and from rich without defining
      it is a [library]: [str.upper], and whether [console.print] refuses
      a text as markup.
    - The run is a state-and-exception monad over [sim]: the attributes of
      the simulation object, the calls issued and the lines printed.
      [console.print] of an f-string is [say], a line holding the message
      and the values shown in it, or a [MarkupError]; the format
      specifications that can raise ([:,.2f], [:,]) are [format_spec].
      Styles, emoji, table borders and [time.sleep] are presentation and
      are left out. *)

From Stdlib Require Import ZArith List String Ascii Bool Lia.
From Stdlib Require Import Floats DecimalString.
Import ListNotations.

Set Warnings "-register-all,-inexact-float".

Open Scope string_scope.
Open Scope Z_scope.

(** ** Python values *)

Inductive pyval : Type :=
| PNone
| PBool (b : bool)
| PInt (z : Z)
| PFloat (f : float)
| PStr (s : string)
| PList (l : list pyval)
| PDict (d : list (string * pyval)).

Inductive exn : Type :=
| AttributeError
| TypeError
| ValueError
| ZeroDivisionError
| OverflowError
| MarkupError          (* rich.errors.MarkupError *)
| NotRenderableError   (* rich.errors.NotRenderableError *)
| Exception (msg : string).

Inductive result (A : Type) : Type :=
| Ok (a : A)
| Raise (e : exn).

Arguments Ok {A} a.
Arguments Raise {A} e.

Definition rbind {A B} (r : result A) (k : A -> result B) : result B :=
  match r with
  | Ok a => k a
  | Raise e => Raise e
  end.

Fixpoint lookup (k : string) (d : list (string * pyval)) : option pyval :=
  match d with
  | [] => None
  | (k', v) :: d' => if String.eqb k k' then Some v else lookup k d'
  end.

(** [v.get(k, default)]: only a dict has the method. *)
Definition get (v : pyval) (k : string) (default : pyval) : result pyval :=
  match v with
  | PDict d => Ok (match lookup k d with Some x => x | None => default end)
  | _ => Raise AttributeError
  end.

Definition is_dict (v : pyval) : bool :=
  match v with PDict _ => true | _ => false end.

(** [v == "s"] for a string literal. *)
Definition py_eq_str (v : pyval) (s : string) : bool :=
  match v with
  | PStr t => String.eqb t s
  | _ => false
  end.

(** Truth value of [if v:]. *)
Definition truthy (v : pyval) : bool :=
  match v with
  | PNone => false
  | PBool b => b
  | PInt z => negb (z =? 0)
  | PFloat f => negb (PrimFloat.is_zero f)
  | PStr s => negb (String.eqb s "")
  | PList l => match l with [] => false | _ => true end
  | PDict d => match d with [] => false | _ => true end
  end.

(** [for x in v]: the items a loop visits. *)
Definition py_iter (v : pyval) : result (list pyval) :=
  match v with
  | PList l => Ok l
  | PDict d => Ok (map (fun kv => PStr (fst kv)) d)
  | PStr s => Ok (map (fun c => PStr (String c "")) (list_ascii_of_string s))
  | _ => Raise TypeError
  end.

Definition py_len (v : pyval) : result Z :=
  match v with
  | PList l => Ok (Z.of_nat (List.length l))
  | PDict d => Ok (Z.of_nat (List.length d))
  | PStr s => Ok (Z.of_nat (String.length s))
  | _ => Raise TypeError
  end.

(** ** Numbers: int, bool (an int) and float *)

Inductive num : Type :=
| NInt (z : Z)
| NFloat (f : float).

Definition as_num (v : pyval) : option num :=
  match v with
  | PBool b => Some (NInt (if b then 1 else 0))
  | PInt z => Some (NInt z)
  | PFloat f => Some (NFloat f)
  | _ => None
  end.

(** [float(z)]: round to nearest, ties to even; too large raises. *)
Definition float_of_int (z : Z) : result float :=
  match binary_normalize prec emax z 0 false with
  | S754_infinity _ => Raise OverflowError
  | sf => Ok (SF2Prim sf)
  end.

Definition to_float (n : num) : result float :=
  match n with
  | NInt z => float_of_int z
  | NFloat f => Ok f
  end.

(** [x / y] on two ints, [y <> 0]: the correctly rounded quotient. *)
Definition int_truediv (x y : Z) : result float :=
  match x with
  | 0 => Ok (if y <? 0 then neg_zero else zero)
  | _ =>
      match SFdiv prec emax (S754_finite (x <? 0) (Z.to_pos (Z.abs x)) 0)
                            (S754_finite (y <? 0) (Z.to_pos (Z.abs y)) 0) with
      | S754_infinity _ => Raise OverflowError
      | sf => Ok (SF2Prim sf)
      end
  end.

(** Whether a number is zero ([float(z)] is a zero only for [z = 0]). *)
Definition is_zero_num (n : num) : bool :=
  match n with
  | NInt z => z =? 0
  | NFloat f => PrimFloat.is_zero f
  end.

(** [a / b]: true division, always a float.  With a float operand both
    are converted first, then a zero divisor raises. *)
Definition py_truediv (a b : pyval) : result float :=
  match as_num a, as_num b with
  | Some (NInt x), Some (NInt y) =>
      if y =? 0 then Raise ZeroDivisionError else int_truediv x y
  | Some x, Some y =>
      rbind (to_float x) (fun fx =>
      rbind (to_float y) (fun fy =>
      if is_zero_num y then Raise ZeroDivisionError
      else Ok (fx / fy)%float))
  | _, _ => Raise TypeError
  end.

(** An int against a float, compared exactly as CPython does. *)
Definition cmp_int_float (z : Z) (f : float) : option comparison :=
  match Prim2SF f with
  | S754_nan => None
  | S754_infinity s => Some (if s then Gt else Lt)
  | S754_zero _ => Some (z ?= 0)
  | S754_finite s m e =>
      let mz := if s then Zneg m else Zpos m in
      Some (if 0 <=? e then z ?= mz * 2 ^ e else z * 2 ^ (- e) ?= mz)
  end.

Definition num_gt (a b : num) : bool :=
  match a, b with
  | NInt x, NInt y => y <? x
  | NFloat x, NFloat y => (y <? x)%float
  | NInt x, NFloat y =>
      match cmp_int_float x y with Some Gt => true | _ => false end
  | NFloat x, NInt y =>
      match cmp_int_float y x with Some Lt => true | _ => false end
  end.

(** [a > b] and [a >= b] on numbers; the values compared in this program
    are tested against an int literal first, so the orders Python also
    has on two strings or two lists never arise. *)
Definition py_gt (a b : pyval) : result bool :=
  match as_num a, as_num b with
  | Some x, Some y => Ok (num_gt x y)
  | _, _ => Raise TypeError
  end.

Definition num_ge (a b : num) : bool :=
  match a, b with
  | NInt x, NInt y => y <=? x
  | NFloat x, NFloat y => (y <=? x)%float
  | NInt x, NFloat y =>
      match cmp_int_float x y with Some (Gt | Eq) => true | _ => false end
  | NFloat x, NInt y =>
      match cmp_int_float y x with Some (Lt | Eq) => true | _ => false end
  end.

Definition py_ge (a b : pyval) : result bool :=
  match as_num a, as_num b with
  | Some x, Some y => Ok (num_ge x y)
  | _, _ => Raise TypeError
  end.

(** [int(f)]: truncation towards zero. *)
Definition py_int (f : float) : result Z :=
  match Prim2SF f with
  | S754_nan => Raise ValueError
  | S754_infinity _ => Raise OverflowError
  | S754_zero _ => Ok 0
  | S754_finite s m e =>
      let a := if 0 <=? e then Zpos m * 2 ^ e else Zpos m / 2 ^ (- e) in
      Ok (if s then - a else a)
  end.

(** [max(xs)] of a non-empty sequence: the first item no later one exceeds. *)
Fixpoint py_max_from (best : pyval) (xs : list pyval) : result pyval :=
  match xs with
  | [] => Ok best
  | x :: xs' =>
      rbind (py_gt x best) (fun b => py_max_from (if b then x else best) xs')
  end.

(** Format specifications of the f-strings. *)
Inductive fmt : Type :=
| Fixed    (* [:.1f], [:.2f], [:,.2f], [:,.0f] *)
| Grouped. (* [:,] *)

(** Whether [format(v, spec)] returns or raises. *)
Definition format_spec (v : pyval) (f : fmt) : result unit :=
  match v with
  | PNone | PList _ | PDict _ => Raise TypeError
  | PStr _ => Raise ValueError
  | PFloat _ => Ok tt
  | PBool _ => Ok tt
  | PInt z =>
      match f with
      | Fixed => rbind (float_of_int z) (fun _ => Ok tt)
      | Grouped => Ok tt
      end
  end.

(** ** Dates: [datetime.date] and [timedelta(days=n)] *)

Record date : Type := mkdate { year : Z; month : Z; day : Z }.

Definition is_leap (y : Z) : bool :=
  (y mod 4 =? 0) && (negb (y mod 100 =? 0) || (y mod 400 =? 0)).

Definition days_in_month (y m : Z) : Z :=
  if m =? 2 then (if is_leap y then 29 else 28)
  else if (m =? 4) || (m =? 6) || (m =? 9) || (m =? 11) then 30
  else 31.

Definition days_before_year (y : Z) : Z :=
  let y' := y - 1 in y' * 365 + y' / 4 - y' / 100 + y' / 400.

Fixpoint days_before_month_aux (y : Z) (m : nat) : Z :=
  match m with
  | O => 0
  | S m' => days_before_month_aux y m' + days_in_month y (Z.of_nat m)
  end.

Definition days_before_month (y m : Z) : Z :=
  days_before_month_aux y (Z.to_nat (m - 1)).

Definition toordinal (d : date) : Z :=
  days_before_year (year d) + days_before_month (year d) (month d) + day d.

(** How many whole months of year [y] fit in [n] days, scanning from
    January. *)
Fixpoint month_of_day (y : Z) (n : Z) (m : Z) (fuel : nat) : Z * Z :=
  match fuel with
  | O => (m, n)
  | S fuel' =>
      let dim := days_in_month y m in
      if n <? dim then (m, n) else month_of_day y (n - dim) (m + 1) fuel'
  end.

Definition fromordinal (n : Z) : date :=
  let n := n - 1 in
  let n400 := n / 146097 in
  let n := n mod 146097 in
  let n100 := n / 36524 in
  let n := n mod 36524 in
  let n4 := n / 1461 in
  let n := n mod 1461 in
  let n1 := n / 365 in
  let n := n mod 365 in
  let y := n400 * 400 + 1 + n100 * 100 + n4 * 4 + n1 in
  if (n1 =? 4) || (n100 =? 4) then mkdate (y - 1) 12 31
  else
    let '(m, r) := month_of_day y n 1 11 in
    mkdate y m (r + 1).

(** [d + timedelta(days=k)] *)
Definition add_days (d : date) (k : Z) : date := fromordinal (toordinal d + k).

Definition digit (n : Z) : string :=
  String (ascii_of_nat (48 + Z.to_nat (n mod 10))) "".

Definition pad2 (n : Z) : string := digit (n / 10) ++ digit n.

Definition pad4 (n : Z) : string :=
  digit (n / 1000) ++ digit (n / 100) ++ digit (n / 10) ++ digit n.

(** [d.isoformat()] *)
Definition isoformat (d : date) : string :=
  pad4 (year d) ++ "-" ++ pad2 (month d) ++ "-" ++ pad2 (day d).

(** [str(z)] of an int. *)
Definition str_of_int (z : Z) : string := NilZero.string_of_int (Z.to_int z).

(** ** Python and rich

    [str.upper] follows the Unicode case mappings, and [console.print]
    reads its text as rich markup: both are given, not defined here. *)

Record library : Type := mklibrary {
  str_upper : string -> string;
  (* whether [console.print] of the message with these values raises
     [MarkupError] *)
  markup_error : string -> list pyval -> bool
}.

Fixpoint has_bracket (s : string) : bool :=
  match s with
  | EmptyString => false
  | String c s' => Ascii.eqb c "[" || has_bracket s'
  end.

(** Whether a string inside a value holds an opening square bracket.
    Markup tags start with one, and the messages of the program close the
    tags they open: a print whose values hold none is never refused. *)
Fixpoint bracketed (v : pyval) : bool :=
  match v with
  | PStr s => has_bracket s
  | PList l =>
      (fix any (l : list pyval) : bool :=
         match l with
         | [] => false
         | x :: l' => bracketed x || any l'
         end) l
  | PDict d =>
      (fix any (d : list (string * pyval)) : bool :=
         match d with
         | [] => false
         | (k, x) :: d' => has_bracket k || bracketed x || any d'
         end) d
  | _ => false
  end.

(** Whether [console.print] of the message with these values raises. *)
Definition raises_markup (lib : library) (msg : string) (args : list pyval)
  : bool :=
  existsb bracketed args && markup_error lib msg args.

(** ** The remote service and the simulation object *)

(** A call: the tool's name and its parameters. *)
Definition call : Type := string * pyval.

(** What [client.call_tool] hands back: an object that may or may not
    have a [structured_content] attribute ([None]: it has none). *)
Record tool_result : Type := mkresult { structured_content : option pyval }.

Inductive outcome : Type :=
| Returns (r : tool_result)
| Raises (e : string).   (* an instance of Exception, with its message *)

(** The service sees the calls made before and the call at hand. *)
Definition service : Type := list call -> call -> outcome.

Inductive line : Type :=
| Day (d : date) (activity : string)
| Say (msg : string) (args : list pyval).

(** One entry of [daily_data]. *)
Record snapshot : Type := mksnapshot {
  snap_date : date;
  spend : pyval;
  impressions : pyval;
  pacing : pyval
}.

Record sim : Type := mksim {
  principal_id : string;
  media_buy_id : pyval;          (* Optional[str] *)
  creative_ids : list pyval;     (* List[str] *)
  products : pyval;              (* List[Dict] *)
  calls : list call;             (* calls issued, oldest first *)
  console : list line            (* lines printed, oldest first *)
}.

Definition init (principal : string) : sim :=
  mksim principal PNone [] (PList []) [] [].

(** Timeline of [__init__]. *)
Definition planning_date : date := mkdate 2025 6 5.
Definition buy_date : date := mkdate 2025 6 15.
Definition creative_date : date := mkdate 2025 6 20.
Definition flight_start : date := mkdate 2025 8 1.
Definition flight_end : date := mkdate 2025 8 15.

(** ** The monad of a run *)

Definition M (A : Type) : Type := sim -> result A * sim.

Definition ret {A} (a : A) : M A := fun st => (Ok a, st).

Definition bind {A B} (m : M A) (k : A -> M B) : M B :=
  fun st =>
    match m st with
    | (Ok a, st') => k a st'
    | (Raise e, st') => (Raise e, st')
    end.

Definition lift {A} (r : result A) : M A := fun st => (r, st).

Definition raise {A} (e : exn) : M A := fun st => (Raise e, st).

Notation "x <- m ;; k" := (bind m (fun x => k))
  (at level 61, m at next level, right associativity).
Notation "m ;; k" := (bind m (fun _ => k))
  (at level 61, right associativity).

(** [console.print] of lines whose text shows [texts]: all of them are
    printed, or none and the markup error is raised. *)
Definition print (lib : library) (msg : string) (texts : list pyval)
           (lines : list line) : M unit :=
  fun st =>
    if raises_markup lib msg texts then (Raise MarkupError, st)
    else
      (Ok tt, mksim (principal_id st) (media_buy_id st) (creative_ids st)
                    (products st) (calls st) (console st ++ lines)).

Definition say (lib : library) (msg : string) (args : list pyval) : M unit :=
  print lib msg args [Say msg args].

Definition _show_day (current_date : date) (activity : string) : M unit :=
  fun st =>
    (Ok tt, mksim (principal_id st) (media_buy_id st) (creative_ids st)
                  (products st) (calls st)
                  (console st ++ [Day current_date activity])).

Definition log_call (c : call) (st : sim) : sim :=
  mksim (principal_id st) (media_buy_id st) (creative_ids st) (products st)
        (calls st ++ [c]) (console st).

Definition self_media_buy_id : M pyval := fun st => (Ok (media_buy_id st), st).
Definition self_creative_ids : M (list pyval) :=
  fun st => (Ok (creative_ids st), st).
Definition self_principal_id : M string :=
  fun st => (Ok (principal_id st), st).

Definition set_media_buy_id (v : pyval) : M unit :=
  fun st =>
    (Ok tt, mksim (principal_id st) v (creative_ids st) (products st)
                  (calls st) (console st)).

Definition set_products (v : pyval) : M unit :=
  fun st =>
    (Ok tt, mksim (principal_id st) (media_buy_id st) (creative_ids st) v
                  (calls st) (console st)).

Definition append_creative_id (v : pyval) : M unit :=
  fun st =>
    (Ok tt, mksim (principal_id st) (media_buy_id st) (creative_ids st ++ [v])
                  (products st) (calls st) (console st)).

Fixpoint for_each {A} (xs : list A) (body : A -> M unit) : M unit :=
  match xs with
  | [] => ret tt
  | x :: xs' => body x ;; for_each xs' body
  end.

(** What [_call_tool] returns for an outcome of the remote call. *)
Definition content_of (o : outcome) : pyval :=
  match o with
  | Returns r =>
      match structured_content r with
      | Some v => v
      | None => PDict []
      end
  | Raises _ => PDict []
  end.

(** The value a call gets back when [history] holds the calls before it. *)
Definition reply (svc : service) (history : list call) (c : call) : pyval :=
  content_of (svc history c).

(** ** Requests built by the phases *)

Definition planning_request : pyval :=
  PDict [("req", PDict [("brief",
    PStr "Looking for video and audio inventory for pet food campaign")])].

(** The targeting bought in phase 2. *)
Definition buy_geography : list pyval := [PStr "USA-CA"; PStr "USA-NY"].
Definition buy_excluded : list pyval := [PStr "controversial"; PStr "politics"].

Definition buy_request (lib : library) (principal : string) : pyval :=
  PDict [("product_ids", PList [PStr "prod_video_guaranteed_sports"]);
         ("flight_start_date", PStr (isoformat flight_start));
         ("flight_end_date", PStr (isoformat flight_end));
         ("total_budget", PFloat 50000.00);
         ("targeting_overlay",
           PDict [("geography", PList buy_geography);
                  ("content_categories_exclude", PList buy_excluded)]);
         ("po_number",
           PStr ("PO-" ++ str_upper lib principal ++ "-" ++
                 str_of_int (year flight_start) ++ "-" ++
                 pad2 (month flight_start)))].

Definition submitted_creatives : list pyval :=
  [PDict [("creative_id", PStr "cr_purina_dog_30s_v1");
          ("format_id", PStr "fmt_video_30s");
          ("content_uri", PStr "https://cdn.purina.com/vast/dog_chow_30s_v1.xml")];
   PDict [("creative_id", PStr "cr_purina_cat_30s_v1");
          ("format_id", PStr "fmt_video_30s");
          ("content_uri", PStr "https://cdn.purina.com/vast/cat_chow_30s_v1.xml")]].

Definition creatives_request (mb : pyval) : pyval :=
  PDict [("media_buy_id", mb); ("creatives", PList submitted_creatives)].

Definition status_request (ids : list pyval) : pyval :=
  PDict [("req", PDict [("creative_ids", PList ids)])].

Definition delivery_request (mb : pyval) (today : date) : pyval :=
  PDict [("req", PDict [("media_buy_id", mb);
                        ("today", PStr (isoformat today))])].

Definition performance_request (mb : pyval) (performance_index : float) : pyval :=
  PDict [("media_buy_id", mb);
         ("performance_data",
           PList [PDict [("product_id", PStr "prod_video_guaranteed_sports");
                         ("performance_index", PFloat performance_index);
                         ("confidence_score", PFloat 0.92)]])].

(** The targeting sent when the campaign under-delivers. *)
Definition wider_geography : list pyval :=
  [PStr "USA-CA"; PStr "USA-NY"; PStr "USA-TX"; PStr "USA-FL"].
Definition fewer_excluded : list pyval := [PStr "controversial"].

Definition update_request (mb : pyval) : pyval :=
  PDict [("media_buy_id", mb);
         ("new_targeting_overlay",
           PDict [("geography", PList wider_geography);
                  ("content_categories_exclude", PList fewer_excluded)])].

Definition approval_days : list date :=
  [add_days creative_date 1; add_days creative_date 2; add_days creative_date 3].

Definition monitoring_days : list (date * string) :=
  [(flight_start, "Campaign launch day");
   (add_days flight_start 2, "Early performance check");
   (add_days flight_start 5, "Mid-flight review");
   (add_days flight_start 8, "Performance analysis")].

Definition abort_message : string :=
  "Media buy creation failed - cannot continue simulation".

(** ** The simulation *)

Section Simulation.

Variable svc : service.
Variable lib : library.

(** [self.client.call_tool]: the call is issued and the service answers. *)
Definition client_call_tool (tool_name : string) (params : pyval) : M outcome :=
  fun st =>
    let c := (tool_name, params) in (Ok (svc (calls st) c), log_call c st).

(** [_call_tool]: a raised exception is reported and becomes the empty
    dict, as does a result without the attribute.  The report is a print
    like any other: when it is refused, its error leaves the handler. *)
Definition _call_tool (tool_name : string) (params : pyval) : M pyval :=
  o <- client_call_tool tool_name params ;;
  match o with
  | Returns result =>
      ret (match structured_content result with
           | Some content => content
           | None => PDict []
           end)
  | Raises e =>
      say lib "Error calling {}: {}" [PStr tool_name; PStr e] ;;
      ret (PDict [])
  end.

(** *** Phase 1: planning *)

(** [table.add_row] takes a string, or None for an empty cell. *)
Definition renderable (cell : pyval) : bool :=
  match cell with
  | PStr _ | PNone => true
  | _ => false
  end.

(** The row of a product.  The price is a text of the program's making:
    the cpm between "$" and " CPM", or "Variable". *)
Definition product_row (product : pyval) : result line :=
  rbind (get product "is_fixed_price" PNone) (fun fixed_price =>
  rbind (if truthy fixed_price
         then rbind (get product "cpm" (PStr "Variable")) (fun cpm => Ok (Some cpm))
         else Ok None) (fun price =>
  rbind (get product "product_id" (PStr "")) (fun product_id =>
  rbind (get product "name" (PStr "")) (fun name =>
  rbind (get product "delivery_type" (PStr "")) (fun delivery_type =>
  if forallb renderable [product_id; name; delivery_type] then
    Ok (match price with
        | Some cpm =>
            Say "{} | {} | {} | ${} CPM" [product_id; name; delivery_type; cpm]
        | None =>
            Say "{} | {} | {} | Variable" [product_id; name; delivery_type]
        end)
  else Raise NotRenderableError))))).

(** The loop that fills the table. *)
Fixpoint add_rows (table : list line) (items : list pyval) : result (list line) :=
  match items with
  | [] => Ok table
  | product :: rest =>
      rbind (product_row product) (fun row => add_rows (table ++ [row]) rest)
  end.

(** The values a line shows. *)
Definition shown (l : line) : list pyval :=
  match l with
  | Say _ args => args
  | Day _ _ => []
  end.

Definition _phase_1_planning : M unit :=
  _show_day planning_date "Beginning campaign planning" ;;
  say lib "Discovering available media products..." [] ;;
  products_response <- _call_tool "list_products" planning_request ;;
  found <- lift (get products_response "products" (PList [])) ;;
  set_products found ;;
  if truthy found then
    items <- lift (py_iter found) ;;
    table <- lift (add_rows [] items) ;;
    print lib "Available Media Products" (flat_map shown table) table ;;
    n <- lift (py_len found) ;;
    say lib "Found {} available products" [PInt n]
  else
    say lib "No products available" [].

(** *** Phase 2: the media buy *)

Definition _phase_2_buying : M unit :=
  _show_day buy_date "Executing media buy" ;;
  principal <- self_principal_id ;;
  say lib "Creating media buy..." [] ;;
  say lib "Products: Sports Video - Guaranteed" [] ;;
  say lib "Budget: $50,000" [] ;;
  say lib "Flight: {} to {}"
      [PStr (isoformat flight_start); PStr (isoformat flight_end)] ;;
  say lib "Targeting: CA, NY (excluding controversial content)" [] ;;
  buy_response <- _call_tool "create_media_buy"
                    (PDict [("req", buy_request lib principal)]) ;;
  id <- lift (get buy_response "media_buy_id" PNone) ;;
  set_media_buy_id id ;;
  if truthy id then
    say lib "Media buy created: {}" [id]
  else
    say lib "Failed to create media buy" [] ;;
    say lib "Response: {}" [buy_response] ;;
    raise (Exception abort_message).

(** *** Phase 3: creative submission and approval *)

Definition record_status (status : pyval) : M unit :=
  creative_id <- lift (get status "creative_id" PNone) ;;
  append_creative_id creative_id ;;
  creative_id <- lift (get status "creative_id" PNone) ;;
  status_val <- lift (get status "status" (PStr "unknown")) ;;
  say lib "{}: {}" [creative_id; status_val].

(** The body of the inner loop: [all_approved] after one more status. *)
Definition check_status (all_approved : bool) (status : pyval) : M bool :=
  status_val <- lift (get status "status" (PStr "unknown")) ;;
  creative_id <- lift (get status "creative_id" PNone) ;;
  say lib "{} {}: {}"
      [PBool (py_eq_str status_val "approved"); creative_id; status_val] ;;
  ret (if negb (py_eq_str status_val "approved") then false else all_approved).

Fixpoint scan_statuses (all_approved : bool) (statuses : list pyval) : M bool :=
  match statuses with
  | [] => ret all_approved
  | status :: rest =>
      all_approved <- check_status all_approved status ;;
      scan_statuses all_approved rest
  end.

(** One round of the outer loop, up to the test of [all_approved]. *)
Definition approval_check (check_date : date) : M bool :=
  _show_day check_date "Checking creative approval status" ;;
  ids <- self_creative_ids ;;
  status_response <- _call_tool "check_creative_status" (status_request ids) ;;
  statuses <- lift (get status_response "statuses" (PList [])) ;;
  items <- lift (py_iter statuses) ;;
  scan_statuses true items.

(** [for check_date in approval_days: ...; if all_approved: break].  The
    value is [all_approved] as the loop leaves it ([false] when no round
    ran). *)
Fixpoint approval_loop (days : list date) : M bool :=
  match days with
  | [] => ret false
  | check_date :: rest =>
      all_approved <- approval_check check_date ;;
      if all_approved then
        say lib "All creatives approved!" [] ;;
        ret true
      else
        approval_loop rest
  end.

Definition _phase_3_creatives : M unit :=
  _show_day creative_date "Submitting creative assets" ;;
  mb <- self_media_buy_id ;;
  say lib "Submitting 2 video creatives for approval..." [] ;;
  submit_response <- _call_tool "submit_creatives"
                       (PDict [("req", creatives_request mb)]) ;;
  statuses <- lift (get submit_response "statuses" (PList [])) ;;
  items <- lift (py_iter statuses) ;;
  for_each items record_status ;;
  say lib "Monitoring creative approval process..." [] ;;
  approval_loop approval_days ;;
  ret tt.

(** *** Phase 4: pre-flight *)

Definition _phase_4_pre_flight : M unit :=
  let pre_flight_date := add_days flight_start (-2) in
  _show_day pre_flight_date "Pre-flight system checks" ;;
  say lib "Verifying campaign setup..." [] ;;
  mb <- self_media_buy_id ;;
  delivery_response <- _call_tool "get_media_buy_delivery"
                         (delivery_request mb pre_flight_date) ;;
  status <- lift (get delivery_response "status" (PStr "unknown")) ;;
  say lib "Campaign status: {}" [status] ;;
  say lib "Days until launch: 2" [] ;;
  total_budget <- lift (get delivery_response "total_budget" (PInt 0)) ;;
  lift (format_spec total_budget Fixed) ;;
  say lib "Budget allocated: ${:,.2f}" [total_budget] ;;
  if py_eq_str status "scheduled" then
    say lib "Campaign ready for launch" []
  else
    say lib "Unexpected status: {}" [status].

(** *** Phase 5: in-flight monitoring *)

(** The metrics shown for one delivery response, the effective CPM last. *)
Definition show_metrics (delivery_response : pyval) : M unit :=
  days_elapsed <- lift (get delivery_response "days_elapsed" (PInt 0)) ;;
  total_days <- lift (get delivery_response "total_days" (PInt 0)) ;;
  started <- lift (py_gt total_days (PInt 0)) ;;
  progress <- (if started then
                 q <- lift (py_truediv days_elapsed total_days) ;;
                 ret (PFloat (q * 100))
               else ret (PInt 0)) ;;
  lift (format_spec progress Fixed) ;;
  say lib "Day {} of {} ({:.1f}% complete)" [days_elapsed; total_days; progress] ;;
  shown_spend <- lift (get delivery_response "spend" (PInt 0)) ;;
  lift (format_spec shown_spend Fixed) ;;
  say lib "Spend: ${:,.2f}" [shown_spend] ;;
  shown_impressions <- lift (get delivery_response "impressions" (PInt 0)) ;;
  lift (format_spec shown_impressions Grouped) ;;
  say lib "Impressions: {:,}" [shown_impressions] ;;
  shown_pacing <- lift (get delivery_response "pacing" (PStr "unknown")) ;;
  say lib "Pacing: {}" [shown_pacing] ;;
  tested <- lift (get delivery_response "impressions" (PInt 0)) ;;
  delivered <- lift (py_gt tested (PInt 0)) ;;
  if delivered then
    dividend <- lift (get delivery_response "spend" (PInt 0)) ;;
    divisor <- lift (get delivery_response "impressions" (PInt 0)) ;;
    q <- lift (py_truediv dividend divisor) ;;
    let ecpm := (q * 1000)%float in
    say lib "Effective CPM: ${:.2f}" [PFloat ecpm]
  else
    ret tt.

(** The loop over [monitoring_days]; [daily_data] is threaded through. *)
Fixpoint monitor (days : list (date * string)) (daily_data : list snapshot)
  : M (list snapshot) :=
  match days with
  | [] => ret daily_data
  | (check_date, description) :: rest =>
      _show_day check_date description ;;
      mb <- self_media_buy_id ;;
      delivery_response <- _call_tool "get_media_buy_delivery"
                             (delivery_request mb check_date) ;;
      stored_spend <- lift (get delivery_response "spend" (PInt 0)) ;;
      stored_impressions <-
        lift (get delivery_response "impressions" (PInt 0)) ;;
      stored_pacing <-
        lift (get delivery_response "pacing" (PStr "unknown")) ;;
      let daily_data :=
        (daily_data ++ [mksnapshot check_date stored_spend
                                   stored_impressions stored_pacing])%list in
      show_metrics delivery_response ;;
      monitor rest daily_data
  end.

(** One row of the trend; the bar is shown by its length. *)
Definition show_bar (max_impressions : pyval) (data : snapshot) : M unit :=
  scaled <- lift (py_gt max_impressions (PInt 0)) ;;
  bar_length <- (if scaled then
                   q <- lift (py_truediv (impressions data) max_impressions) ;;
                   lift (py_int (q * 40))
                 else ret 0) ;;
  lift (format_spec (impressions data) Grouped) ;;
  lift (format_spec (spend data) Fixed) ;;
  say lib "{}: {} {:,} imps (${:,.0f})"
      [PStr (pad2 (month (snap_date data)) ++ "/" ++ pad2 (day (snap_date data)));
       PInt (Z.max 0 bar_length); impressions data; spend data].

Definition _show_performance_trend (daily_data : list snapshot) : M unit :=
  say lib "Performance Trend:" [] ;;
  max_impressions <-
    lift (match map impressions daily_data with
          | [] => Ok (PInt 1)
          | first :: others => py_max_from first others
          end) ;;
  for_each daily_data (show_bar max_impressions).

Definition _phase_5_in_flight : M unit :=
  daily_data <- monitor monitoring_days [] ;;
  _show_performance_trend daily_data.

(** *** Phase 6: mid-flight optimization *)

Definition _phase_6_optimization : M unit :=
  let optimization_date := add_days flight_start 7 in
  _show_day optimization_date "Optimization review" ;;
  say lib "Analyzing performance for optimization opportunities..." [] ;;
  mb <- self_media_buy_id ;;
  delivery_response <- _call_tool "get_media_buy_delivery"
                         (delivery_request mb optimization_date) ;;
  say lib "Sending performance index feedback to ad server..." [] ;;
  observed <- lift (get delivery_response "pacing" PNone) ;;
  let performance_index :=
    (if py_eq_str observed "on_track" then 1.2 else 0.85)%float in
  mb <- self_media_buy_id ;;
  perf_response <- _call_tool "update_performance_index"
                     (PDict [("req", performance_request mb performance_index)]) ;;
  perf_status <- lift (get perf_response "status" PNone) ;;
  (if py_eq_str perf_status "success" then
     say lib "Performance index updated: {:.2f}" [PFloat performance_index]
   else ret tt) ;;
  pacing <- lift (get delivery_response "pacing" (PStr "unknown")) ;;
  if py_eq_str pacing "under_delivery" then
    say lib "Campaign under-delivering. Applying optimizations..." [] ;;
    mb <- self_media_buy_id ;;
    say lib "Expanding geographic targeting: +TX, +FL" [] ;;
    say lib "Reducing content exclusions" [] ;;
    update_response <- _call_tool "update_media_buy"
                         (PDict [("req", update_request mb)]) ;;
    update_status <- lift (get update_response "status" PNone) ;;
    if py_eq_str update_status "success" then
      say lib "Optimizations applied successfully" []
    else
      say lib "Failed to apply optimizations" []
  else if py_eq_str pacing "over_delivery" then
    say lib "Campaign over-delivering. Consider increasing budget." []
  else
    say lib "Campaign pacing on track. No optimization needed." [].

(** *** Phase 7: completion *)

(** [delivery_pct] for a spend and a budget. *)
Definition delivery_pct_of (spent budget : pyval) : result pyval :=
  rbind (py_gt budget (PInt 0)) (fun funded =>
  if funded then
    rbind (py_truediv spent budget) (fun q => Ok (PFloat (q * 100)))
  else Ok (PInt 0)).

Inductive tier : Type := Excellent | Good | UnderDelivery.

(** The [if]/[elif]/[else] on [delivery_pct]. *)
Definition tier_of (delivery_pct : pyval) : result tier :=
  rbind (py_ge delivery_pct (PInt 95)) (fun excellent =>
  if excellent then Ok Excellent
  else
    rbind (py_ge delivery_pct (PInt 80)) (fun good =>
    Ok (if good then Good else UnderDelivery))).

Definition tier_message (t : tier) : string :=
  match t with
  | Excellent => "Excellent delivery - budget fully utilized"
  | Good => "Good delivery - majority of budget utilized"
  | UnderDelivery => "Under-delivery - significant budget remaining"
  end.

(** The text of the summary panel: the conditional expression spans the
    whole concatenation of f-strings. *)
Definition summary_panel (final_response : pyval) : M unit :=
  tested <- lift (get final_response "impressions" (PInt 0)) ;;
  delivered <- lift (py_gt tested (PInt 0)) ;;
  if delivered then
    mb <- self_media_buy_id ;;
    status <- lift (get final_response "status" (PStr "unknown")) ;;
    total_spend <- lift (get final_response "spend" (PInt 0)) ;;
    lift (format_spec total_spend Fixed) ;;
    total_impressions <- lift (get final_response "impressions" (PInt 0)) ;;
    lift (format_spec total_impressions Grouped) ;;
    dividend <- lift (get final_response "spend" (PInt 0)) ;;
    divisor <- lift (get final_response "impressions" (PInt 0)) ;;
    q <- lift (py_truediv dividend divisor) ;;
    say lib "Campaign Summary"
        [mb; status; total_spend; total_impressions; PFloat (q * 1000)]
  else
    say lib "Campaign Summary" [].

Definition _phase_7_completion : M unit :=
  let completion_date := add_days flight_end 1 in
  _show_day completion_date "Campaign completed - final report" ;;
  mb <- self_media_buy_id ;;
  final_response <- _call_tool "get_media_buy_delivery"
                      (delivery_request mb completion_date) ;;
  say lib "Final Campaign Report" [] ;;
  summary_panel final_response ;;
  let budget := PFloat 50000.00 in
  spent <- lift (get final_response "spend" (PInt 0)) ;;
  delivery_pct <- lift (delivery_pct_of spent budget) ;;
  lift (format_spec delivery_pct Fixed) ;;
  say lib "Budget Utilization: {:.1f}%" [delivery_pct] ;;
  t <- lift (tier_of delivery_pct) ;;
  say lib (tier_message t) [] ;;
  say lib "Campaign lifecycle complete!" [].

(** *** The run *)

Definition run : M unit :=
  principal <- self_principal_id ;;
  say lib "Principal: {}" [PStr principal] ;;
  say lib "Campaign Period: {} to {}"
      [PStr (isoformat flight_start); PStr (isoformat flight_end)] ;;
  _phase_1_planning ;;
  _phase_2_buying ;;
  _phase_3_creatives ;;
  _phase_4_pre_flight ;;
  _phase_5_in_flight ;;
  _phase_6_optimization ;;
  _phase_7_completion.

End Simulation.

(** ** The dry-run logs *)

(** [try: ... except Exception: pass]: whatever the body raises is
    dropped; what it did before raising stays done. *)
Definition try_pass (body : M unit) : M unit :=
  fun st =>
    match body st with
    | (Ok _, st') => (Ok tt, st')
    | (Raise _, st') => (Ok tt, st')
    end.

Definition _show_dry_run_logs (svc : service) (lib : library) : M unit :=
  try_pass (
    logs_response <- _call_tool svc lib "get_dry_run_logs" (PDict []) ;;
    dry_run_logs <- lift (get logs_response "dry_run_logs" (PList [])) ;;
    if truthy dry_run_logs then
      say lib "The following adapter calls would have been made:" [] ;;
      items <- lift (py_iter dry_run_logs) ;;
      for_each items (fun log => say lib "{}" [log]) ;;
      n <- lift (py_len dry_run_logs) ;;
      say lib "Total adapter calls: {}" [PInt n]
    else
      ret tt).
(** * Vocabulary of the properties *)

(** ** States and calls *)

(** The exceptions that Python and rich raise on a value they cannot
    take: one of the wrong type, too large, or a text that is not
    markup.  The others are division by zero and the abort of phase 2. *)
Definition fault (e : exn) : bool :=
  match e with
  | AttributeError | TypeError | ValueError | OverflowError
  | MarkupError | NotRenderableError => true
  | ZeroDivisionError | Exception _ => false
  end.

Definition error_report : string := "Error calling {}: {}".

(** Whether [_call_tool] returns for an outcome of the remote call: it
    does unless the call raised and the report of it is refused. *)
Definition answered (lib : library) (c : call) (o : outcome) : bool :=
  match o with
  | Returns _ => true
  | Raises e => negb (raises_markup lib error_report [PStr (fst c); PStr e])
  end.

(** The state a call leaves: the call is logged, [out] is what the wrapper
    printed. *)
Definition called (c : call) (out : list line) (st : sim) : sim :=
  mksim (principal_id st) (media_buy_id st) (creative_ids st) (products st)
        (calls st ++ [c]) (console st ++ out).

Definition reported (tool_name : string) (o : outcome) : list line :=
  match o with
  | Returns _ => []
  | Raises e => [Say "Error calling {}: {}" [PStr tool_name; PStr e]]
  end.

(** [wp m st Q]: running [m] from [st] ends in a result and a state that
    satisfy [Q]. *)
Definition wp {A} (m : M A) (st : sim) (Q : result A -> sim -> Prop) : Prop :=
  Q (fst (m st)) (snd (m st)).

(** Only the console differs. *)
Definition quiet (st st' : sim) : Prop :=
  principal_id st' = principal_id st /\ media_buy_id st' = media_buy_id st
  /\ creative_ids st' = creative_ids st /\ products st' = products st
  /\ calls st' = calls st.

(** What a phase that follows the media buy does, for the as-of dates
    [dates] of its delivery reads: it keeps the principal and the media
    buy, raises only where Python does on an ill-typed or oversized
    value, and its delivery reads are for the first [k] dates, all of
    them when it returns. *)
Definition reads_dates {A} (dates : list date) (st : sim)
           (r : result A) (st' : sim) : Prop :=
  principal_id st' = principal_id st /\ media_buy_id st' = media_buy_id st
  /\ (forall e, r = Raise e -> fault e = true)
  /\ exists l k,
       calls st' = (calls st ++ l)%list
       /\ (k <= List.length dates)%nat
       /\ filter (fun c => String.eqb (fst c) "get_media_buy_delivery") l =
          map (fun today => ("get_media_buy_delivery",
                             delivery_request (media_buy_id st) today))
              (firstn k dates)
       /\ ((forall e, r <> Raise e) -> k = List.length dates).

(** The lines a computation prints when run from [st]. *)
Definition printed {A} (m : M A) (st : sim) : list line :=
  skipn (List.length (console st)) (console (snd (m st))).

(** The calls a computation issues when run from [st]. *)
Definition issued {A} (m : M A) (st : sim) : list call :=
  skipn (List.length (calls st)) (calls (snd (m st))).

Definition planning_call : call := ("list_products", planning_request).

Definition buy_call (lib : library) (principal : string) : call :=
  ("create_media_buy", PDict [("req", buy_request lib principal)]).

Definition submit_call (mb : pyval) : call :=
  ("submit_creatives", PDict [("req", creatives_request mb)]).

Definition status_call (ids : list pyval) : call :=
  ("check_creative_status", status_request ids).

(** The status query of a round of polling. *)
Definition status_round (st : sim) : call := status_call (creative_ids st).

Definition delivery_call (mb : pyval) (today : date) : call :=
  ("get_media_buy_delivery", delivery_request mb today).

Definition optimization_read (st : sim) : call :=
  delivery_call (media_buy_id st) (add_days flight_start 7).

Definition feedback (mb : pyval) (performance_index : float) : call :=
  ("update_performance_index",
   PDict [("req", performance_request mb performance_index)]).

Definition targeting_update (mb : pyval) : call :=
  ("update_media_buy", PDict [("req", update_request mb)]).

(** The index sent for a pacing value. *)
Definition index_for (observed : pyval) : float :=
  (if py_eq_str observed "on_track" then 1.2 else 0.85)%float.

(** The as-of date of the final read. *)
Definition completion_read (st : sim) : call :=
  delivery_call (media_buy_id st) (add_days flight_end 1).


(** Whether a line shows an effective CPM. *)
Definition shows_ecpm (l : line) : bool :=
  match l with
  | Say msg _ => String.eqb msg "Effective CPM: ${:.2f}"
  | Day _ _ => false
  end.

(** Whether a create_media_buy reply gives phase 2 an identifier. *)
Definition yields_id (buy_response : pyval) : bool :=
  match get buy_response "media_buy_id" PNone with
  | Ok id => truthy id
  | Raise _ => false
  end.

(** The calls that only a run with a media buy makes. *)
Definition needs_media_buy (c : call) : bool :=
  String.eqb (fst c) "submit_creatives"
  || String.eqb (fst c) "check_creative_status"
  || String.eqb (fst c) "get_media_buy_delivery"
  || String.eqb (fst c) "update_performance_index"
  || String.eqb (fst c) "update_media_buy".

(** A status entry that reads as approved. *)
Definition approved_status (status : pyval) : bool :=
  match get status "status" (PStr "unknown") with
  | Ok status_val => py_eq_str status_val "approved"
  | Raise _ => false
  end.

(** A check_creative_status reply in which every status returned is
    "approved". *)
Definition all_approved_reply (status_response : pyval) : bool :=
  match get status_response "statuses" (PList []) with
  | Ok statuses =>
      match py_iter statuses with
      | Ok items => forallb approved_status items
      | Raise _ => false
      end
  | Raise _ => false
  end.

(** The identifiers of the creatives phase 3 submits. *)
Definition submitted_ids : list pyval :=
  [PStr "cr_purina_dog_30s_v1"; PStr "cr_purina_cat_30s_v1"].

(** The [creative_id] of a status entry, None when it has none. *)
Definition creative_id_of (status : pyval) : pyval :=
  match get status "creative_id" PNone with
  | Ok id => id
  | Raise _ => PNone
  end.

(** Phases 3 to 7, one after the other. *)
Definition after_the_buy (svc : service) (lib : library) : M unit :=
  _phase_3_creatives svc lib ;;
  _phase_4_pre_flight svc lib ;;
  _phase_5_in_flight svc lib ;;
  _phase_6_optimization svc lib ;;
  _phase_7_completion svc lib.

(** Every call but the media buy fails, or returns nothing. *)
Definition others_fail (svc : service) : Prop :=
  forall history c, fst c <> "create_media_buy" -> reply svc history c = PDict [].

(** Successive integer values that never go down. *)
Definition non_decreasing (series : list pyval) : Prop :=
  forall i x y,
    nth_error series i = Some (PInt x) ->
    nth_error series (S i) = Some (PInt y) ->
    x <= y.

(** ** What the service said during a run *)

(** The calls of a run with the replies they got, oldest first. *)
Fixpoint replies_from (svc : service) (history : list call) (cs : list call)
  : list (call * pyval) :=
  match cs with
  | [] => []
  | c :: cs' => (c, reply svc history c) :: replies_from svc (history ++ [c]) cs'
  end.

Definition transcript (svc : service) (st : sim) : list (call * pyval) :=
  replies_from svc [] (calls st).

Definition is_delivery_read (c : call) : bool :=
  String.eqb (fst c) "get_media_buy_delivery".

(** [days_elapsed] of the delivery snapshots, in the order fetched. *)
Definition days_elapsed_series (svc : service) (st : sim) : list pyval :=
  flat_map (fun cr =>
              if is_delivery_read (fst cr) then
                match get (snd cr) "days_elapsed" (PInt 0) with
                | Ok v => [v]
                | Raise _ => []
                end
              else [])
           (transcript svc st).

(** The as-of dates of the delivery reads of a whole run, in order. *)
Definition read_schedule : list date :=
  [add_days flight_start (-2);
   flight_start; add_days flight_start 2; add_days flight_start 5;
   add_days flight_start 8;
   add_days flight_start 7;
   add_days flight_end 1].

(** ** A library to run against

    Upper-casing of ASCII letters, and a console that refuses every text
    with a closing tag in it.  rich refuses a closing tag that matches no
    open one: on a text whose only tag is a closing tag that the message
    around it does not open, as in the runs below, the two agree. *)

Definition upper_ascii (c : ascii) : ascii :=
  let n := nat_of_ascii c in
  if (97 <=? n)%nat && (n <=? 122)%nat then ascii_of_nat (n - 32) else c.

Fixpoint upper (s : string) : string :=
  match s with
  | EmptyString => EmptyString
  | String c s' => String (upper_ascii c) (upper s')
  end.

Fixpoint has_closing_tag (s : string) : bool :=
  match s with
  | EmptyString => false
  | String c s' =>
      (Ascii.eqb c "[" && match s' with
                          | String c' _ => Ascii.eqb c' "/"
                          | EmptyString => false
                          end)
      || has_closing_tag s'
  end.

Fixpoint closes_a_tag (v : pyval) : bool :=
  match v with
  | PStr s => has_closing_tag s
  | PList l =>
      (fix any (l : list pyval) : bool :=
         match l with
         | [] => false
         | x :: l' => closes_a_tag x || any l'
         end) l
  | PDict d =>
      (fix any (d : list (string * pyval)) : bool :=
         match d with
         | [] => false
         | (k, x) :: d' => has_closing_tag k || closes_a_tag x || any d'
         end) d
  | _ => false
  end.

Definition py : library :=
  mklibrary upper (fun _ args => existsb closes_a_tag args).

(** ** A service to run against

    It sells one media buy, approves the creatives on the second check
    and reports delivery from the as-of date it is asked about. *)

Fixpoint digits_value (s : string) (acc : Z) : Z :=
  match s with
  | EmptyString => acc
  | String c s' => digits_value s' (10 * acc + (Z.of_nat (nat_of_ascii c) - 48))
  end.

(** [date.fromisoformat] on [YYYY-MM-DD]. *)
Definition fromisoformat (s : string) : date :=
  mkdate (digits_value (substring 0 4 s) 0)
         (digits_value (substring 5 2 s) 0)
         (digits_value (substring 8 2 s) 0).

Definition request_field (params : pyval) (k : string) : pyval :=
  match get params "req" PNone with
  | Ok req => match get req k PNone with Ok v => v | Raise _ => PNone end
  | Raise _ => PNone
  end.

Definition total_flight_days : Z := toordinal flight_end - toordinal flight_start + 1.

Definition delivery_report (pace : string) (today : date) : pyval :=
  let elapsed :=
    Z.max 0 (Z.min total_flight_days (toordinal today - toordinal flight_start)) in
  PDict [("status",
           PStr (if toordinal today <? toordinal flight_start then "scheduled"
                 else if toordinal flight_end <? toordinal today then "completed"
                 else "live"));
         ("spend", PInt (3200 * elapsed));
         ("impressions", PInt (80000 * elapsed));
         ("days_elapsed", PInt elapsed);
         ("total_days", PInt total_flight_days);
         ("pacing", PStr pace);
         ("total_budget", PFloat 50000.00)].

Definition checks_before (history : list call) : nat :=
  List.length (filter (fun c => String.eqb (fst c) "check_creative_status") history).

(** Round 0 approves the first creative only, later rounds all. *)
Fixpoint review (round : nat) (first : bool) (ids : list pyval) : list pyval :=
  match ids with
  | [] => []
  | id :: ids' =>
      PDict [("creative_id", id);
             ("status", PStr (match round with
                              | O => if first then "approved" else "pending"
                              | S _ => "approved"
                              end))]
      :: review round false ids'
  end.

Definition pending (creative : pyval) : pyval :=
  PDict [("creative_id", creative_id_of creative); ("status", PStr "pending")].

Definition ad_server (pace : string) : service :=
  fun history c =>
    let '(tool_name, params) := c in
    Returns (mkresult (Some (
      if String.eqb tool_name "list_products" then
        PDict [("products",
          PList [PDict [("product_id", PStr "prod_video_guaranteed_sports");
                        ("name", PStr "Sports Video - Guaranteed");
                        ("delivery_type", PStr "guaranteed");
                        ("is_fixed_price", PBool true);
                        ("cpm", PFloat 45.0)]])]
      else if String.eqb tool_name "create_media_buy" then
        PDict [("media_buy_id", PStr "mb_1")]
      else if String.eqb tool_name "submit_creatives" then
        PDict [("statuses",
          PList (match request_field params "creatives" with
                 | PList creatives => map pending creatives
                 | _ => []
                 end))]
      else if String.eqb tool_name "check_creative_status" then
        PDict [("statuses",
          PList (match request_field params "creative_ids" with
                 | PList ids => review (checks_before history) true ids
                 | _ => []
                 end))]
      else if String.eqb tool_name "get_media_buy_delivery" then
        match request_field params "today" with
        | PStr today => delivery_report pace (fromisoformat today)
        | _ => PDict []
        end
      else PDict [("status", PStr "success")]))).

(** A service that is down: every call raises. *)
Definition unreachable : service := fun _ _ => Raises "connection refused".

(** A service on which only the media buy succeeds. *)
Definition buy_only : service :=
  fun _ c =>
    if String.eqb (fst c) "create_media_buy"
    then Returns (mkresult (Some (PDict [("media_buy_id", PStr "mb_1")])))
    else Raises "connection refused".

(** A service whose status polls fail. *)
Definition polls_fail : service :=
  fun history c =>
    if String.eqb (fst c) "check_creative_status"
    then Raises "timeout"
    else ad_server "on_track" history c.

(** The simulation once the media buy is made. *)
Definition booked : sim := mksim "purina" (PStr "mb_1") [] (PList []) [] [].

(** The simulation once the creatives are submitted. *)
Definition submitted : sim :=
  mksim "purina" (PStr "mb_1") submitted_ids (PList []) [] [].

(** A service that sells the media buy and answers submit_creatives with
    a null list of statuses. *)
Definition null_statuses : service :=
  fun _ c =>
    if String.eqb (fst c) "create_media_buy"
    then Returns (mkresult (Some (PDict [("media_buy_id", PStr "mb_1")])))
    else if String.eqb (fst c) "submit_creatives"
    then Returns (mkresult (Some (PDict [("statuses", PNone)])))
    else Raises "connection refused".

(** A service whose calls fail with a message that holds a closing tag. *)
Definition garbled : service := fun _ _ => Raises "no route to [/mcp]".

(** A service whose results carry no structured content: the attribute
    is there, and is None. *)
Definition contentless : service := fun _ _ => Returns (mkresult (Some PNone)).
(** ** The dry-run logs *)

Definition logs_call : call := ("get_dry_run_logs", PDict []).

(** Every attribute of the simulation object is as it was. *)
Definition same_attributes (st st' : sim) : Prop :=
  principal_id st' = principal_id st /\ media_buy_id st' = media_buy_id st
  /\ creative_ids st' = creative_ids st /\ products st' = products st.

(** The logs that get listed: those before the first one that the console
    refuses. *)
Fixpoint listed (lib : library) (logs : list pyval) : list pyval :=
  match logs with
  | [] => []
  | log :: rest =>
      if raises_markup lib "{}" [log] then [] else log :: listed lib rest
  end.

(** A service that keeps three dry-run logs. *)
Definition logging : service :=
  fun _ c =>
    if String.eqb (fst c) "get_dry_run_logs"
    then Returns (mkresult (Some (PDict [("dry_run_logs",
           PList [PStr "create_order"; PStr "add_line_item";
                  PStr "upload_creative"])])))
    else Raises "connection refused".

(** A service whose dry-run logs are a count, not a list. *)
Definition counting : service :=
  fun _ _ => Returns (mkresult (Some (PDict [("dry_run_logs", PInt 3)]))).

(** ** The script of a run *)

(** The delivery reads of in-flight monitoring. *)
Definition monitoring_reads (mb : pyval) : list call :=
  map (fun day => delivery_call mb (fst day)) monitoring_days.

(** The calls of phases 4 to 7, for the pacing seen at the optimization
    read and whether the targeting is updated. *)
Definition flight_script (mb : pyval) (observed : pyval) (update : bool)
  : list call :=
  ([delivery_call mb (add_days flight_start (-2))]
   ++ monitoring_reads mb
   ++ ([delivery_call mb (add_days flight_start 7);
        feedback mb (index_for observed)]
       ++ (if update then [targeting_update mb] else []))
   ++ [delivery_call mb (add_days flight_end 1)])%list.

(** The calls of a complete run, for the media buy [mb], the tracked
    creatives [ids] and the number of status polls. *)
Definition script (lib : library) (principal : string) (mb : pyval)
           (ids : list pyval) (polls : nat) (observed : pyval) (update : bool)
  : list call :=
  ([planning_call; buy_call lib principal; submit_call mb]
   ++ repeat (status_call ids) polls
   ++ flight_script mb observed update)%list.

(** The scripts of [S1] followed by those of [S2]. *)
Definition sequence (S1 S2 : list call -> Prop) : list call -> Prop :=
  fun s => exists s1 s2, S1 s1 /\ S2 s2 /\ s = (s1 ++ s2)%list.

(** [follows S st r st']: no attribute changed between [st] and [st'],
    and the calls issued in between are the first calls of a script of
    [S], all of them unless [r] is a raise. *)
Definition follows {A} (S : list call -> Prop) (st : sim)
           (r : result A) (st' : sim) : Prop :=
  same_attributes st st'
  /\ exists done rest,
       S (done ++ rest)%list
       /\ calls st' = (calls st ++ done)%list
       /\ ((forall e, r <> Raise e) -> rest = []).

(** The pacing that phase 6 acts on. *)
Definition pacing_acted_on (svc : service) (st : sim) : pyval :=
  match get (reply svc (calls st) (optimization_read st))
            "pacing" (PStr "unknown") with
  | Ok pacing => pacing
  | Raise _ => PStr "unknown"
  end.

(** The calls of phase 6, whatever the service replies. *)
Definition optimization_scripts (mb : pyval) (s : list call) : Prop :=
  exists (observed : pyval) (update : bool),
    s = ([delivery_call mb (add_days flight_start 7);
          feedback mb (index_for observed)]
         ++ (if update then [targeting_update mb] else []))%list.

(** The calls of phase 6 on a given service. *)
Definition optimization_script (svc : service) (st : sim) (s : list call) : Prop :=
  exists observed,
    s = ([optimization_read st; feedback (media_buy_id st) (index_for observed)]
         ++ (if py_eq_str (pacing_acted_on svc st) "under_delivery"
             then [targeting_update (media_buy_id st)] else []))%list.

Definition is_update (c : call) : bool := String.eqb (fst c) "update_media_buy".

(** ** Planning and pre-flight *)

(** A field of a dict, with the default [.get] is given. *)
Definition field (v : pyval) (k : string) (default : pyval) : pyval :=
  match get v k default with
  | Ok x => x
  | Raise _ => default
  end.

(** The cells of a product's row that come from the service as they are. *)
Definition cells (product : pyval) : list pyval :=
  [field product "product_id" (PStr ""); field product "name" (PStr "");
   field product "delivery_type" (PStr "")].

(** The table row of a product: the price is its cpm only when its
    is_fixed_price is true. *)
Definition table_row (product : pyval) : line :=
  if truthy (field product "is_fixed_price" PNone)
  then Say "{} | {} | {} | ${} CPM"
           (cells product ++ [field product "cpm" (PStr "Variable")])
  else Say "{} | {} | {} | Variable" (cells product).

(** A product dict whose cells the table takes: strings, or None. *)
Definition tabular (product : pyval) : bool :=
  is_dict product && forallb renderable (cells product).

Definition pre_flight_read (st : sim) : call :=
  delivery_call (media_buy_id st) (add_days flight_start (-2)).

(** A catalogue of two products, the second without a fixed price. *)
Definition catalogue : service :=
  fun _ c =>
    Returns (mkresult (Some (PDict [("products",
      PList [PDict [("product_id", PStr "prod_video_guaranteed_sports");
                    ("name", PStr "Sports Video - Guaranteed");
                    ("delivery_type", PStr "guaranteed");
                    ("is_fixed_price", PBool true);
                    ("cpm", PFloat 45.0)];
             PDict [("product_id", PStr "prod_audio_streaming");
                    ("name", PStr "Streaming Audio");
                    ("delivery_type", PStr "non_guaranteed");
                    ("is_fixed_price", PBool false);
                    ("cpm", PFloat 12.0)]])]))).

(** ** Polling without convergence *)

(** The line of a status in a round of polling. *)
Definition status_line (status : pyval) : line :=
  Say "{} {}: {}"
      [PBool (approved_status status); creative_id_of status;
       field status "status" (PStr "unknown")].

(** The statuses a reply lists. *)
Definition statuses_of (status_response : pyval) : list pyval :=
  match get status_response "statuses" (PList []) with
  | Ok (PList items) => items
  | _ => []
  end.

(** What polling on [days] prints when no round ends it: for each date,
    the day and one line per status of the reply to the query [c]. *)
Fixpoint polling_lines (svc : service) (history : list call) (c : call)
         (days : list date) : list line :=
  match days with
  | [] => []
  | check_date :: rest =>
      (Day check_date "Checking creative approval status"
       :: map status_line (statuses_of (reply svc history c))
       ++ polling_lines svc (history ++ [c]) c rest)%list
  end.

(** A check_creative_status reply that lists statuses, all of them dicts,
    of which one at least is not "approved". *)
Definition undecided (status_response : pyval) : bool :=
  match get status_response "statuses" (PList []) with
  | Ok (PList items) =>
      forallb is_dict items && negb (forallb approved_status items)
  | _ => false
  end.

(** A service on which the creatives stay pending. *)
Definition stalled : service :=
  fun history c =>
    if String.eqb (fst c) "check_creative_status"
    then Returns (mkresult (Some (PDict [("statuses",
           PList (match request_field (snd c) "creative_ids" with
                  | PList ids =>
                      map (fun id => PDict [("creative_id", id);
                                            ("status", PStr "pending")]) ids
                  | _ => []
                  end))])))
    else ad_server "on_track" history c.

(** ** The performance trend *)

(** The row of a day in the trend, for a bar of [bar] cells. *)
Definition trend_row (bar : Z) (data : snapshot) : line :=
  Say "{}: {} {:,} imps (${:,.0f})"
      [PStr (pad2 (month (snap_date data)) ++ "/" ++ pad2 (day (snap_date data)));
       PInt bar; impressions data; spend data].

(** Whether a value can be shown with a format specification. *)
Definition formats (v : pyval) (f : fmt) : bool :=
  match format_spec v f with
  | Ok _ => true
  | Raise _ => false
  end.

(** A day without impressions, whose spend can be shown. *)
Definition idle (data : snapshot) : bool :=
  match impressions data with
  | PInt n => (n <=? 0) && formats (spend data) Fixed
  | _ => false
  end.

(** The first days of a flight that has not delivered yet. *)
Definition quiet_days : list snapshot :=
  [mksnapshot flight_start (PInt 0) (PInt 0) (PStr "unknown");
   mksnapshot (add_days flight_start 2) (PFloat 0) (PInt 0) (PStr "unknown")].
(** * Properties *)

(** ** Values *)

Lemma py_eq_str_spec (v : pyval) (s : string) :
  py_eq_str v s = true <-> v = PStr s.
Proof.
  destruct v; simpl; try (split; [discriminate | intros H; discriminate H]).
  rewrite String.eqb_eq. split; [intros -> | intros [= ->]]; reflexivity.
Qed.

(** *** Texts without a bracket *)

Lemma bracketed_lookup (d : list (string * pyval)) (k : string) (x : pyval) :
  bracketed (PDict d) = false -> lookup k d = Some x -> bracketed x = false.
Proof.
  induction d as [| [k' v] d IH]; cbn [lookup]; [discriminate |].
  intros Hd. change (has_bracket k' || bracketed v || bracketed (PDict d) = false) in Hd.
  apply orb_false_elim in Hd. destruct Hd as [Hkv Hrest].
  apply orb_false_elim in Hkv. destruct Hkv as [_ Hv].
  destruct (String.eqb k k'); [intros [= <-]; exact Hv | apply IH; exact Hrest].
Qed.

(** A field of a value without brackets has none, if the default has
    none. *)
Lemma bracketed_get (v : pyval) (k : string) (default x : pyval) :
  bracketed v = false -> bracketed default = false ->
  get v k default = Ok x -> bracketed x = false.
Proof.
  destruct v; try discriminate. cbn [get]. intros Hd Hdefault [= <-].
  destruct (lookup k d) as [y |] eqn:Hk; [| exact Hdefault].
  eapply bracketed_lookup; eassumption.
Qed.

Lemma bracketed_cons (x : pyval) (l : list pyval) :
  bracketed (PList (x :: l)) = bracketed x || bracketed (PList l).
Proof. reflexivity. Qed.

Lemma bracketed_iter (v : pyval) (items : list pyval) :
  bracketed v = false -> py_iter v = Ok items ->
  forallb (fun x => negb (bracketed x)) items = true.
Proof.
  destruct v; try discriminate; cbn [py_iter]; intros Hv [= <-].
  - induction s as [| c s IH]; [reflexivity |].
    cbn [list_ascii_of_string map forallb] in *.
    cbn [bracketed has_bracket] in Hv. apply orb_false_elim in Hv.
    destruct Hv as [Hc Hs]. cbn [bracketed has_bracket]. rewrite Hc.
    cbn [orb negb andb]. apply IH. exact Hs.
  - induction l as [| x l IH]; [reflexivity |].
    rewrite bracketed_cons in Hv. apply orb_false_elim in Hv.
    destruct Hv as [Hx Hl]. cbn [forallb]. rewrite Hx. cbn [negb andb].
    apply IH. exact Hl.
  - induction d as [| [k x] d IH]; [reflexivity |].
    change (has_bracket k || bracketed x || bracketed (PDict d) = false) in Hv.
    apply orb_false_elim in Hv. destruct Hv as [Hkx Hd].
    apply orb_false_elim in Hkx. destruct Hkx as [Hk _].
    cbn [map forallb fst bracketed]. rewrite Hk. cbn [negb andb].
    apply IH. exact Hd.
Qed.

(** A print whose values hold no bracket is not refused. *)
Lemma plain_texts_print (lib : library) (msg : string) (args : list pyval) :
  forallb (fun x => negb (bracketed x)) args = true ->
  raises_markup lib msg args = false.
Proof.
  intros H. unfold raises_markup.
  replace (existsb bracketed args) with false; [reflexivity |].
  symmetry. induction args as [| x args IH]; [reflexivity |].
  cbn [forallb existsb] in *. apply andb_prop in H. destruct H as [Hx Hargs].
  apply negb_true_iff in Hx. rewrite Hx. cbn [orb]. apply IH. exact Hargs.
Qed.

(** ** The gateway *)

Lemma call_tool_eq (svc : service) (lib : library) (tool_name : string)
      (params : pyval) (st : sim) :
  _call_tool svc lib tool_name params st =
  if answered lib (tool_name, params) (svc (calls st) (tool_name, params))
  then (Ok (reply svc (calls st) (tool_name, params)),
        called (tool_name, params)
               (reported tool_name (svc (calls st) (tool_name, params))) st)
  else (Raise MarkupError, log_call (tool_name, params) st).
Proof.
  unfold _call_tool, client_call_tool, bind, reply, content_of, called, reported,
    answered, say, print, error_report.
  cbn [fst snd]. destruct (svc (calls st) (tool_name, params)) as [r | e].
  - cbn [ret log_call principal_id media_buy_id creative_ids products calls console].
    rewrite app_nil_r. reflexivity.
  - cbn [log_call principal_id media_buy_id creative_ids products calls console].
    destruct (raises_markup lib _ _); reflexivity.
Qed.

(** ** Reasoning about a run *)

Lemma wp_bind {A B} (m : M A) (k : A -> M B) (st : sim) Q :
  wp m st (fun r st' =>
             match r with
             | Ok a => wp (k a) st' Q
             | Raise e => Q (Raise e) st'
             end) ->
  wp (bind m k) st Q.
Proof.
  unfold wp, bind. destruct (m st) as [[a | e] st']; simpl; auto.
Qed.

Lemma wp_weaken {A} (m : M A) (st : sim) (Q Q' : result A -> sim -> Prop) :
  wp m st Q -> (forall r st', Q r st' -> Q' r st') -> wp m st Q'.
Proof. unfold wp. auto. Qed.

(** A call: the wrapper returns what the service replied, having printed
    [out], or the report of the failure is refused. *)
Lemma wp_call_tool (svc : service) (lib : library) (tool_name : string)
      (params : pyval) (st : sim) Q :
  (forall out,
     answered lib (tool_name, params) (svc (calls st) (tool_name, params)) = true ->
     Q (Ok (reply svc (calls st) (tool_name, params)))
       (called (tool_name, params) out st)) ->
  (answered lib (tool_name, params) (svc (calls st) (tool_name, params)) = false ->
   Q (Raise MarkupError) (log_call (tool_name, params) st)) ->
  wp (_call_tool svc lib tool_name params) st Q.
Proof.
  intros Hok Hno. unfold wp. rewrite call_tool_eq.
  destruct (answered lib _ _) eqn:H; cbn [fst snd]; auto.
Qed.

(** The same, keeping what the wrapper printed. *)
Lemma wp_call_tool_reported (svc : service) (lib : library) (tool_name : string)
      (params : pyval) (st : sim) Q :
  (answered lib (tool_name, params) (svc (calls st) (tool_name, params)) = true ->
   Q (Ok (reply svc (calls st) (tool_name, params)))
     (called (tool_name, params)
             (reported tool_name (svc (calls st) (tool_name, params))) st)) ->
  (answered lib (tool_name, params) (svc (calls st) (tool_name, params)) = false ->
   Q (Raise MarkupError) (log_call (tool_name, params) st)) ->
  wp (_call_tool svc lib tool_name params) st Q.
Proof.
  intros Hok Hno. unfold wp. rewrite call_tool_eq.
  destruct (answered lib _ _) eqn:H; cbn [fst snd]; auto.
Qed.

Lemma wp_print (lib : library) (msg : string) (texts : list pyval)
      (lines : list line) (st : sim) (Q : result unit -> sim -> Prop) :
  (raises_markup lib msg texts = true -> Q (Raise MarkupError) st) ->
  (raises_markup lib msg texts = false ->
   Q (Ok tt) (mksim (principal_id st) (media_buy_id st) (creative_ids st)
                    (products st) (calls st) (console st ++ lines))) ->
  wp (print lib msg texts lines) st Q.
Proof.
  intros Hno Hok. unfold wp, print.
  destruct (raises_markup lib msg texts); cbn [fst snd]; auto.
Qed.

Lemma wp_say (lib : library) (msg : string) (args : list pyval)
      (st : sim) (Q : result unit -> sim -> Prop) :
  (raises_markup lib msg args = true -> Q (Raise MarkupError) st) ->
  (raises_markup lib msg args = false ->
   Q (Ok tt) (mksim (principal_id st) (media_buy_id st) (creative_ids st)
                    (products st) (calls st) (console st ++ [Say msg args]))) ->
  wp (say lib msg args) st Q.
Proof. apply wp_print. Qed.

Arguments _call_tool : simpl never.
Arguments say : simpl never.
Arguments print : simpl never.

(** Closes the case of a refused print when the values printed are
    numbers or texts of the program. *)
Ltac never_refused H :=
  cbn [raises_markup existsb bracketed has_bracket andb orb] in H;
  discriminate H.

(** One step of a run: the primitives that only read or extend the state
    compute; a call is replaced by what the service replies; a print
    goes through or is refused. *)
Ltac wp_simpl :=
  cbv beta iota;
  cbn [_show_day self_media_buy_id self_creative_ids self_principal_id
       set_media_buy_id set_products append_creative_id ret raise lift get
       fst snd calls console media_buy_id creative_ids products principal_id
       called log_call].

Ltac wp_prim :=
  lazymatch goal with
  | |- wp (bind _ _) _ _ => apply wp_bind
  | |- wp (_call_tool _ _ _ _) _ _ =>
      apply wp_call_tool; wp_simpl;
      [intros ?out ?Hanswered | intros ?Hunanswered]
  | |- wp (say _ _ _) _ _ =>
      apply wp_say; wp_simpl;
      [ let H := fresh "Hrefused" in intros H; try never_refused H
      | intros _ ]
  | |- wp (print _ _ _ _) _ _ =>
      apply wp_print; wp_simpl;
      [ let H := fresh "Hrefused" in intros H; try never_refused H
      | intros _ ]
  | |- wp (_show_day _ _) _ _ => unfold wp at 1
  | |- wp (ret _) _ _ => unfold wp at 1
  | |- wp (raise _) _ _ => unfold wp at 1
  | |- wp (lift _) _ _ => unfold wp at 1
  | |- wp self_media_buy_id _ _ => unfold wp at 1
  | |- wp self_creative_ids _ _ => unfold wp at 1
  | |- wp self_principal_id _ _ => unfold wp at 1
  | |- wp (set_media_buy_id _) _ _ => unfold wp at 1
  | |- wp (set_products _) _ _ => unfold wp at 1
  | |- wp (append_creative_id _) _ _ => unfold wp at 1
  end;
  wp_simpl.

Ltac wp_run := repeat wp_prim.

(** A branch of the program, or a step that may raise. *)
Ltac wp_branch :=
  lazymatch goal with
  | |- wp (if ?b then _ else _) _ _ => destruct b eqn:?
  | |- match ?r with Ok _ => _ | Raise _ => _ end => destruct r eqn:?
  end.

Ltac wp_all := repeat first [wp_prim | wp_branch].

Ltac conj_split := repeat match goal with |- _ /\ _ => split end.

Ltac calls_done :=
  repeat rewrite <- app_assoc; cbn [app];
  try (eexists; reflexivity); try reflexivity.

Lemma last_line (before : list line) (l : line) (default : line) :
  last (before ++ [l]) default = l.
Proof. apply last_last. Qed.

Lemma wp_run_eq {A} (m : M A) (st : sim) (Q : result A -> sim -> Prop) :
  wp m st Q -> exists r st', m st = (r, st') /\ Q r st'.
Proof.
  unfold wp. intros H. exists (fst (m st)), (snd (m st)).
  split; [apply surjective_pairing | exact H].
Qed.

Lemma wp_conj {A} (m : M A) (st : sim) (Q1 Q2 : result A -> sim -> Prop) :
  wp m st Q1 -> wp m st Q2 -> wp m st (fun r st' => Q1 r st' /\ Q2 r st').
Proof. unfold wp. auto. Qed.

Lemma printed_app {A} (m : M A) (st : sim) (out : list line) :
  console (snd (m st)) = (console st ++ out)%list -> printed m st = out.
Proof.
  intros H. unfold printed. rewrite H, skipn_app, skipn_all, Nat.sub_diag.
  reflexivity.
Qed.

Lemma issued_app {A} (m : M A) (st : sim) (done : list call) :
  calls (snd (m st)) = (calls st ++ done)%list -> issued m st = done.
Proof.
  intros H. unfold issued. rewrite H, skipn_app, skipn_all, Nat.sub_diag.
  reflexivity.
Qed.

Lemma quiet_refl (st : sim) : quiet st st.
Proof. repeat split. Qed.

(** ** Numbers *)

Lemma cmp_int_float_nan (z z' : Z) (f : float) :
  cmp_int_float z f = None -> cmp_int_float z' f = None.
Proof.
  unfold cmp_int_float. destruct (Prim2SF f); congruence.
Qed.

(** A float above the int 0 is not a zero. *)
Lemma float_gt_zero_not_zero (f : float) :
  cmp_int_float 0 f = Some Lt -> PrimFloat.is_zero f = false.
Proof.
  unfold cmp_int_float, Prim2SF.
  destruct (PrimFloat.is_nan f); [discriminate |].
  destruct (PrimFloat.is_zero f); [discriminate | reflexivity].
Qed.

Lemma int_truediv_no_zero_division (x y : Z) :
  int_truediv x y <> Raise ZeroDivisionError.
Proof.
  unfold int_truediv. destruct x; [discriminate | |];
    match goal with
    | |- match ?s with _ => _ end <> _ => destruct s; discriminate
    end.
Qed.

Lemma to_float_no_zero_division (n : num) (k : float -> result float) :
  (forall f, k f <> Raise ZeroDivisionError) ->
  rbind (to_float n) k <> Raise ZeroDivisionError.
Proof.
  intros Hk. destruct n as [z | f]; simpl; [| apply Hk].
  unfold float_of_int.
  destruct (binary_normalize prec emax z 0 false); simpl;
    first [apply Hk | discriminate].
Qed.

Lemma gt_zero_not_zero (n : num) :
  num_gt n (NInt 0) = true -> is_zero_num n = false.
Proof.
  destruct n as [z | f]; simpl.
  - intros H. apply Z.ltb_lt in H. apply Z.eqb_neq. lia.
  - destruct (cmp_int_float 0 f) as [[] |] eqn:Hc; try discriminate.
    intros _. apply float_gt_zero_not_zero. exact Hc.
Qed.

(** A division whose divisor has passed [> 0] does not divide by zero. *)
Lemma guarded_truediv (a b : pyval) :
  py_gt b (PInt 0) = Ok true ->
  py_truediv a b <> Raise ZeroDivisionError.
Proof.
  unfold py_gt, py_truediv.
  destruct (as_num b) as [y |]; simpl; [| discriminate].
  intros [= Hy]. apply gt_zero_not_zero in Hy.
  destruct (as_num a) as [x |]; [| discriminate].
  assert (Hfloat :
    rbind (to_float x) (fun fx =>
    rbind (to_float y) (fun fy =>
    if is_zero_num y then Raise ZeroDivisionError else Ok (fx / fy)%float))
    <> Raise ZeroDivisionError).
  { apply to_float_no_zero_division. intros fx.
    apply to_float_no_zero_division. intros fy. rewrite Hy. discriminate. }
  destruct x as [x | fx]; [| exact Hfloat].
  destruct y as [y | fy]; [| exact Hfloat].
  simpl in Hy. rewrite Hy. apply int_truediv_no_zero_division.
Qed.

(** *** What each operation can raise *)

Lemma get_raises v k default e : get v k default = Raise e -> fault e = true.
Proof. destruct v; simpl; intros [= <-]; reflexivity. Qed.

Lemma iter_raises v e : py_iter v = Raise e -> fault e = true.
Proof. destruct v; simpl; intros [= <-]; reflexivity. Qed.

Lemma len_raises v e : py_len v = Raise e -> fault e = true.
Proof. destruct v; simpl; intros [= <-]; reflexivity. Qed.

Lemma gt_raises a b e : py_gt a b = Raise e -> fault e = true.
Proof.
  unfold py_gt. destruct (as_num a), (as_num b); intros [= <-]; reflexivity.
Qed.

Lemma ge_raises a b e : py_ge a b = Raise e -> fault e = true.
Proof.
  unfold py_ge. destruct (as_num a), (as_num b); intros [= <-]; reflexivity.
Qed.

Lemma float_of_int_raises z e : float_of_int z = Raise e -> fault e = true.
Proof.
  unfold float_of_int.
  destruct (binary_normalize prec emax z 0 false); intros [= <-]; reflexivity.
Qed.

Lemma format_raises v f e : format_spec v f = Raise e -> fault e = true.
Proof.
  destruct v; simpl; try (intros [= <-]; reflexivity); try discriminate.
  destruct f; [| discriminate].
  destruct (float_of_int z) eqn:Hz; simpl; [discriminate |].
  intros [= <-]. eapply float_of_int_raises. exact Hz.
Qed.

Lemma int_raises f e : py_int f = Raise e -> fault e = true.
Proof.
  unfold py_int. destruct (Prim2SF f); intros [= <-]; reflexivity.
Qed.

Lemma max_raises xs : forall best e,
  py_max_from best xs = Raise e -> fault e = true.
Proof.
  induction xs as [| x xs IH]; simpl; intros best e; [discriminate |].
  destruct (py_gt x best) eqn:Hgt; simpl.
  - apply IH.
  - intros [= <-]. eapply gt_raises. exact Hgt.
Qed.

Lemma to_float_raises n e : to_float n = Raise e -> fault e = true.
Proof. destruct n; simpl; [apply float_of_int_raises | discriminate]. Qed.

Lemma int_truediv_raises x y e : int_truediv x y = Raise e -> fault e = true.
Proof.
  unfold int_truediv. destruct x; [discriminate | |];
    match goal with
    | |- match ?s with _ => _ end = _ -> _ =>
        destruct s; intros [= <-]; reflexivity
    end.
Qed.

Lemma truediv_raises a b e :
  py_truediv a b = Raise e -> e = ZeroDivisionError \/ fault e = true.
Proof.
  unfold py_truediv.
  destruct (as_num a) as [x |]; [| intros [= <-]; right; reflexivity].
  destruct (as_num b) as [y |];
    [| destruct x; intros [= <-]; right; reflexivity].
  assert (Hfloat :
    rbind (to_float x) (fun fx =>
    rbind (to_float y) (fun fy =>
    if is_zero_num y then Raise ZeroDivisionError else Ok (fx / fy)%float))
    = Raise e -> e = ZeroDivisionError \/ fault e = true).
  { destruct (to_float x) eqn:Hx; simpl;
      [| intros [= <-]; right; eapply to_float_raises; exact Hx].
    destruct (to_float y) eqn:Hy; simpl;
      [| intros [= <-]; right; eapply to_float_raises; exact Hy].
    destruct (is_zero_num y); [intros [= <-]; left; reflexivity | discriminate]. }
  destruct x as [x | fx]; [| exact Hfloat].
  destruct y as [y | fy]; [| exact Hfloat].
  destruct (y =? 0); [intros [= <-]; left; reflexivity |].
  intros H. right. eapply int_truediv_raises. exact H.
Qed.

Lemma guarded_truediv_raises a b e :
  py_gt b (PInt 0) = Ok true -> py_truediv a b = Raise e -> fault e = true.
Proof.
  intros Hb H. destruct (truediv_raises a b e H) as [-> | Hf]; [| exact Hf].
  exfalso. exact (guarded_truediv a b Hb H).
Qed.

Lemma fault_not_zero_division e : fault e = true -> e <> ZeroDivisionError.
Proof. intros H ->. discriminate H. Qed.

Lemma fault_not_abort e msg : fault e = true -> e <> Exception msg.
Proof. intros H ->. discriminate H. Qed.

(** Turns a raised exception in the context into what it can be. *)
Ltac raised :=
  match goal with
  | H : get _ _ _ = Raise _ |- _ => apply get_raises in H
  | H : py_iter _ = Raise _ |- _ => apply iter_raises in H
  | H : py_len _ = Raise _ |- _ => apply len_raises in H
  | H : py_gt _ _ = Raise _ |- _ => apply gt_raises in H
  | H : py_ge _ _ = Raise _ |- _ => apply ge_raises in H
  | H : format_spec _ _ = Raise _ |- _ => apply format_raises in H
  | H : py_int _ = Raise _ |- _ => apply int_raises in H
  | H : py_max_from _ _ = Raise _ |- _ => apply max_raises in H
  | G : py_gt ?b (PInt 0) = Ok true, H : py_truediv _ ?b = Raise _ |- _ =>
      apply (guarded_truediv_raises _ _ _ G) in H
  end.

(** Closes [quiet st st'] on a state that differs by its console. *)
Ltac quiet_done :=
  unfold quiet; cbn [principal_id media_buy_id creative_ids products calls];
  conj_split; reflexivity.

(** Closes [forall e, r = Raise e -> fault e = true] at the end of a run. *)
Ltac faults_done :=
  let H := fresh in
  intros ? H;
  first [ discriminate H
        | injection H as <-; repeat raised; first [assumption | reflexivity] ].

(** Names the lines printed since the start. *)
Ltac printed_so_far :=
  cbn [console];
  first [ exists (@nil line); split; [symmetry; apply app_nil_r |]
        | eexists; split; [repeat rewrite <- app_assoc; reflexivity |] ].
(** ** The gateway on a failure it cannot report *)

(** C10: [_call_tool] does not absorb every failure.  When the remote
    call raises with a message that rich refuses as markup, here a
    closing tag that nothing opens, the print in the handler raises and
    the [MarkupError] leaves [_call_tool], the call being issued.  And a
    result whose [structured_content] is None is handed on as None, not
    as the empty dict: the caller's [.get] then raises, which it does not
    after a failed call. *)
Lemma call_tool_lets_an_error_out :
  let st := init "purina" in
  fst (_call_tool garbled py "list_products" planning_request st)
    = Raise MarkupError
  /\ calls (snd (_call_tool garbled py "list_products" planning_request st))
     = [planning_call]
  /\ fst (_call_tool contentless py "list_products" planning_request st)
     = Ok PNone
  /\ fst (_phase_1_planning contentless py st) = Raise AttributeError
  /\ fst (_call_tool unreachable py "list_products" planning_request st)
     = Ok (PDict [])
  /\ fst (_phase_1_planning unreachable py st) = Ok tt.
Proof. vm_compute. repeat split. Qed.

(** ** Phase 6: feedback and optimization *)






(** ** Phase 7: the completion report *)

Lemma delivery_pct_no_zero_division (spent budget : pyval) :
  delivery_pct_of spent budget <> Raise ZeroDivisionError.
Proof.
  unfold delivery_pct_of.
  destruct (py_gt budget (PInt 0)) as [[] | e] eqn:Hb; simpl.
  - pose proof (guarded_truediv spent budget Hb) as H.
    destruct (py_truediv spent budget); simpl; congruence.
  - discriminate.
  - unfold py_gt in Hb.
    destruct (as_num budget); simpl in Hb; congruence.
Qed.

Lemma not_above_zero (budget : pyval) :
  py_ge (PInt 0) budget = Ok true -> py_gt budget (PInt 0) = Ok false.
Proof.
  unfold py_ge, py_gt. simpl.
  destruct (as_num budget) as [[y | f] |]; simpl; try discriminate.
  - intros [= H]. f_equal. apply Z.leb_le in H. apply Z.ltb_ge. exact H.
  - destruct (cmp_int_float 0 f) as [[] |]; intros H; try discriminate H;
      reflexivity.
Qed.

Lemma tier_excellent (delivery_pct : pyval) :
  tier_of delivery_pct = Ok Excellent <->
  py_ge delivery_pct (PInt 95) = Ok true.
Proof.
  unfold tier_of.
  destruct (py_ge delivery_pct (PInt 95)) as [[] | e]; simpl.
  - split; reflexivity.
  - split; [| discriminate].
    destruct (py_ge delivery_pct (PInt 80)) as [[] | e]; simpl; discriminate.
  - split; discriminate.
Qed.

Lemma below_iff_not_at_least (delivery_pct : pyval) (bound : Z) :
  py_ge delivery_pct (PInt 80) = Ok true ->
  (py_ge delivery_pct (PInt bound) = Ok false <->
   py_gt (PInt bound) delivery_pct = Ok true).
Proof.
  unfold py_ge, py_gt. simpl.
  destruct (as_num delivery_pct) as [[x | f] |]; simpl; try discriminate.
  - intros _. destruct (Z.leb_spec bound x), (Z.ltb_spec x bound);
      split; intros Hb; try reflexivity; try discriminate Hb; lia.
  - intros H80.
    destruct (cmp_int_float bound f) as [[] |] eqn:Hc;
      try (split; intros Hb; first [reflexivity | discriminate Hb]).
    apply cmp_int_float_nan with (z' := 80) in Hc. rewrite Hc in H80.
    discriminate H80.
Qed.

Lemma tier_good (delivery_pct : pyval) :
  tier_of delivery_pct = Ok Good <->
  py_ge delivery_pct (PInt 80) = Ok true /\
  py_gt (PInt 95) delivery_pct = Ok true.
Proof.
  split.
  - intros H. unfold tier_of in H.
    destruct (py_ge delivery_pct (PInt 95)) as [[] | e] eqn:H95; simpl in H;
      try discriminate H.
    destruct (py_ge delivery_pct (PInt 80)) as [[] | e] eqn:H80; simpl in H;
      try discriminate H.
    split; [reflexivity |].
    apply (below_iff_not_at_least delivery_pct 95 H80). exact H95.
  - intros [H80 H95].
    apply (below_iff_not_at_least delivery_pct 95 H80) in H95.
    unfold tier_of. rewrite H95. simpl. rewrite H80. reflexivity.
Qed.

Lemma tier_under_delivery (delivery_pct : pyval) :
  tier_of delivery_pct = Ok UnderDelivery <->
  py_ge delivery_pct (PInt 95) = Ok false /\
  py_ge delivery_pct (PInt 80) = Ok false.
Proof.
  unfold tier_of.
  destruct (py_ge delivery_pct (PInt 95)) as [[] | e]; simpl;
    try (split; [discriminate | intros [H _]; discriminate H]).
  destruct (py_ge delivery_pct (PInt 80)) as [[] | e]; simpl;
    split; try discriminate; try (intros [_ H]; discriminate H);
    try (intros _; split; reflexivity).
Qed.

Lemma delivery_pct_raises (spent budget : pyval) (e : exn) :
  delivery_pct_of spent budget = Raise e -> fault e = true.
Proof.
  unfold delivery_pct_of.
  destruct (py_gt budget (PInt 0)) as [[] | e'] eqn:Hb; simpl.
  - destruct (py_truediv spent budget) eqn:Hd; simpl; [discriminate |].
    intros [= <-]. eapply guarded_truediv_raises; eassumption.
  - discriminate.
  - intros [= <-]. eapply gt_raises. exact Hb.
Qed.

Lemma tier_raises (delivery_pct : pyval) (e : exn) :
  tier_of delivery_pct = Raise e -> fault e = true.
Proof.
  unfold tier_of.
  destruct (py_ge delivery_pct (PInt 95)) as [[] | e'] eqn:H95; simpl.
  - discriminate.
  - destruct (py_ge delivery_pct (PInt 80)) as [[] | e''] eqn:H80; simpl;
      try discriminate.
    intros [= <-]. eapply ge_raises. exact H80.
  - intros [= <-]. eapply ge_raises. exact H95.
Qed.


Lemma product_row_raises (product : pyval) (e : exn) :
  product_row product = Raise e -> fault e = true.
Proof.
  unfold product_row. destruct product; cbn [get rbind];
    try (intros [= <-]; reflexivity).
  destruct (truthy _); cbn [rbind];
    destruct (forallb renderable _); intros [= <-]; reflexivity.
Qed.

Lemma add_rows_raises (items : list pyval) : forall (table : list line) (e : exn),
  add_rows table items = Raise e -> fault e = true.
Proof.
  induction items as [| product rest IH]; intros table e; cbn [add_rows];
    [discriminate |].
  destruct (product_row product) as [row | e'] eqn:Hrow; cbn [rbind].
  - apply IH.
  - intros [= <-]. eapply product_row_raises. exact Hrow.
Qed.

Ltac raised ::=
  match goal with
  | H : get _ _ _ = Raise _ |- _ => apply get_raises in H
  | H : py_iter _ = Raise _ |- _ => apply iter_raises in H
  | H : py_len _ = Raise _ |- _ => apply len_raises in H
  | H : py_gt _ _ = Raise _ |- _ => apply gt_raises in H
  | H : py_ge _ _ = Raise _ |- _ => apply ge_raises in H
  | H : format_spec _ _ = Raise _ |- _ => apply format_raises in H
  | H : py_int _ = Raise _ |- _ => apply int_raises in H
  | H : py_max_from _ _ = Raise _ |- _ => apply max_raises in H
  | H : delivery_pct_of _ _ = Raise _ |- _ => apply delivery_pct_raises in H
  | H : tier_of _ = Raise _ |- _ => apply tier_raises in H
  | H : add_rows _ _ = Raise _ |- _ => apply add_rows_raises in H
  | G : py_gt ?b (PInt 0) = Ok true, H : py_truediv _ ?b = Raise _ |- _ =>
      apply (guarded_truediv_raises _ _ _ G) in H
  end.

Lemma app_three {A} (xs : list A) (a b c : A) :
  (((xs ++ [a]) ++ [b]) ++ [c] = xs ++ [a; b; c])%list.
Proof. repeat rewrite <- app_assoc. reflexivity. Qed.

(** Phase 7 on any service: it raises only where Python or rich does on a
    value of the reply, and when it returns it has printed the
    utilization and the tier of the spend against the budget 50000. *)
Lemma phase_7_report (svc : service) (lib : library) (st : sim) :
  let final := reply svc (calls st) (completion_read st) in
  wp (_phase_7_completion svc lib) st (fun r st' =>
    (forall e, r = Raise e -> fault e = true) /\
    (r = Ok tt ->
     exists spent delivery_pct t before,
       get final "spend" (PInt 0) = Ok spent
       /\ delivery_pct_of spent (PFloat 50000.00) = Ok delivery_pct
       /\ tier_of delivery_pct = Ok t
       /\ console st' =
          (before ++ [Say "Budget Utilization: {:.1f}%" [delivery_pct];
                      Say (tier_message t) [];
                      Say "Campaign lifecycle complete!" []])%list)).
Proof.
  intros final. unfold _phase_7_completion, summary_panel.
  wp_run; [| split; [faults_done | discriminate]].
  change ("get_media_buy_delivery",
          delivery_request (media_buy_id st) (add_days flight_end 1))
    with (completion_read st). fold final.
  destruct final as [| | | | | | d]; cbn [get];
    try (split; [intros e [= <-]; reflexivity | discriminate]).
  wp_all;
    try (split; [faults_done | discriminate]).
  all: split; [discriminate |].
  all: intros _; do 4 eexists.
  all: split; [reflexivity |].
  all: split; [eassumption |].
  all: split; [eassumption | apply app_three].
Qed.

(** C4: the completion classification.  [delivery_pct] is
    spend / budget * 100 when the budget is above 0 and 0 when it is not;
    computing it never divides by zero.  The tier is excellent exactly
    from 95 up, good exactly from 80 up to but excluding 95, and
    under-delivery below: a spend of 47500 against 50000 gives exactly
    95.0 and excellent, 47499.99 gives good.  Phase 7 reports that tier
    for the spend of the final read against the budget 50000. *)
Theorem completion_classification :
  (forall spent budget,
     py_gt budget (PInt 0) = Ok true ->
     delivery_pct_of spent budget =
       rbind (py_truediv spent budget) (fun q => Ok (PFloat (q * 100))))
  /\ (forall spent budget,
        py_ge (PInt 0) budget = Ok true ->
        delivery_pct_of spent budget = Ok (PInt 0))
  /\ (forall spent budget,
        delivery_pct_of spent budget <> Raise ZeroDivisionError)
  /\ (forall delivery_pct,
        (tier_of delivery_pct = Ok Excellent <->
         py_ge delivery_pct (PInt 95) = Ok true)
        /\ (tier_of delivery_pct = Ok Good <->
            py_ge delivery_pct (PInt 80) = Ok true /\
            py_gt (PInt 95) delivery_pct = Ok true)
        /\ (tier_of delivery_pct = Ok UnderDelivery <->
            py_ge delivery_pct (PInt 95) = Ok false /\
            py_ge delivery_pct (PInt 80) = Ok false))
  /\ (delivery_pct_of (PInt 47500) (PFloat 50000.00) = Ok (PFloat 95.0)
      /\ tier_of (PFloat 95.0) = Ok Excellent)
  /\ (delivery_pct_of (PFloat 47499.99) (PFloat 50000.00) = Ok (PFloat 94.99998)
      /\ tier_of (PFloat 94.99998) = Ok Good)
  /\ (forall svc lib st,
        let out := _phase_7_completion svc lib st in
        fst out = Ok tt ->
        exists spent delivery_pct t before,
          get (reply svc (calls st) (completion_read st)) "spend" (PInt 0)
            = Ok spent
          /\ delivery_pct_of spent (PFloat 50000.00) = Ok delivery_pct
          /\ tier_of delivery_pct = Ok t
          /\ console (snd out) =
             (before ++ [Say "Budget Utilization: {:.1f}%" [delivery_pct];
                         Say (tier_message t) [];
                         Say "Campaign lifecycle complete!" []])%list).
Proof.
  split; [| split; [| split; [| split; [| split; [| split]]]]].
  - intros spent budget H. unfold delivery_pct_of. rewrite H. reflexivity.
  - intros spent budget H. apply not_above_zero in H.
    unfold delivery_pct_of. rewrite H. reflexivity.
  - apply delivery_pct_no_zero_division.
  - intros delivery_pct. split; [apply tier_excellent |].
    split; [apply tier_good | apply tier_under_delivery].
  - split; vm_compute; reflexivity.
  - split; vm_compute; reflexivity.
  - intros svc lib st out H. exact (proj2 (phase_7_report svc lib st) H).
Qed.

(** The classification on a finished campaign: 48000 spent is 96.0 and
    excellent. *)
Lemma completion_classification_witness :
  let svc := ad_server "on_track" in
  let st := mksim "purina" (PStr "mb_1") submitted_ids (PList []) [] [] in
  fst (_phase_7_completion svc py st) = Ok tt
  /\ exists before,
       get (reply svc (calls st) (completion_read st)) "spend" (PInt 0)
         = Ok (PInt 48000)
       /\ delivery_pct_of (PInt 48000) (PFloat 50000.00) = Ok (PFloat 96.0)
       /\ tier_of (PFloat 96.0) = Ok Excellent
       /\ console (snd (_phase_7_completion svc py st)) =
          (before ++ [Say "Budget Utilization: {:.1f}%" [PFloat 96.0];
                      Say (tier_message Excellent) [];
                      Say "Campaign lifecycle complete!" []])%list.
Proof.
  cbv zeta.
  assert (Hok : fst (_phase_7_completion (ad_server "on_track") py
                       (mksim "purina" (PStr "mb_1") submitted_ids (PList []) [] []))
                = Ok tt) by (vm_compute; reflexivity).
  split; [exact Hok |].
  destruct (proj2 (proj2 (proj2 (proj2 (proj2 (proj2 completion_classification)))))
              (ad_server "on_track") py
              (mksim "purina" (PStr "mb_1") submitted_ids (PList []) [] []) Hok)
    as (spent & delivery_pct & t & before & Hs & Hp & Ht & Hc).
  assert (spent = PInt 48000) as -> by (vm_compute in Hs; congruence).
  assert (delivery_pct = PFloat 96.0) as -> by (vm_compute in Hp; congruence).
  assert (t = Excellent) as -> by (vm_compute in Ht; congruence).
  exists before. repeat split; assumption.
Defined.
(** ** Phase 3: submission and polling *)

(** The fields of a status without brackets print. *)
Lemma status_line_prints (lib : library) (msg : string) (status : pyval)
      (creative_id status_val : pyval) :
  bracketed status = false ->
  get status "creative_id" PNone = Ok creative_id ->
  get status "status" (PStr "unknown") = Ok status_val ->
  forall prefix,
    forallb (fun x => negb (bracketed x)) prefix = true ->
    raises_markup lib msg (prefix ++ [creative_id; status_val]) = false.
Proof.
  intros Hplain Hid Hval prefix Hprefix. apply plain_texts_print.
  rewrite forallb_app, Hprefix. cbn [forallb andb].
  rewrite (bracketed_get status "creative_id" PNone _ Hplain eq_refl Hid).
  rewrite (bracketed_get status "status" (PStr "unknown") _ Hplain eq_refl Hval).
  reflexivity.
Qed.

(** The inner loop prints only.  On statuses that all read approved it
    leaves [all_approved] as it was, unless a line is refused; none is
    when the statuses hold no bracket. *)
Lemma scan_statuses_spec (lib : library) (items : list pyval) :
  forall (b : bool) (st : sim),
  wp (scan_statuses lib b items) st (fun r st' =>
    quiet st st'
    /\ (forall e, r = Raise e -> fault e = true)
    /\ (forallb approved_status items = true ->
        (r = Ok b \/ r = Raise MarkupError)
        /\ (forallb (fun x => negb (bracketed x)) items = true -> r = Ok b))).
Proof.
  induction items as [| status rest IH]; intros b st.
  - cbn [scan_statuses]. wp_run. split; [apply quiet_refl |].
    split; [discriminate | intros _; split; [left |]; reflexivity].
  - cbn [scan_statuses forallb]. unfold check_status, approved_status at 1.
    wp_prim. wp_prim. wp_prim. wp_branch;
      [| split; [apply quiet_refl |]; split; [faults_done | discriminate]].
    wp_prim. wp_prim. wp_branch;
      [| split; [apply quiet_refl |]; split; [faults_done |];
         destruct status; discriminate].
    wp_prim. wp_prim.
    + split; [apply quiet_refl |]. split; [faults_done |].
      intros _. split; [right; reflexivity |].
      intros Hplain. apply andb_prop in Hplain. destruct Hplain as [Hs _].
      apply negb_true_iff in Hs. exfalso.
      rewrite (status_line_prints lib _ status a0 a Hs)
        with (prefix := [PBool (py_eq_str a "approved")]) in Hrefused;
        [discriminate | assumption | assumption | reflexivity].
    + wp_run. eapply wp_weaken; [apply IH |].
      cbv beta. intros r st' (Hq & He & Hok).
      split; [| split; [exact He |]].
      * unfold quiet in *.
        cbn [principal_id media_buy_id creative_ids products calls] in Hq.
        exact Hq.
      * intros H. apply andb_prop in H. destruct H as [H1 H2].
        rewrite H1 in Hok. cbn [negb] in Hok.
        destruct (Hok H2) as [Hr Hplain]. split; [exact Hr |].
        intros Hp. apply andb_prop in Hp. destruct Hp as [_ Hp].
        apply Hplain. exact Hp.
Qed.

(** The first loop of phase 3 appends the [creative_id] of every status
    it is given, up to the first one whose line is refused. *)
Lemma record_statuses_spec (lib : library) (items : list pyval) :
  forall (st : sim),
  wp (for_each items (record_status lib)) st (fun r st' =>
    principal_id st' = principal_id st /\ media_buy_id st' = media_buy_id st
    /\ products st' = products st /\ calls st' = calls st
    /\ (forall e, r = Raise e -> fault e = true)
    /\ (exists k,
          creative_ids st' =
            (creative_ids st ++ map creative_id_of (firstn k items))%list)
    /\ (forallb is_dict items = true -> r = Ok tt ->
        creative_ids st' = (creative_ids st ++ map creative_id_of items)%list)
    /\ (forallb is_dict items = true ->
        forallb (fun x => negb (bracketed x)) items = true -> r = Ok tt)).
Proof.
  induction items as [| status rest IH]; intros st.
  - cbn [for_each]. wp_run. conj_split; try reflexivity; try discriminate.
    + exists 0%nat. cbn. rewrite app_nil_r. reflexivity.
    + intros _ _. cbn [map]. rewrite app_nil_r. reflexivity.
  - cbn [for_each forallb]. unfold record_status.
    wp_run. wp_branch.
    2:{ conj_split; try reflexivity; [faults_done | | |].
        - exists 0%nat. cbn. rewrite app_nil_r. reflexivity.
        - destruct status; discriminate.
        - destruct status; discriminate. }
    wp_run. wp_branch.
    2:{ conj_split; try reflexivity; [faults_done | | |].
        - exists 1%nat. cbn [firstn map]. unfold creative_id_of.
          rewrite Heqr. reflexivity.
        - discriminate.
        - destruct status; discriminate. }
    assert (Hid : creative_id_of status = a)
      by (unfold creative_id_of; rewrite Heqr; reflexivity).
    wp_run.
    + conj_split; try reflexivity; [faults_done | | |].
      * exists 1%nat. cbn [firstn map]. rewrite Hid. reflexivity.
      * discriminate.
      * intros _ Hplain. apply andb_prop in Hplain. destruct Hplain as [Hs _].
        apply negb_true_iff in Hs. exfalso.
        rewrite (status_line_prints lib _ status a a0 Hs)
          with (prefix := []) in Hrefused;
          [discriminate | assumption | assumption | reflexivity].
    + eapply wp_weaken; [apply IH |].
      cbv beta. cbn [principal_id media_buy_id products calls creative_ids].
      intros r st' (H1 & H2 & H3 & H4 & He & (k & Hk) & Hok & Hplain).
      conj_split; try assumption.
      * exists (S k). cbn [firstn map]. rewrite Hk, Hid, <- app_assoc.
        reflexivity.
      * intros Hd Hr. apply andb_prop in Hd. destruct Hd as [_ Hd].
        rewrite (Hok Hd Hr). cbn [map]. rewrite Hid, <- app_assoc.
        reflexivity.
      * intros Hd Hp. apply andb_prop in Hd. destruct Hd as [_ Hd].
        apply andb_prop in Hp. destruct Hp as [_ Hp]. auto.
Qed.

(** Closes a goal about a loop that stopped after one query. *)
Ltac one_round :=
  repeat match goal with |- _ /\ _ => split end;
  lazymatch goal with
  | |- ex _ =>
      exists 1%nat; cbn [List.length repeat];
      repeat match goal with |- _ /\ _ => split end;
      [lia | lia | first [reflexivity | assumption]]
  | |- forall e : exn, _ -> _ => faults_done
  | |- _ => first [reflexivity | assumption]
  end.

(** The polling loop issues between one and [length days] status queries,
    all for the tracked identifiers, and changes no attribute. *)
Lemma approval_loop_spec (svc : service) (lib : library) (days : list date) :
  forall (st : sim),
  wp (approval_loop svc lib days) st (fun r st' =>
    principal_id st' = principal_id st /\ media_buy_id st' = media_buy_id st
    /\ products st' = products st /\ creative_ids st' = creative_ids st
    /\ (forall e, r = Raise e -> fault e = true)
    /\ exists n, (n <= List.length days)%nat
         /\ (days <> [] -> (1 <= n)%nat)
         /\ calls st' = (calls st ++ repeat (status_round st) n)%list).
Proof.
  induction days as [| d rest IH]; intros st.
  - cbn [approval_loop]. wp_run. repeat split; try discriminate.
    exists 0%nat. cbn. rewrite app_nil_r. repeat split; [lia | congruence].
  - cbn [approval_loop]. unfold approval_check. wp_run; [| one_round].
    change ("check_creative_status", status_request (creative_ids st))
      with (status_round st).
    wp_branch; [| one_round].
    wp_run. wp_branch; [| one_round].
    eapply wp_weaken; [apply scan_statuses_spec |].
    cbv beta. intros r st' ((H1 & H2 & H3 & H4 & H5) & He & _).
    cbn in H1, H2, H3, H4, H5.
    destruct r as [[] | e].
    + wp_run. one_round.
    + eapply wp_weaken; [apply IH |].
      cbv beta.
      intros r st'' (G1 & G2 & G3 & G4 & Ge & n & Hn & _ & Hc).
      repeat match goal with |- _ /\ _ => split end;
        try congruence; try assumption.
      exists (S n). cbn [List.length repeat].
      repeat match goal with |- _ /\ _ => split end; [lia | lia |].
      rewrite Hc, H5. unfold status_round. rewrite H3.
      rewrite <- app_assoc. reflexivity.
    + specialize (He e eq_refl). one_round.
Qed.

(** A round whose reply reads all approved ends the loop after its one
    query: the loop returns, or a line of the round is refused. *)
Lemma approved_round_stops (svc : service) (lib : library) (check_date : date)
      (later : list date) (st : sim) :
  all_approved_reply (reply svc (calls st) (status_round st)) = true ->
  wp (approval_loop svc lib (check_date :: later)) st (fun r st' =>
    calls st' = (calls st ++ [status_round st])%list
    /\ creative_ids st' = creative_ids st
    /\ (r = Ok true \/ r = Raise MarkupError)
    /\ (answered lib (status_round st) (svc (calls st) (status_round st)) = true ->
        bracketed (reply svc (calls st) (status_round st)) = false ->
        r = Ok true
        /\ last (console st') (Say "" []) = Say "All creatives approved!" [])).
Proof.
  intros H. unfold all_approved_reply in H.
  cbn [approval_loop]. unfold approval_check. wp_run.
  2:{ change ("check_creative_status", status_request (creative_ids st))
        with (status_round st) in *.
      conj_split; [reflexivity | reflexivity | right; reflexivity |].
      intros Ha. congruence. }
  change ("check_creative_status", status_request (creative_ids st))
    with (status_round st) in *.
  destruct (get (reply svc (calls st) (status_round st)) "statuses" (PList []))
    as [statuses | e] eqn:Hstatuses; [| discriminate H].
  wp_run. destruct (py_iter statuses) as [items | e] eqn:Hiter; [| discriminate H].
  eapply wp_weaken; [apply scan_statuses_spec |].
  cbv beta. intros r st' ((H1 & H2 & H3 & H4 & H5) & _ & Hok).
  cbn in H1, H2, H3, H4, H5.
  destruct (Hok H) as [Hr Hplain].
  assert (Hitems : bracketed (reply svc (calls st) (status_round st)) = false ->
                   forallb (fun x => negb (bracketed x)) items = true).
  { intros Hb. eapply bracketed_iter; [| exact Hiter].
    eapply (bracketed_get _ "statuses" (PList []));
      [exact Hb | reflexivity | exact Hstatuses]. }
  destruct Hr as [-> | ->].
  - wp_run. conj_split; [exact H5 | exact H3 | left; reflexivity |].
    intros _ _. split; [reflexivity | apply last_line].
  - conj_split; [exact H5 | exact H3 | right; reflexivity |].
    intros _ Hb. specialize (Hplain (Hitems Hb)). discriminate Hplain.
Qed.

(** C2: for every schedule [earlier ++ check_date :: later], if the loop
    gets through [earlier] without convergence and the reply to the check
    of [check_date] holds only approved statuses, the loop stops there:
    that query is the last call issued, and none is made for the dates of
    [later].  The loop returns with all_approved true, unless rich
    refuses a line of that round, in which case the loop, and the run
    with it, ends on the MarkupError; no line is refused when the query
    came back and its reply holds no bracket. *)
Theorem polling_stops_on_approval
  (svc : service) (lib : library) (earlier : list date) (check_date : date)
  (later : list date) (st st1 : sim) :
  approval_loop svc lib earlier st = (Ok false, st1) ->
  all_approved_reply (reply svc (calls st1) (status_round st1)) = true ->
  let out := approval_loop svc lib (earlier ++ check_date :: later) st in
  calls (snd out) = (calls st1 ++ [status_round st1])%list
  /\ (fst out = Ok true \/ fst out = Raise MarkupError)
  /\ (answered lib (status_round st1) (svc (calls st1) (status_round st1)) = true ->
      bracketed (reply svc (calls st1) (status_round st1)) = false ->
      fst out = Ok true).
Proof.
  revert st. induction earlier as [| d0 earlier IH]; intros st Hloop Happroved.
  - cbn in Hloop. injection Hloop as <-. cbn [app].
    destruct (approved_round_stops svc lib check_date later st Happroved)
      as (Hc & _ & Hr & Hplain).
    cbv zeta. split; [exact Hc |]. split; [exact Hr |].
    intros Ha Hb. apply (Hplain Ha Hb).
  - cbn [approval_loop] in Hloop. unfold bind in Hloop.
    cbn [app approval_loop]. unfold bind.
    destruct (approval_check svc lib d0 st) as [[[] | e] st0].
    + unfold bind in Hloop.
      destruct (say lib "All creatives approved!" [] st0) as [[[] | e] st0'];
        cbn in Hloop; discriminate Hloop.
    + apply IH; assumption.
    + discriminate Hloop.
Qed.

(** Three dates, all approved on the second check: two queries. *)
Lemma polling_stops_on_approval_witness :
  let svc := ad_server "on_track" in
  let st1 := snd (approval_loop svc py [add_days creative_date 1] submitted) in
  let out := approval_loop svc py
               ([add_days creative_date 1] ++
                add_days creative_date 2 :: [add_days creative_date 3])
               submitted in
  calls (snd out) = (calls st1 ++ [status_round st1])%list
  /\ fst out = Ok true.
Proof.
  cbv zeta.
  destruct (polling_stops_on_approval (ad_server "on_track") py
              [add_days creative_date 1] (add_days creative_date 2)
              [add_days creative_date 3] submitted
              (snd (approval_loop (ad_server "on_track") py
                      [add_days creative_date 1] submitted)))
    as (Hc & _ & Hok).
  - vm_compute. reflexivity.
  - vm_compute. reflexivity.
  - split; [exact Hc | apply Hok; vm_compute; reflexivity].
Defined.

(** The same run, spelled out: the third date is never queried. *)
Example two_queries_for_three_dates :
  approval_days = [add_days creative_date 1; add_days creative_date 2;
                   add_days creative_date 3]
  /\ fst (approval_loop (ad_server "on_track") py approval_days submitted) = Ok true
  /\ calls (snd (approval_loop (ad_server "on_track") py approval_days submitted))
     = [status_call submitted_ids; status_call submitted_ids].
Proof. vm_compute. repeat split. Qed.

(** C6: with both creatives pending, a first poll that fails leaves the
    inner loop nothing to visit: [all_approved] stays true, the code
    prints that all creatives are approved and breaks.  One query is made
    for three scheduled dates; the phase itself returns normally. *)
Lemma failed_poll_ends_polling :
  let out := _phase_3_creatives polls_fail py booked in
  fst out = Ok tt
  /\ creative_ids (snd out) = submitted_ids
  /\ calls (snd out) = [submit_call (PStr "mb_1"); status_call submitted_ids]
  /\ List.length approval_days = 3%nat
  /\ last (console (snd out)) (Say "" []) = Say "All creatives approved!" [].
Proof. vm_compute. repeat split. Qed.



(** ** Phase 5: in-flight monitoring *)


(** The metrics of one snapshot: only the console changes, a raise is a
    fault, and the effective CPM line is printed, last, exactly when the
    impressions are above 0 and nothing raised. *)
Lemma show_metrics_spec (lib : library) (delivery_response : pyval) (st : sim)
      (tested : pyval) :
  get delivery_response "impressions" (PInt 0) = Ok tested ->
  wp (show_metrics lib delivery_response) st (fun r st' =>
    quiet st st'
    /\ (forall e, r = Raise e -> fault e = true)
    /\ exists out,
         console st' = (console st ++ out)%list
         /\ (existsb shows_ecpm out = true ->
             py_gt tested (PInt 0) = Ok true
             /\ exists dividend q,
                  get delivery_response "spend" (PInt 0) = Ok dividend
                  /\ py_truediv dividend tested = Ok q
                  /\ last out (Say "" []) =
                     Say "Effective CPM: ${:.2f}" [PFloat (q * 1000)])
         /\ (py_gt tested (PInt 0) = Ok true -> r = Ok tt ->
             existsb shows_ecpm out = true)).
Proof.
  intros Htested. unfold show_metrics.
  destruct delivery_response as [| | | | | | d]; try discriminate Htested.
  cbn [get] in *. injection Htested as Htested. rewrite Htested.
  wp_all.
  all: split; [quiet_done |].
  all: split; [faults_done |].
  all: printed_so_far.
  all: split;
    [| first [intros _ H; discriminate H | intros H; congruence
             | intros; reflexivity]].
  all: try (intros H; discriminate H).
  all: intros _; split; [reflexivity |]; do 2 eexists;
    split; [reflexivity |]; split; [eassumption | reflexivity].
Qed.

Lemma show_metrics_faults (lib : library) (delivery_response : pyval) (st : sim) :
  wp (show_metrics lib delivery_response) st (fun r st' =>
    quiet st st' /\ (forall e, r = Raise e -> fault e = true)).
Proof.
  destruct (get delivery_response "impressions" (PInt 0)) as [tested | e] eqn:H.
  - eapply wp_weaken; [apply (show_metrics_spec _ _ _ _ H) |].
    cbv beta. intros r st' (Hq & He & _). split; assumption.
  - destruct delivery_response; try discriminate H.
    all: unfold show_metrics; wp_run; split; [quiet_done | faults_done].
Qed.

Lemma for_each_faults {A} (body : A -> M unit) (xs : list A) :
  (forall x st, wp (body x) st (fun r st' =>
     quiet st st' /\ (forall e, r = Raise e -> fault e = true))) ->
  forall st, wp (for_each xs body) st (fun r st' =>
     quiet st st' /\ (forall e, r = Raise e -> fault e = true)).
Proof.
  intros Hbody. induction xs as [| x xs IH]; intros st; cbn [for_each].
  - wp_run. split; [apply quiet_refl | discriminate].
  - wp_prim. eapply wp_weaken; [apply Hbody |].
    cbv beta. intros [[] | e] st1 [Hq He]; [| split; assumption].
    eapply wp_weaken; [apply IH |].
    cbv beta. intros r st2 [Hq2 He2]. split; [| exact He2].
    unfold quiet in *. intuition congruence.
Qed.

Lemma show_bar_spec (lib : library) (max_impressions : pyval) (data : snapshot)
      (st : sim) :
  wp (show_bar lib max_impressions data) st (fun r st' =>
     quiet st st' /\ (forall e, r = Raise e -> fault e = true)).
Proof.
  unfold show_bar. wp_all; (split; [quiet_done | faults_done]).
Qed.

Lemma trend_spec (lib : library) (daily_data : list snapshot) (st : sim) :
  wp (_show_performance_trend lib daily_data) st (fun r st' =>
     quiet st st' /\ (forall e, r = Raise e -> fault e = true)).
Proof.
  unfold _show_performance_trend. wp_run. wp_branch.
  - eapply wp_weaken; [apply for_each_faults; intros; apply show_bar_spec |].
    cbv beta. intros r st' [Hq He]. split; [exact Hq | exact He].
  - split; [quiet_done |]. intros e' H. injection H as <-.
    destruct (map impressions daily_data);
      [discriminate | eapply max_raises; eassumption].
Qed.

(** ** The delivery reads of a run *)

Lemma reads_dates_seq {A B} (dates1 dates2 : list date) (st st1 st2 : sim)
      (a : A) (r : result B) :
  reads_dates dates1 st (Ok a) st1 ->
  reads_dates dates2 st1 r st2 ->
  reads_dates (dates1 ++ dates2) st r st2.
Proof.
  intros (Hp1 & Hm1 & _ & l1 & k1 & Hc1 & Hk1 & Hf1 & Hall1)
         (Hp2 & Hm2 & He2 & l2 & k2 & Hc2 & Hk2 & Hf2 & Hall2).
  assert (k1 = List.length dates1) as -> by (apply Hall1; discriminate).
  unfold reads_dates. conj_split; try congruence; try assumption.
  exists (l1 ++ l2)%list, (List.length dates1 + k2)%nat. conj_split.
  - rewrite Hc2, Hc1. rewrite <- app_assoc. reflexivity.
  - rewrite length_app. lia.
  - rewrite filter_app, firstn_app_2, map_app.
    rewrite firstn_all in Hf1. rewrite Hm1 in Hf2.
    f_equal; [exact Hf1 | exact Hf2].
  - intros Hr. rewrite (Hall2 Hr). rewrite length_app. reflexivity.
Qed.

Lemma reads_dates_abort {A B} (dates1 dates2 : list date) (st st1 : sim)
      (e : exn) :
  reads_dates dates1 st (@Raise A e) st1 ->
  reads_dates (dates1 ++ dates2) st (@Raise B e) st1.
Proof.
  intros (Hp1 & Hm1 & He1 & l1 & k1 & Hc1 & Hk1 & Hf1 & Hall1).
  unfold reads_dates. conj_split; try assumption.
  - intros e' [= <-]. apply He1. reflexivity.
  - exists l1, k1. conj_split; try assumption.
    + rewrite length_app. lia.
    + rewrite firstn_app.
      replace (k1 - List.length dates1)%nat with 0%nat by lia.
      cbn [firstn]. rewrite app_nil_r. exact Hf1.
    + intros Hr. exfalso. apply (Hr e). reflexivity.
Qed.

Lemma wp_reads_seq {A B} (m : M A) (k : A -> M B) (dates1 dates2 : list date) :
  (forall st, wp m st (reads_dates dates1 st)) ->
  (forall a st, wp (k a) st (reads_dates dates2 st)) ->
  forall st, wp (bind m k) st (reads_dates (dates1 ++ dates2) st).
Proof.
  intros Hm Hk st. apply wp_bind.
  eapply wp_weaken; [apply Hm |].
  cbv beta. intros [a | e] st1 H1.
  - eapply wp_weaken; [apply Hk |].
    cbv beta. intros r st2 H2. eapply reads_dates_seq; eassumption.
  - apply (reads_dates_abort (A := A)). exact H1.
Qed.

(** Closes [reads_dates [d] st r st'] after the one read of a phase. *)
Ltac one_read :=
  unfold reads_dates;
  cbn [principal_id media_buy_id creative_ids products calls called log_call];
  conj_split; [reflexivity | reflexivity | faults_done |];
  eexists; exists 1%nat; conj_split;
  [ etransitivity; [repeat rewrite <- app_assoc; reflexivity | reflexivity]
  | cbn [List.length]; lia | reflexivity
  | first [ reflexivity
          | let H := fresh in intros H; exfalso; eapply H; reflexivity ] ].

Lemma phase_4_reads (svc : service) (lib : library) (st : sim) :
  wp (_phase_4_pre_flight svc lib) st
     (reads_dates [add_days flight_start (-2)] st).
Proof.
  unfold _phase_4_pre_flight. wp_all; one_read.
Qed.

Lemma phase_7_reads (svc : service) (lib : library) (st : sim) :
  wp (_phase_7_completion svc lib) st (reads_dates [add_days flight_end 1] st).
Proof.
  unfold _phase_7_completion, summary_panel. wp_all; one_read.
Qed.

Lemma phase_6_reads (svc : service) (lib : library) (st : sim) :
  wp (_phase_6_optimization svc lib) st
     (reads_dates [add_days flight_start 7] st).
Proof.
  unfold _phase_6_optimization. wp_all; one_read.
Qed.
Lemma reads_dates_step {A} (d : date) (dates : list date) (st st1 st' : sim)
      (r : result A) :
  principal_id st1 = principal_id st ->
  media_buy_id st1 = media_buy_id st ->
  calls st1 = (calls st ++ [delivery_call (media_buy_id st) d])%list ->
  reads_dates dates st1 r st' ->
  reads_dates (d :: dates) st r st'.
Proof.
  intros Hp Hm Hc (Hp2 & Hm2 & He2 & l2 & k2 & Hc2 & Hk2 & Hf2 & Hall2).
  unfold reads_dates. conj_split; try congruence; try assumption.
  exists (delivery_call (media_buy_id st) d :: l2), (S k2). conj_split.
  - rewrite Hc2, Hc. rewrite <- app_assoc. reflexivity.
  - cbn [List.length]. lia.
  - cbn [firstn map filter]. rewrite Hm in Hf2.
    change (String.eqb (fst (delivery_call (media_buy_id st) d))
                       "get_media_buy_delivery") with true.
    cbv iota. f_equal. exact Hf2.
  - intros Hr. rewrite (Hall2 Hr). reflexivity.
Qed.

Lemma monitor_reads (svc : service) (lib : library) (days : list (date * string)) :
  forall (daily_data : list snapshot) (st : sim),
    wp (monitor svc lib days daily_data) st (reads_dates (map fst days) st).
Proof.
  induction days as [| [check_date description] rest IH]; intros daily_data st.
  - cbn [monitor map]. wp_run. unfold reads_dates.
    conj_split; try reflexivity; [discriminate |].
    exists [], 0%nat. conj_split; try reflexivity.
    + symmetry. apply app_nil_r.
  - cbn [monitor map fst]. wp_all;
      try (unfold reads_dates;
           cbn [principal_id media_buy_id creative_ids products calls called
                log_call];
           conj_split; [reflexivity | reflexivity | faults_done |];
           eexists; exists 1%nat; conj_split;
           [ reflexivity | cbn [List.length]; lia | reflexivity
           | let H := fresh in intros H; exfalso; eapply H; reflexivity ]).
    eapply wp_weaken; [apply show_metrics_faults |].
    cbv beta. intros r st1 ((H1 & H2 & H3 & H4 & H5) & He).
    cbn [principal_id media_buy_id creative_ids products calls called] in H1, H2, H3, H4, H5.
    destruct r as [[] | e].
    + eapply wp_weaken; [apply IH |].
      cbv beta. intros r st2 Hrest.
      apply (reads_dates_step check_date (map fst rest) st st1 st2 r H1 H2 H5 Hrest).
    + unfold reads_dates. conj_split; try assumption.
      * intros e' [= <-]. apply He. reflexivity.
      * exists [delivery_call (media_buy_id st) check_date], 1%nat.
        conj_split; [exact H5 | cbn [List.length]; lia | reflexivity |].
        intros H. exfalso. eapply H. reflexivity.
Qed.

Lemma no_reads_in_status_rounds (ids : list pyval) (n : nat) :
  filter (fun c : call => String.eqb (fst c) "get_media_buy_delivery")
         (repeat (status_call ids) n) = [].
Proof. induction n as [| n IH]; [reflexivity | exact IH]. Qed.


Lemma phase_3_reads (svc : service) (lib : library) (st : sim) :
  wp (_phase_3_creatives svc lib) st (reads_dates [] st).
Proof.
  assert (Hstop : forall (e : exn) (st1 : sim),
    fault e = true ->
    principal_id st1 = principal_id st -> media_buy_id st1 = media_buy_id st ->
    calls st1 = (calls st ++ [submit_call (media_buy_id st)])%list ->
    reads_dates [] st (@Raise unit e) st1).
  { intros e st1 He H1 H2 H3. unfold reads_dates.
    conj_split; try assumption; [intros e' [= <-]; exact He |].
    exists [submit_call (media_buy_id st)], 0%nat.
    conj_split; [exact H3 | reflexivity | reflexivity | reflexivity]. }
  unfold _phase_3_creatives. wp_run; [| apply Hstop; reflexivity].
  wp_branch; [| raised; apply Hstop; [assumption | reflexivity ..]].
  wp_run. wp_branch; [| raised; apply Hstop; [assumption | reflexivity ..]].
  wp_prim. eapply wp_weaken; [apply record_statuses_spec |].
  cbv beta. intros r st1 (H1 & H2 & _ & H4 & He & _).
  cbn [principal_id media_buy_id calls called] in H1, H2, H4.
  destruct r as [[] | e];
    [| apply Hstop; [apply He; reflexivity | assumption ..]].
  wp_run. eapply wp_weaken; [apply approval_loop_spec |].
  cbv beta. intros r st2 (G1 & G2 & _ & _ & Ge & n & _ & _ & Gc).
  cbn [principal_id media_buy_id calls] in G1, G2, Gc.
  assert (Hdone : forall r' : result unit,
            (forall e, r' = Raise e -> fault e = true) ->
            reads_dates [] st r' st2).
  { intros r' Hr'. unfold reads_dates.
    conj_split; try congruence; try assumption.
    exists (submit_call (media_buy_id st) :: repeat (status_round st1) n), 0%nat.
    conj_split.
    - rewrite Gc, H4. rewrite <- app_assoc. reflexivity.
    - reflexivity.
    - cbn [filter firstn map].
      change (String.eqb (fst (submit_call (media_buy_id st)))
                         "get_media_buy_delivery") with false.
      cbv iota. apply no_reads_in_status_rounds.
    - reflexivity. }
  destruct r as [b | e]; wp_run; apply Hdone.
  - discriminate.
  - intros e' [= <-]. apply Ge. reflexivity.
Qed.

Lemma phase_5_reads (svc : service) (lib : library) (st : sim) :
  wp (_phase_5_in_flight svc lib) st (reads_dates (map fst monitoring_days) st).
Proof.
  unfold _phase_5_in_flight. wp_prim.
  eapply wp_weaken; [apply monitor_reads |].
  cbv beta. intros [daily_data | e] st1 H1.
  - eapply wp_weaken; [apply trend_spec |].
    cbv beta. intros r st2 ((Q1 & Q2 & _ & _ & Q5) & He).
    destruct H1 as (Hp & Hm & _ & l & k & Hc & Hk & Hf & Hall).
    unfold reads_dates. conj_split; try congruence; try assumption.
    exists l, k. conj_split; try assumption; [congruence |].
    intros _. apply Hall. discriminate.
  - destruct H1 as (Hp & Hm & He & l & k & Hc & Hk & Hf & Hall).
    unfold reads_dates. conj_split; try assumption.
    + intros e' [= <-]. apply He. reflexivity.
    + exists l, k. conj_split; try assumption.
      intros H. exfalso. eapply H. reflexivity.
Qed.

Lemma after_the_buy_reads (svc : service) (lib : library) (st : sim) :
  wp (after_the_buy svc lib) st (reads_dates read_schedule st).
Proof.
  change read_schedule with
    ([] ++ [add_days flight_start (-2)] ++ map fst monitoring_days ++
     [add_days flight_start 7] ++ [add_days flight_end 1])%list.
  unfold after_the_buy. revert st.
  apply wp_reads_seq; [apply phase_3_reads | intros _].
  apply wp_reads_seq; [apply phase_4_reads | intros _].
  apply wp_reads_seq; [apply phase_5_reads | intros _].
  apply wp_reads_seq; [apply phase_6_reads | intros _].
  apply phase_7_reads.
Qed.

Lemma phase_1_spec (svc : service) (lib : library) (st : sim) :
  wp (_phase_1_planning svc lib) st (fun r st' =>
    principal_id st' = principal_id st /\ media_buy_id st' = media_buy_id st
    /\ calls st' = (calls st ++ [planning_call])%list
    /\ (forall e, r = Raise e -> fault e = true)).
Proof.
  unfold _phase_1_planning.
  wp_all; (conj_split; try reflexivity; faults_done).
Qed.

(** Phase 2 issues the media buy and nothing else.  Without an identifier
    it raises; the abort is raised only then; with one, it returns when
    the console takes the reply. *)
Lemma phase_2_spec (svc : service) (lib : library) (st : sim) :
  let buy := buy_call lib (principal_id st) in
  let buy_response := reply svc (calls st) buy in
  wp (_phase_2_buying svc lib) st (fun r st' =>
    principal_id st' = principal_id st
    /\ calls st' = (calls st ++ [buy])%list
    /\ (forall e, r = Raise e ->
          fault e = true
          \/ (e = Exception abort_message /\ yields_id buy_response = false))
    /\ (yields_id buy_response = false -> exists e, r = Raise e)
    /\ (answered lib buy (svc (calls st) buy) = true ->
        bracketed buy_response = false ->
        yields_id buy_response = true -> r = Ok tt)).
Proof.
  intros buy buy_response. unfold _phase_2_buying. wp_run.
  all: change ("create_media_buy", PDict [("req", buy_request lib (principal_id st))])
         with buy in *.
  - fold buy_response. unfold yields_id.
    destruct (get buy_response "media_buy_id" PNone) as [id | e] eqn:Hid.
    + wp_run. destruct (truthy id) eqn:Hid'; wp_run.
      * conj_split; try reflexivity.
        -- intros e [= <-]. left. reflexivity.
        -- discriminate.
        -- intros _ Hplain _. exfalso.
           unfold raises_markup in Hrefused. cbn [existsb] in Hrefused.
           rewrite (bracketed_get buy_response "media_buy_id" PNone id
                      Hplain eq_refl Hid) in Hrefused.
           discriminate Hrefused.
      * conj_split; try reflexivity; discriminate.
      * conj_split; try reflexivity.
        -- intros e [= <-]. left. reflexivity.
        -- intros _. eexists. reflexivity.
        -- discriminate.
      * conj_split; try reflexivity.
        -- intros e [= <-]. right. split; reflexivity.
        -- intros _. eexists. reflexivity.
        -- discriminate.
    + conj_split; try reflexivity.
      * intros e' [= <-]. left. raised. assumption.
      * intros _. eexists. reflexivity.
      * discriminate.
  - conj_split; try reflexivity.
    + intros e [= <-]. left. reflexivity.
    + intros _. eexists. reflexivity.
    + intros H. exfalso. exact (eq_true_false_abs _ H Hunanswered).
Qed.

(** ** The whole run *)

Lemma run_spec (svc : service) (lib : library) (principal : string) :
  let buy_response := reply svc [planning_call] (buy_call lib principal) in
  wp (run svc lib) (init principal) (fun r st' =>
    (forall e, r = Raise e ->
       fault e = true
       \/ (e = Exception abort_message /\ yields_id buy_response = false))
    /\ (yields_id buy_response = false ->
        (exists e, r = Raise e)
        /\ existsb needs_media_buy (calls st') = false)
    /\ exists k,
         filter is_delivery_read (calls st') =
           map (delivery_call (media_buy_id st')) (firstn k read_schedule)
         /\ ((forall e, r <> Raise e) -> k = List.length read_schedule)).
Proof.
  intros buy_response.
  assert (Hstop : forall (e : exn) (st' : sim),
    fault e = true
    \/ (e = Exception abort_message /\ yields_id buy_response = false) ->
    existsb needs_media_buy (calls st') = false ->
    (forall e', @Raise unit e = Raise e' ->
       fault e' = true
       \/ (e' = Exception abort_message /\ yields_id buy_response = false))
    /\ (yields_id buy_response = false ->
        (exists e', @Raise unit e = Raise e')
        /\ existsb needs_media_buy (calls st') = false)
    /\ exists k,
         filter is_delivery_read (calls st') =
           map (delivery_call (media_buy_id st')) (firstn k read_schedule)
         /\ ((forall e', @Raise unit e <> Raise e') ->
             k = List.length read_schedule)).
  { intros e st' He Hcalls. conj_split.
    - intros e' [= <-]. exact He.
    - intros _. split; [eexists; reflexivity | exact Hcalls].
    - exists 0%nat. split.
      + cbn [firstn map].
        assert (Hnone : forall l, existsb needs_media_buy l = false ->
                                  filter is_delivery_read l = []).
        { induction l as [| c l IH]; [reflexivity |].
          cbn [existsb filter]. intros H. apply orb_false_elim in H.
          destruct H as [Hc Hl]. unfold needs_media_buy in Hc.
          unfold is_delivery_read.
          destruct (String.eqb (fst c) "get_media_buy_delivery");
            [| apply IH; exact Hl].
          rewrite !orb_true_r in Hc. cbn [orb] in Hc. discriminate Hc. }
        apply Hnone. exact Hcalls.
      + intros H. exfalso. eapply H. reflexivity. }
  unfold run. wp_run; [apply Hstop; [left |]; reflexivity |].
  eapply wp_weaken; [apply phase_1_spec |].
  cbv beta. cbn [principal_id media_buy_id calls app init].
  intros r st1 (P1 & M1 & C1 & E1).
  destruct r as [[] | e].
  2:{ apply Hstop; [left; apply E1; reflexivity | rewrite C1; reflexivity]. }
  wp_prim. eapply wp_weaken; [apply phase_2_spec |].
  cbv beta zeta. rewrite C1, P1. fold buy_response.
  intros r st2 (P2 & C2 & Hraise & Hno & _).
  destruct r as [[] | e].
  2:{ apply Hstop; [apply Hraise; reflexivity | rewrite C2; reflexivity]. }
  destruct (yields_id buy_response) eqn:Hid;
    [| destruct (Hno eq_refl) as [e He]; discriminate He].
  change (wp (after_the_buy svc lib) st2 (fun r st' =>
    (forall e, r = Raise e ->
       fault e = true \/ (e = Exception abort_message /\ true = false))
    /\ (true = false ->
        (exists e, r = Raise e)
        /\ existsb needs_media_buy (calls st') = false)
    /\ exists k,
         filter is_delivery_read (calls st') =
           map (delivery_call (media_buy_id st')) (firstn k read_schedule)
         /\ ((forall e, r <> Raise e) -> k = List.length read_schedule))).
  eapply wp_weaken; [apply after_the_buy_reads |].
  cbv beta. intros r st' (_ & M & E & l & k & Hc & _ & Hf & Hall).
  conj_split.
  - intros e He. left. apply E. exact He.
  - discriminate.
  - exists k. split; [| exact Hall].
    rewrite Hc, C2, M. rewrite filter_app. exact Hf.
Qed.

(** ** Failed calls after the media buy *)

(** The report of a failure whose message holds no bracket is printed:
    the wrapper returns. *)
Lemma plain_failures_answered (svc : service) (lib : library)
      (history : list call) (tool_name : string) (params : pyval) :
  (forall history c e, svc history c = Raises e -> has_bracket e = false) ->
  has_bracket tool_name = false ->
  answered lib (tool_name, params) (svc history (tool_name, params)) = true.
Proof.
  intros Hplain Htool. unfold answered.
  destruct (svc history (tool_name, params)) as [r | e] eqn:E; [reflexivity |].
  apply Hplain in E. unfold raises_markup.
  cbn [existsb bracketed fst]. rewrite Htool, E. reflexivity.
Qed.

(** Evaluates a closed step of the program. *)
Ltac eval_step :=
  match goal with
  | |- match ?r with Ok _ => _ | Raise _ => _ end =>
      let v := eval vm_compute in r in
      lazymatch v with
      | Ok _ => change r with v; cbv beta iota
      end
  | |- wp (if ?b then _ else _) _ _ =>
      let v := eval vm_compute in b in
      lazymatch v with
      | true => change b with true; cbv iota
      | false => change b with false; cbv iota
      end
  end.

(** Closes the case of a refused print of closed values without a
    bracket. *)
Ltac plainly_printed :=
  match goal with
  | H : raises_markup _ _ ?args = true |- _ =>
      let b := eval vm_compute in (existsb bracketed args) in
      lazymatch b with
      | false =>
          unfold raises_markup in H;
          change (existsb bracketed args) with false in H;
          discriminate H
      end
  end.

Ltac degrade Hfail Hplain :=
  repeat first
    [ wp_prim
    | plainly_printed
    | match goal with
      | H : answered ?lib (?t, ?p) (?svc ?h _) = false |- _ =>
          rewrite (plain_failures_answered svc lib h t p Hplain eq_refl) in H;
          discriminate H
      end
    | rewrite Hfail by (cbn [fst]; discriminate)
    | eval_step
    | progress cbn [for_each approval_loop scan_statuses monitor
                    impressions spend snap_date pacing map]
    | progress unfold approval_check, show_metrics, show_bar,
        _show_performance_trend, summary_panel ].

Section Degraded.

Variable svc : service.
Variable lib : library.
Hypothesis Hfail : others_fail svc.
Hypothesis Hplain :
  forall history c e, svc history c = Raises e -> has_bracket e = false.

Lemma phase_1_degrades (st : sim) :
  wp (_phase_1_planning svc lib) st (fun r _ => r = Ok tt).
Proof. unfold _phase_1_planning. degrade Hfail Hplain. reflexivity. Qed.

Lemma phase_3_degrades (st : sim) :
  wp (_phase_3_creatives svc lib) st (fun r _ => r = Ok tt).
Proof.
  unfold _phase_3_creatives, approval_days, approval_check.
  degrade Hfail Hplain. reflexivity.
Qed.

Lemma phase_4_degrades (st : sim) :
  wp (_phase_4_pre_flight svc lib) st (fun r _ => r = Ok tt).
Proof. unfold _phase_4_pre_flight. degrade Hfail Hplain. reflexivity. Qed.

Lemma phase_5_degrades (st : sim) :
  wp (_phase_5_in_flight svc lib) st (fun r _ => r = Ok tt).
Proof.
  unfold _phase_5_in_flight, monitoring_days, show_metrics,
    _show_performance_trend, show_bar.
  degrade Hfail Hplain. reflexivity.
Qed.

Lemma phase_6_degrades (st : sim) :
  wp (_phase_6_optimization svc lib) st (fun r _ => r = Ok tt).
Proof. unfold _phase_6_optimization. degrade Hfail Hplain. reflexivity. Qed.

Lemma phase_7_degrades (st : sim) :
  wp (_phase_7_completion svc lib) st (fun r _ => r = Ok tt).
Proof.
  unfold _phase_7_completion, summary_panel. degrade Hfail Hplain. reflexivity.
Qed.

End Degraded.

Lemma wp_then {A B} (m : M A) (k : A -> M B) (st : sim) (a : A)
      (Q : result B -> sim -> Prop) :
  wp m st (fun r _ => r = Ok a) ->
  (forall st', wp (k a) st' Q) ->
  wp (bind m k) st Q.
Proof.
  intros Hm Hk. apply wp_bind. eapply wp_weaken; [exact Hm |].
  cbv beta. intros r st' ->. apply Hk.
Qed.

(** With an identifier from the buy, the run completes although every
    other call fails, when the console takes the principal, the reply to
    the buy and the messages of the failures. *)
Lemma run_degrades (svc : service) (lib : library) (principal : string) :
  others_fail svc ->
  (forall history c e, svc history c = Raises e -> has_bracket e = false) ->
  has_bracket principal = false ->
  bracketed (reply svc [planning_call] (buy_call lib principal)) = false ->
  yields_id (reply svc [planning_call] (buy_call lib principal)) = true ->
  fst (run svc lib (init principal)) = Ok tt.
Proof.
  intros Hfail Hplain Hprincipal Hbuy Hid.
  change (wp (run svc lib) (init principal) (fun r _ => r = Ok tt)).
  unfold run. wp_run.
  { exfalso. unfold raises_markup in Hrefused.
    cbn [existsb bracketed principal_id init] in Hrefused.
    rewrite Hprincipal in Hrefused.
    discriminate Hrefused. }
  eapply wp_weaken;
    [apply wp_conj; [apply phase_1_spec | apply (phase_1_degrades svc lib Hfail Hplain)] |].
  cbv beta. cbn [principal_id media_buy_id calls app init].
  intros r st1 [(P1 & _ & C1 & _) ->].
  wp_prim. eapply wp_weaken; [apply phase_2_spec |].
  cbv beta zeta. rewrite C1, P1. intros r st2 (_ & _ & _ & _ & Hyes).
  rewrite (Hyes (plain_failures_answered svc lib [planning_call]
                   "create_media_buy" _ Hplain eq_refl) Hbuy Hid).
  apply (wp_then _ _ _ tt); [apply (phase_3_degrades svc lib Hfail Hplain) | intros st3].
  apply (wp_then _ _ _ tt); [apply (phase_4_degrades svc lib Hfail Hplain) | intros st4].
  apply (wp_then _ _ _ tt); [apply (phase_5_degrades svc lib Hfail Hplain) | intros st5].
  apply (wp_then _ _ _ tt); [apply (phase_6_degrades svc lib Hfail Hplain) | intros st6].
  apply (phase_7_degrades svc lib Hfail Hplain).
Qed.

Lemma buy_only_others_fail : others_fail buy_only.
Proof.
  intros history c Hc. unfold reply, buy_only.
  destruct (String.eqb (fst c) "create_media_buy") eqn:E; [| reflexivity].
  apply String.eqb_eq in E. contradiction.
Qed.

Lemma buy_only_plain_failures (history : list call) (c : call) (e : string) :
  buy_only history c = Raises e -> has_bracket e = false.
Proof.
  unfold buy_only. destruct (String.eqb (fst c) "create_media_buy");
    [discriminate | intros [= <-]; reflexivity].
Qed.

(** ** The claims about the whole run *)

(** C1, as stated, fails: the media buy yields an identifier, yet the run
    stops in phase 3, on a submit_creatives reply whose statuses are
    null. *)
Lemma run_stops_with_a_media_buy :
  let out := run null_statuses py (init "purina") in
  yields_id (reply null_statuses [planning_call] (buy_call py "purina")) = true
  /\ media_buy_id (snd out) = PStr "mb_1"
  /\ fst out = Raise TypeError
  /\ map fst (calls (snd out)) =
     ["list_products"; "create_media_buy"; "submit_creatives"].
Proof. vm_compute. repeat split. Qed.

(** C1, amended: when the create_media_buy reply yields no identifier
    (none, null or another false value), the run raises and none of
    submit_creatives, check_creative_status, get_media_buy_delivery,
    update_performance_index and update_media_buy is ever called.  That
    abort is raised only then; every other exception that stops the run is
    one that Python or rich raises on a value it cannot take: an ill-typed
    or oversized value (AttributeError, TypeError, ValueError,
    OverflowError), a printed text with an unmatched closing tag
    (MarkupError), a table cell that is not a string (NotRenderableError).
    With an identifier the run completes even if every other call fails,
    provided no text that is printed holds a bracket: the principal, the
    reply to the buy, the messages of the failures. *)
Theorem abort_only_without_media_buy
  (svc : service) (lib : library) (principal : string) :
  let buy_response := reply svc [planning_call] (buy_call lib principal) in
  let out := run svc lib (init principal) in
  (yields_id buy_response = false ->
   (exists e, fst out = Raise e)
   /\ existsb needs_media_buy (calls (snd out)) = false)
  /\ (forall e, fst out = Raise e ->
        fault e = true
        \/ (e = Exception abort_message /\ yields_id buy_response = false))
  /\ (yields_id buy_response = true -> others_fail svc ->
      has_bracket principal = false ->
      bracketed buy_response = false ->
      (forall history c e, svc history c = Raises e -> has_bracket e = false) ->
      fst out = Ok tt).
Proof.
  intros buy_response out.
  destruct (run_spec svc lib principal) as (Hraise & Hno & _).
  split; [exact Hno |]. split; [exact Hraise |].
  intros Hid Hfail Hprincipal Hbuy Hplain. apply run_degrades; assumption.
Qed.

(** A service that is down aborts the run after the two calls; one on
    which only the buy succeeds lets it complete. *)
Lemma abort_only_without_media_buy_witness :
  ((exists e, fst (run unreachable py (init "purina")) = Raise e)
   /\ existsb needs_media_buy (calls (snd (run unreachable py (init "purina"))))
      = false)
  /\ fst (run buy_only py (init "purina")) = Ok tt.
Proof.
  split.
  - apply (proj1 (abort_only_without_media_buy unreachable py "purina")).
    vm_compute. reflexivity.
  - apply (proj2 (proj2 (abort_only_without_media_buy buy_only py "purina"))).
    + vm_compute. reflexivity.
    + exact buy_only_others_fail.
    + reflexivity.
    + vm_compute. reflexivity.
    + exact buy_only_plain_failures.
Defined.

(** C7, as stated, fails: against a service that derives days_elapsed
    from the as-of date, the run completes and the snapshots read 0, 0,
    2, 5, 8, 7, 15 in the order fetched: 8 is followed by 7. *)
Lemma days_elapsed_goes_back :
  let svc := ad_server "on_track" in
  let out := run svc py (init "purina") in
  fst out = Ok tt
  /\ days_elapsed_series svc (snd out) =
     [PInt 0; PInt 0; PInt 2; PInt 5; PInt 8; PInt 7; PInt 15]
  /\ ~ non_decreasing (days_elapsed_series svc (snd out)).
Proof.
  cbv zeta.
  assert (Hseries :
    days_elapsed_series (ad_server "on_track")
      (snd (run (ad_server "on_track") py (init "purina"))) =
    [PInt 0; PInt 0; PInt 2; PInt 5; PInt 8; PInt 7; PInt 15])
    by (vm_compute; reflexivity).
  split; [vm_compute; reflexivity |]. split; [exact Hseries |].
  rewrite Hseries. intros H.
  specialize (H 4%nat 8 7 eq_refl eq_refl). lia.
Qed.

(** C7, amended: days_elapsed is what the service reports; the run only
    fixes the as-of dates of its delivery reads.  On every service they
    are, in the order issued, the first dates of the schedule, all seven
    when the run returns: 2 days before the flight, then days 0, 2, 5 and
    8 of the flight, then day 7, then day 15.  They never go down except
    from the last monitoring read to the optimization read. *)
Theorem delivery_reads_follow_schedule
  (svc : service) (lib : library) (principal : string) :
  let out := run svc lib (init principal) in
  (exists k,
     filter is_delivery_read (calls (snd out)) =
       map (delivery_call (media_buy_id (snd out))) (firstn k read_schedule)
     /\ ((forall e, fst out <> Raise e) -> k = 7%nat))
  /\ map (fun today => toordinal today - toordinal flight_start) read_schedule
     = [-2; 0; 2; 5; 8; 7; 15].
Proof.
  intros out. split; [| vm_compute; reflexivity].
  destruct (run_spec svc lib principal) as (_ & _ & k & Hk & Hall).
  exists k. split; [exact Hk | exact Hall].
Qed.

(** The reads of a completed run. *)
Lemma delivery_reads_follow_schedule_witness :
  map snd (filter is_delivery_read
             (calls (snd (run (ad_server "on_track") py (init "purina"))))) =
  map (delivery_request (PStr "mb_1")) read_schedule.
Proof.
  destruct (proj1 (delivery_reads_follow_schedule (ad_server "on_track") py "purina"))
    as (k & Hk & Hall).
  rewrite Hk.
  rewrite Hall by (intros e; vm_compute; discriminate).
  vm_compute. reflexivity.
Defined.

(** ** The effective CPM *)



(** * More of the program *)

(** ** The dry-run logs *)

Lemma wp_try_pass (body : M unit) (st : sim) (Q : result unit -> sim -> Prop) :
  wp body st (fun _ st' => Q (Ok tt) st') -> wp (try_pass body) st Q.
Proof.
  unfold wp, try_pass. destruct (body st) as [[a | e] st']; simpl; auto.
Qed.

(** The loop over the logs prints those listed, and stops on the first
    one refused. *)
Lemma show_logs_spec (lib : library) (items : list pyval) : forall (st : sim),
  for_each items (fun log => say lib "{}" [log]) st =
  (if (List.length (listed lib items) =? List.length items)%nat
   then Ok tt else Raise MarkupError,
   mksim (principal_id st) (media_buy_id st) (creative_ids st)
         (products st) (calls st)
         (console st ++ map (fun log => Say "{}" [log]) (listed lib items))).
Proof.
  induction items as [| log rest IH]; intros st.
  - cbn. rewrite app_nil_r. destruct st; reflexivity.
  - cbn [for_each listed]. unfold bind at 1, say at 1, print at 1.
    destruct (raises_markup lib "{}" [log]).
    + cbn [List.length map Nat.eqb]. rewrite app_nil_r. destruct st; reflexivity.
    + rewrite IH.
      cbn [principal_id media_buy_id creative_ids products calls console
           List.length map Nat.eqb].
      rewrite <- app_assoc. reflexivity.
Qed.

Lemma wp_show_logs (lib : library) (items : list pyval) (st : sim)
      (Q : result unit -> sim -> Prop) :
  Q (if (List.length (listed lib items) =? List.length items)%nat
     then Ok tt else Raise MarkupError)
    (mksim (principal_id st) (media_buy_id st) (creative_ids st)
           (products st) (calls st)
           (console st ++ map (fun log => Say "{}" [log]) (listed lib items))) ->
  wp (for_each items (fun log => say lib "{}" [log])) st Q.
Proof. intros H. unfold wp. rewrite show_logs_spec. exact H. Qed.

(** Logs without a bracket are all listed. *)
Lemma listed_plain (lib : library) (logs : list pyval) :
  forallb (fun log => negb (bracketed log)) logs = true -> listed lib logs = logs.
Proof.
  induction logs as [| log rest IH]; [reflexivity |].
  cbn [forallb listed]. intros H. apply andb_prop in H. destruct H as [Hlog Hrest].
  rewrite plain_texts_print by (cbn [forallb]; rewrite Hlog; reflexivity).
  rewrite (IH Hrest). reflexivity.
Qed.

(** X1: [_show_dry_run_logs] is best effort.  On every service and
    whatever the reply holds it returns without an exception, having
    issued one get_dry_run_logs call with no parameters and changed no
    attribute of the simulation. *)
Theorem dry_run_logs_are_best_effort (svc : service) (lib : library) (st : sim) :
  let out := _show_dry_run_logs svc lib st in
  fst out = Ok tt
  /\ calls (snd out) = (calls st ++ [logs_call])%list
  /\ same_attributes st (snd out).
Proof.
  change (wp (_show_dry_run_logs svc lib) st (fun r st' =>
            r = Ok tt /\ calls st' = (calls st ++ [logs_call])%list
            /\ same_attributes st st')).
  unfold _show_dry_run_logs, same_attributes. apply wp_try_pass.
  wp_run; [| repeat split].
  wp_branch; [| repeat split].
  wp_run. wp_branch; [| wp_run; repeat split].
  wp_run. wp_branch; [| repeat split].
  wp_prim. apply wp_show_logs.
  destruct (_ =? _)%nat; [| repeat split].
  wp_run. wp_branch; wp_run; repeat split.
Qed.

(** X2: what [_show_dry_run_logs] prints.  Nothing, when the call failed
    and the report of the failure is refused by the console.  Otherwise,
    after the report of a failed call if there is one: for a list of
    logs, nothing when it is empty, else the heading and one line per
    log, in the order given, up to the first log that the console
    refuses, and the total, which is their number, only when no log was
    refused; for a value that is true but cannot be iterated (a number,
    say), the heading and nothing else.  Logs that hold no bracket are
    never refused. *)
Theorem dry_run_logs_listing (svc : service) (lib : library) (st : sim) :
  let o := svc (calls st) logs_call in
  let heading := Say "The following adapter calls would have been made:" [] in
  let listing := printed (_show_dry_run_logs svc lib) st in
  (answered lib logs_call o = false -> listing = [])
  /\ (answered lib logs_call o = true ->
      (forall logs,
         get (content_of o) "dry_run_logs" (PList []) = Ok (PList logs) ->
         listing =
           (reported "get_dry_run_logs" o ++
            match logs with
            | [] => []
            | _ :: _ =>
                heading :: map (fun log => Say "{}" [log]) (listed lib logs) ++
                (if (List.length (listed lib logs) =? List.length logs)%nat
                 then [Say "Total adapter calls: {}"
                           [PInt (Z.of_nat (List.length logs))]]
                 else [])
            end)%list)
      /\ (forall v e,
            get (content_of o) "dry_run_logs" (PList []) = Ok v ->
            truthy v = true -> py_iter v = Raise e ->
            listing = (reported "get_dry_run_logs" o ++ [heading])%list))
  /\ (forall logs,
        forallb (fun log => negb (bracketed log)) logs = true ->
        listed lib logs = logs).
Proof.
  intros o heading listing. split; [| split; [| apply listed_plain]].
  - intros Hunanswered. apply printed_app.
    change (wp (_show_dry_run_logs svc lib) st (fun _ st' =>
      console st' = (console st ++ [])%list)).
    unfold _show_dry_run_logs. apply wp_try_pass. wp_prim.
    apply wp_call_tool_reported; fold logs_call; fold o.
    + intros H. exfalso. exact (eq_true_false_abs _ H Hunanswered).
    + intros _. cbn [log_call console]. symmetry. apply app_nil_r.
  - intros Hanswered. split.
    + intros logs Hlogs. apply printed_app.
      change (wp (_show_dry_run_logs svc lib) st (fun _ st' =>
        console st' =
          (console st ++ reported "get_dry_run_logs" o ++
           match logs with
           | [] => []
           | _ :: _ =>
               heading :: map (fun log => Say "{}" [log]) (listed lib logs) ++
               (if (List.length (listed lib logs) =? List.length logs)%nat
                then [Say "Total adapter calls: {}"
                          [PInt (Z.of_nat (List.length logs))]]
                else [])
           end)%list)).
      unfold _show_dry_run_logs. apply wp_try_pass. wp_prim.
      apply wp_call_tool_reported; fold logs_call; fold o;
        [intros _ | intros H; exfalso; exact (eq_true_false_abs _ Hanswered H)].
      unfold reply. fold o.
      wp_prim. unfold wp at 1. cbn [lift fst snd]. rewrite Hlogs.
      destruct logs as [| log rest].
      * cbn [truthy]. wp_run. rewrite app_nil_r. reflexivity.
      * cbn [truthy py_iter py_len]. wp_run. apply wp_show_logs.
        destruct (_ =? _)%nat.
        -- wp_run. cbn [called console]. repeat rewrite <- app_assoc. reflexivity.
        -- cbn [called console]. rewrite app_nil_r.
           repeat rewrite <- app_assoc. reflexivity.
    + intros v e Hv Htrue Hiter. apply printed_app.
      change (wp (_show_dry_run_logs svc lib) st (fun _ st' =>
        console st' =
          (console st ++ reported "get_dry_run_logs" o ++ [heading])%list)).
      unfold _show_dry_run_logs. apply wp_try_pass. wp_prim.
      apply wp_call_tool_reported; fold logs_call; fold o;
        [intros _ | intros H; exfalso; exact (eq_true_false_abs _ Hanswered H)].
      unfold reply. fold o.
      wp_prim. unfold wp at 1. cbn [lift fst snd]. rewrite Hv, Htrue.
      wp_run. rewrite Hiter. cbn [called console].
      rewrite <- app_assoc. reflexivity.
Qed.

(** Three logs are listed and counted; a count in their place gives the
    heading alone. *)
Lemma dry_run_logs_listing_witness :
  printed (_show_dry_run_logs logging py) booked =
    [Say "The following adapter calls would have been made:" [];
     Say "{}" [PStr "create_order"]; Say "{}" [PStr "add_line_item"];
     Say "{}" [PStr "upload_creative"];
     Say "Total adapter calls: {}" [PInt 3]]
  /\ printed (_show_dry_run_logs counting py) booked =
    [Say "The following adapter calls would have been made:" []].
Proof.
  split.
  - apply (proj1 (proj1 (proj2 (dry_run_logs_listing logging py booked)) eq_refl)
             [PStr "create_order"; PStr "add_line_item"; PStr "upload_creative"]).
    reflexivity.
  - apply (proj2 (proj1 (proj2 (dry_run_logs_listing counting py booked)) eq_refl)
             (PInt 3) TypeError);
      reflexivity.
Defined.

(** ** The script of a run *)

Lemma same_attributes_refl (st : sim) : same_attributes st st.
Proof. repeat split. Qed.

Lemma same_attributes_trans (st1 st2 st3 : sim) :
  same_attributes st1 st2 -> same_attributes st2 st3 -> same_attributes st1 st3.
Proof. unfold same_attributes. intuition congruence. Qed.

Lemma quiet_same_attributes (st st' : sim) :
  quiet st st' -> same_attributes st st' /\ calls st' = calls st.
Proof. unfold quiet, same_attributes. intuition. Qed.

(** Two computations in sequence follow the scripts of the first, then
    those of the second. *)
Lemma follows_seq {A B} (m : M A) (k : A -> M B)
      (S1 S2 : list call -> Prop) (st : sim) :
  (exists s2, S2 s2) ->
  wp m st (follows S1 st) ->
  (forall a st1, same_attributes st st1 -> wp (k a) st1 (follows S2 st1)) ->
  wp (bind m k) st (follows (sequence S1 S2) st).
Proof.
  intros [s0 Hs0] Hm Hk. apply wp_bind. eapply wp_weaken; [exact Hm |].
  cbv beta. intros [a | e] st1 (Hattr & done1 & rest1 & HS1 & Hc1 & Hall1).
  - rewrite (Hall1 ltac:(discriminate)) in HS1.
    eapply wp_weaken; [apply Hk; exact Hattr |].
    cbv beta. intros r st2 (Hattr2 & done2 & rest2 & HS2 & Hc2 & Hall2).
    split; [eapply same_attributes_trans; eassumption |].
    exists (done1 ++ done2)%list, rest2. split; [| split].
    + exists (done1 ++ [])%list, (done2 ++ rest2)%list.
      split; [exact HS1 |]. split; [exact HS2 |].
      rewrite app_nil_r, <- app_assoc. reflexivity.
    + rewrite Hc2, Hc1, <- app_assoc. reflexivity.
    + exact Hall2.
  - split; [exact Hattr |].
    exists done1, (rest1 ++ s0)%list. split; [| split].
    + exists (done1 ++ rest1)%list, s0.
      split; [exact HS1 |]. split; [exact Hs0 |].
      rewrite <- app_assoc. reflexivity.
    + exact Hc1.
    + intros H. exfalso. eapply H. reflexivity.
Qed.

(** Closes [follows (eq script) st r st'] at the end of a branch. *)
Ltac follows_done :=
  unfold follows, same_attributes;
  cbn [principal_id media_buy_id creative_ids products calls called log_call];
  split; [repeat split |];
  do 2 eexists; split; [| split];
  [ | first [ symmetry; apply app_nil_r
            | repeat rewrite <- app_assoc; reflexivity ] | ];
  [ cbn [app]; reflexivity
  | first [ intros _; reflexivity
          | let H := fresh in intros H; exfalso; eapply H; reflexivity ] ].

Lemma phase_4_follows (svc : service) (lib : library) (st : sim) :
  wp (_phase_4_pre_flight svc lib) st
     (follows (eq [delivery_call (media_buy_id st) (add_days flight_start (-2))]) st).
Proof.
  unfold _phase_4_pre_flight, delivery_call. wp_all; follows_done.
Qed.

Lemma phase_7_follows (svc : service) (lib : library) (st : sim) :
  wp (_phase_7_completion svc lib) st (follows (eq [completion_read st]) st).
Proof.
  unfold _phase_7_completion, summary_panel, completion_read, delivery_call.
  wp_all; follows_done.
Qed.
(** Names the pacing seen and settles the branch taken. *)
Ltac optimization_script_done :=
  lazymatch goal with
  | H : get _ "pacing" PNone = Ok ?observed |- ex _ => exists observed
  | |- ex _ => exists PNone
  end;
  repeat match goal with
         | H : get _ "pacing" (PStr "unknown") = _ |- _ => rewrite H
         | H : py_eq_str _ "under_delivery" = _ |- _ => rewrite H
         end;
  cbn [app py_eq_str String.eqb Ascii.eqb Bool.eqb]; reflexivity.

Lemma phase_6_follows (svc : service) (lib : library) (st : sim) :
  wp (_phase_6_optimization svc lib) st (follows (optimization_script svc st) st).
Proof.
  unfold _phase_6_optimization. wp_all.
  all: unfold follows, same_attributes, optimization_script, pacing_acted_on,
         optimization_read, delivery_call, feedback, targeting_update, index_for;
       cbn [principal_id media_buy_id creative_ids products calls called
            log_call];
       (split; [repeat split |]).
  all: do 2 eexists; split; [| split];
    [ | first [ symmetry; apply app_nil_r
              | repeat rewrite <- app_assoc; reflexivity ] | ];
    [ optimization_script_done
    | first [ intros _; reflexivity
            | let H := fresh in intros H; exfalso; eapply H; reflexivity ] ].
Qed.
Lemma monitor_follows (svc : service) (lib : library)
      (days : list (date * string)) :
  forall (daily_data : list snapshot) (st : sim),
  wp (monitor svc lib days daily_data) st
     (follows (eq (map (fun day => delivery_call (media_buy_id st) (fst day)) days)) st).
Proof.
  induction days as [| [check_date description] rest IH]; intros daily_data st.
  - cbn [monitor map]. wp_run. follows_done.
  - cbn [monitor map fst]. unfold delivery_call at 1. wp_all; try follows_done.
    eapply wp_weaken; [apply show_metrics_faults |].
    cbv beta. intros r st1 (Hq & _).
    apply quiet_same_attributes in Hq. destruct Hq as [Hattr Hcalls].
    cbn [principal_id media_buy_id creative_ids products calls called]
      in Hattr, Hcalls.
    destruct r as [[] | e].
    + eapply wp_weaken; [apply IH |].
      cbv beta. intros r st2 (Hattr2 & done & rest' & HS & Hc & Hall).
      split; [eapply same_attributes_trans; eassumption |].
      eexists (_ :: done), rest'. split; [| split].
      * cbn [app]. f_equal. rewrite <- HS.
        destruct Hattr as (_ & -> & _). reflexivity.
      * rewrite Hc, Hcalls. rewrite <- app_assoc. reflexivity.
      * exact Hall.
    + split; [exact Hattr |].
      eexists [_], _. split; [| split].
      * cbn [app]. reflexivity.
      * exact Hcalls.
      * intros H. exfalso. eapply H. reflexivity.
Qed.

Lemma phase_5_follows (svc : service) (lib : library) (st : sim) :
  wp (_phase_5_in_flight svc lib) st
     (follows (eq (monitoring_reads (media_buy_id st))) st).
Proof.
  unfold _phase_5_in_flight, monitoring_reads. wp_prim.
  eapply wp_weaken; [apply monitor_follows |].
  cbv beta. intros [daily_data | e] st1 (Hattr & done & rest & HS & Hc & Hall).
  - eapply wp_weaken; [apply trend_spec |].
    cbv beta. intros r st2 (Hq & _).
    apply quiet_same_attributes in Hq. destruct Hq as [Hattr2 Hcalls].
    split; [eapply same_attributes_trans; eassumption |].
    exists done, rest. split; [exact HS |]. split; [congruence |].
    intros _. apply Hall. discriminate.
  - split; [exact Hattr |].
    exists done, rest. split; [exact HS |]. split; [exact Hc |].
    intros H. exfalso. eapply H. reflexivity.
Qed.
Lemma follows_weaken {A} (S S' : list call -> Prop) (st : sim)
      (r : result A) (st' : sim) :
  (forall s, S s -> S' s) -> follows S st r st' -> follows S' st r st'.
Proof.
  intros HS (Hattr & done & rest & H & Hc & Hall).
  split; [exact Hattr |]. exists done, rest. auto.
Qed.

Lemma optimization_script_loose (svc : service) (st : sim) (s : list call) :
  optimization_script svc st s -> optimization_scripts (media_buy_id st) s.
Proof. intros [observed ->]. eexists _, _. reflexivity. Qed.

(** Phases 4 to 7 follow the flight script of the media buy. *)
Lemma flight_follows (svc : service) (lib : library) (st : sim) :
  wp (_phase_4_pre_flight svc lib ;; _phase_5_in_flight svc lib ;;
      _phase_6_optimization svc lib ;; _phase_7_completion svc lib) st
     (follows (fun s => exists observed update,
                 s = flight_script (media_buy_id st) observed update) st).
Proof.
  set (mb := media_buy_id st).
  set (S4 := eq [delivery_call mb (add_days flight_start (-2))]).
  set (S5 := eq (monitoring_reads mb)).
  set (S7 := eq [delivery_call mb (add_days flight_end 1)]).
  assert (H7 : exists s, S7 s) by (eexists; reflexivity).
  assert (H67 : exists s, sequence (optimization_scripts mb) S7 s).
  { do 3 eexists. split; [exists PNone, false; reflexivity |].
    split; reflexivity. }
  assert (H567 : exists s, sequence S5 (sequence (optimization_scripts mb) S7) s).
  { destruct H67 as [s Hs]. do 2 eexists. exists s. split; [reflexivity |].
    split; [exact Hs | reflexivity]. }
  eapply wp_weaken.
  - apply (follows_seq _ _ S4 (sequence S5 (sequence (optimization_scripts mb) S7)));
      [exact H567 | apply phase_4_follows |].
    intros _ st1 Hattr1.
    assert (Hmb1 : media_buy_id st1 = mb) by apply Hattr1.
    apply (follows_seq _ _ S5 (sequence (optimization_scripts mb) S7));
      [exact H67 | |].
    { unfold S5. rewrite <- Hmb1. apply phase_5_follows. }
    intros _ st2 Hattr2.
    assert (Hmb2 : media_buy_id st2 = mb) by (rewrite <- Hmb1; apply Hattr2).
    apply (follows_seq _ _ (optimization_scripts mb) S7); [exact H7 | |].
    { eapply wp_weaken; [apply phase_6_follows |].
      cbv beta. intros r st3. apply follows_weaken.
      intros s Hs. rewrite <- Hmb2. eapply optimization_script_loose. exact Hs. }
    intros _ st3 Hattr3.
    assert (Hmb3 : media_buy_id st3 = mb) by (rewrite <- Hmb2; apply Hattr3).
    unfold S7. rewrite <- Hmb3. apply phase_7_follows.
  - cbv beta. intros r st'. apply follows_weaken.
    intros s (s4 & s' & <- & (s5 & s'' & <- & (s6 & s7 & H6 & <- & ->) & ->) & ->).
    destruct H6 as (observed & update & ->).
    exists observed, update. reflexivity.
Qed.

(** What phase 1 leaves: one call, and the product list of the reply when
    the call was answered. *)
Lemma phase_1_stores (svc : service) (lib : library) (st : sim) :
  let products_response := reply svc (calls st) planning_call in
  wp (_phase_1_planning svc lib) st (fun r st' =>
    principal_id st' = principal_id st /\ media_buy_id st' = media_buy_id st
    /\ creative_ids st' = creative_ids st
    /\ calls st' = (calls st ++ [planning_call])%list
    /\ (products st' = products st
        \/ get products_response "products" (PList []) = Ok (products st'))
    /\ (answered lib planning_call (svc (calls st) planning_call) = true ->
        products st' =
        match get products_response "products" (PList []) with
        | Ok found => found
        | Raise _ => products st
        end)).
Proof.
  intros products_response. unfold _phase_1_planning. wp_run.
  all: change ("list_products", planning_request) with planning_call in *.
  2:{ conj_split; try reflexivity; [left; reflexivity |].
      intros H. exfalso. exact (eq_true_false_abs _ H Hunanswered). }
  fold products_response.
  destruct (get products_response "products" (PList [])) as [found | e];
    [| conj_split; try reflexivity; left; reflexivity].
  wp_all.
  all: cbn [principal_id media_buy_id creative_ids products calls called].
  all: conj_split; try reflexivity; right; reflexivity.
Qed.

(** What phase 2 leaves: one call, and the identifier of the reply. *)
Lemma phase_2_stores (svc : service) (lib : library) (st : sim) :
  let buy_response := reply svc (calls st) (buy_call lib (principal_id st)) in
  wp (_phase_2_buying svc lib) st (fun r st' =>
    principal_id st' = principal_id st /\ creative_ids st' = creative_ids st
    /\ products st' = products st
    /\ calls st' = (calls st ++ [buy_call lib (principal_id st)])%list
    /\ (media_buy_id st' = media_buy_id st
        \/ get buy_response "media_buy_id" PNone = Ok (media_buy_id st'))).
Proof.
  intros buy_response. unfold _phase_2_buying. wp_run.
  all: change ("create_media_buy", PDict [("req", buy_request lib (principal_id st))])
         with (buy_call lib (principal_id st)) in *.
  2:{ conj_split; try reflexivity. left. reflexivity. }
  fold buy_response.
  destruct (get buy_response "media_buy_id" PNone) as [id | e];
    [| conj_split; try reflexivity; left; reflexivity].
  wp_all.
  all: cbn [principal_id media_buy_id creative_ids products calls called].
  all: conj_split; try reflexivity; right; reflexivity.
Qed.

(** Phase 3 submits, then polls between one and three times for the
    identifiers it tracks. *)
Lemma phase_3_script (svc : service) (lib : library) (st : sim) :
  wp (_phase_3_creatives svc lib) st (fun r st' =>
    principal_id st' = principal_id st /\ media_buy_id st' = media_buy_id st
    /\ products st' = products st
    /\ exists polls done rest,
         (1 <= polls <= 3)%nat
         /\ submit_call (media_buy_id st)
            :: repeat (status_call (creative_ids st')) polls = (done ++ rest)%list
         /\ calls st' = (calls st ++ done)%list
         /\ ((forall e, r <> Raise e) -> rest = [])).
Proof.
  set (Q := fun (r : result unit) (st' : sim) =>
    principal_id st' = principal_id st /\ media_buy_id st' = media_buy_id st
    /\ products st' = products st
    /\ exists polls done rest,
         (1 <= polls <= 3)%nat
         /\ submit_call (media_buy_id st)
            :: repeat (status_call (creative_ids st')) polls = (done ++ rest)%list
         /\ calls st' = (calls st ++ done)%list
         /\ ((forall e, r <> Raise e) -> rest = [])).
  assert (Hstop : forall (e : exn) (st1 : sim),
    principal_id st1 = principal_id st -> media_buy_id st1 = media_buy_id st ->
    products st1 = products st ->
    calls st1 = (calls st ++ [submit_call (media_buy_id st)])%list ->
    Q (Raise e) st1).
  { intros e st1 H1 H2 H3 H4. unfold Q. conj_split; try assumption.
    exists 1%nat, [submit_call (media_buy_id st)], [status_call (creative_ids st1)].
    conj_split; [lia | lia | reflexivity | exact H4 |].
    intros H. exfalso. eapply H. reflexivity. }
  unfold _phase_3_creatives. wp_run; [| apply Hstop; reflexivity].
  wp_branch; [| apply Hstop; reflexivity].
  wp_run. wp_branch; [| apply Hstop; reflexivity].
  wp_prim. eapply wp_weaken; [apply record_statuses_spec |].
  cbv beta. intros r st1 (H1 & H2 & H3 & H4 & _ & _).
  cbn [principal_id media_buy_id products calls called] in H1, H2, H3, H4.
  destruct r as [[] | e]; [| apply Hstop; assumption].
  wp_run. eapply wp_weaken; [apply approval_loop_spec |].
  cbv beta. intros r st2 (G1 & G2 & G3 & G4 & _ & n & Hn & Hpos & Gc).
  cbn [principal_id media_buy_id products creative_ids calls] in G1, G2, G3, G4, Gc.
  assert (Hdone : forall r' : result unit, Q r' st2).
  { intros r'. unfold Q. conj_split; try congruence.
    exists n, (submit_call (media_buy_id st) :: repeat (status_round st1) n), [].
    conj_split.
    - apply Hpos. discriminate.
    - exact Hn.
    - rewrite app_nil_r. unfold status_round. rewrite G4. reflexivity.
    - rewrite Gc, H4. rewrite <- app_assoc. reflexivity.
    - reflexivity. }
  destruct r as [b | e]; wp_run; apply Hdone.
Qed.

Lemma script_split (lib : library) (principal : string) (mb : pyval)
      (ids : list pyval) (polls : nat) (observed : pyval) (update : bool) :
  script lib principal mb ids polls observed update =
  ([planning_call; buy_call lib principal]
   ++ (submit_call mb :: repeat (status_call ids) polls)
   ++ flight_script mb observed update)%list.
Proof. reflexivity. Qed.

(** The whole run: what the attributes hold in the end, and the calls
    issued against the script. *)
Lemma run_script_spec (svc : service) (lib : library) (principal : string) :
  let products_response := reply svc [] planning_call in
  let buy_response := reply svc [planning_call] (buy_call lib principal) in
  wp (run svc lib) (init principal) (fun r st' =>
    principal_id st' = principal
    /\ (products st' = PList []
        \/ get products_response "products" (PList []) = Ok (products st'))
    /\ (has_bracket principal = false ->
        answered lib planning_call (svc [] planning_call) = true ->
        products st' =
        match get products_response "products" (PList []) with
        | Ok found => found
        | Raise _ => PList []
        end)
    /\ (media_buy_id st' = PNone
        \/ get buy_response "media_buy_id" PNone = Ok (media_buy_id st'))
    /\ exists polls observed update rest,
         (1 <= polls <= 3)%nat
         /\ script lib principal (media_buy_id st') (creative_ids st')
                   polls observed update = (calls st' ++ rest)%list
         /\ ((forall e, r <> Raise e) -> rest = [])).
Proof.
  intros products_response buy_response. unfold run. wp_run.
  { cbn [init principal_id media_buy_id creative_ids products calls].
    conj_split; [reflexivity | left; reflexivity | | left; reflexivity |].
    - intros Hplain _. exfalso. unfold raises_markup in Hrefused.
      cbn [existsb bracketed principal_id init] in Hrefused.
      rewrite Hplain in Hrefused. discriminate Hrefused.
    - exists 1%nat, PNone, false. eexists.
      conj_split; [lia | lia | reflexivity |].
      intros H. exfalso. eapply H. reflexivity. }
  eapply wp_weaken; [apply phase_1_stores |].
  cbv beta zeta. cbn [principal_id media_buy_id creative_ids products calls app init].
  fold products_response.
  intros r st1 (P1 & M1 & I1 & C1 & F1 & F1').
  assert (HF1 : has_bracket principal = false ->
                answered lib planning_call (svc [] planning_call) = true ->
                products st1 =
                match get products_response "products" (PList []) with
                | Ok found => found
                | Raise _ => PList []
                end) by (intros _; exact F1').
  destruct r as [[] | e].
  2:{ conj_split; [exact P1 | exact F1 | exact HF1 | left; exact M1 |].
      exists 1%nat, PNone, false. eexists.
      conj_split; [lia | lia | rewrite C1; reflexivity |].
      intros H. exfalso. eapply H. reflexivity. }
  wp_prim. eapply wp_weaken; [apply phase_2_stores |].
  cbv beta zeta. rewrite C1, P1. fold buy_response.
  intros r st2 (P2 & I2 & F2 & C2 & M2).
  rewrite M1 in M2. rewrite <- F2 in F1, HF1.
  destruct r as [[] | e].
  2:{ conj_split; [exact P2 | exact F1 | exact HF1 | exact M2 |].
      exists 1%nat, PNone, false. eexists.
      conj_split; [lia | lia | rewrite C2; reflexivity |].
      intros H. exfalso. eapply H. reflexivity. }
  wp_prim. eapply wp_weaken; [apply phase_3_script |].
  cbv beta.
  intros r st3 (P3 & M3 & F3 & polls & done3 & rest3 & Hpolls & HS3 & C3 & Hall3).
  rewrite <- F3 in F1, HF1. rewrite <- M3 in M2.
  destruct r as [[] | e].
  2:{ conj_split; [congruence | exact F1 | exact HF1 | exact M2 |].
      exists polls, PNone, false. eexists.
      conj_split; [lia | lia | |].
      - rewrite script_split, C3, C2, M3, HS3.
        repeat rewrite <- app_assoc. reflexivity.
      - intros H. exfalso. eapply H. reflexivity. }
  rewrite (Hall3 ltac:(discriminate)), app_nil_r in HS3.
  eapply wp_weaken; [apply flight_follows |].
  cbv beta.
  intros r st' ((P4 & M4 & I4 & F4) & done4 & rest4 & (observed & update & HS4)
                & C4 & Hall4).
  rewrite <- F4 in F1, HF1. rewrite <- M4 in M2.
  conj_split; [congruence | exact F1 | exact HF1 | exact M2 |].
  exists polls, observed, update, rest4.
  conj_split; [lia | lia | | exact Hall4].
  rewrite script_split, C4, C3, C2, M4, I4, <- HS4, M3, HS3.
  repeat rewrite <- app_assoc. reflexivity.
Qed.

Lemma script_length (lib : library) (principal : string) (mb : pyval)
      (ids : list pyval) (polls : nat) (observed : pyval) (update : bool) :
  List.length (script lib principal mb ids polls observed update) =
  (11 + polls + (if update then 1 else 0))%nat.
Proof.
  rewrite script_split, !length_app. cbn [List.length].
  rewrite repeat_length. destruct update; cbn; lia.
Qed.

(** X3: the calls of a run are scripted.  On every service, the calls
    issued are the first calls of one script: list_products,
    create_media_buy, submit_creatives, between one and three
    check_creative_status for the tracked identifiers, the pre-flight
    read, the four monitoring reads, the optimization read, one
    update_performance_index, at most one update_media_buy and the final
    read, every request after the buy carrying the stored media-buy
    identifier.  A run that returns has issued them all.  So no run
    issues more than 15 calls, and a run that returns at least 12. *)
Theorem run_follows_the_script
  (svc : service) (lib : library) (principal : string) :
  let out := run svc lib (init principal) in
  exists polls observed update rest,
    (1 <= polls <= 3)%nat
    /\ script lib principal (media_buy_id (snd out)) (creative_ids (snd out))
              polls observed update = (calls (snd out) ++ rest)%list
    /\ (fst out = Ok tt -> rest = [])
    /\ (List.length (calls (snd out)) <= 15)%nat
    /\ (fst out = Ok tt -> (12 <= List.length (calls (snd out)))%nat).
Proof.
  intros out.
  destruct (run_script_spec svc lib principal)
    as (_ & _ & _ & _ & polls & observed & update & rest & Hpolls & HS & Hall).
  fold out in HS, Hall.
  assert (Hlen := f_equal (@List.length call) HS).
  rewrite script_length, length_app in Hlen.
  exists polls, observed, update, rest.
  split; [exact Hpolls |]. split; [exact HS |].
  split; [intros Hok; apply Hall; rewrite Hok; discriminate |].
  split; [destruct update; lia |].
  intros Hok. rewrite (Hall ltac:(rewrite Hok; discriminate)) in Hlen.
  cbn [List.length] in Hlen. lia.
Qed.

(** X4: a run keeps what the service returned.  Whatever happens, the
    principal is the one the simulation was made for, the product list is
    either still empty or the "products" of the list_products reply, and
    the media-buy identifier is either still None or the "media_buy_id"
    of the reply to the create_media_buy request that the run sends.  A
    run stopped before phase 1 stores anything leaves the list empty:
    when the console takes the principal and the planning call is
    answered, the product list is the "products" of the reply, empty
    when the reply is not a dict. *)
Theorem run_keeps_what_the_service_returned
  (svc : service) (lib : library) (principal : string) :
  let out := run svc lib (init principal) in
  let products_response := reply svc [] planning_call in
  let buy_response := reply svc [planning_call] (buy_call lib principal) in
  principal_id (snd out) = principal
  /\ (products (snd out) = PList []
      \/ get products_response "products" (PList []) = Ok (products (snd out)))
  /\ (media_buy_id (snd out) = PNone
      \/ get buy_response "media_buy_id" PNone = Ok (media_buy_id (snd out)))
  /\ (has_bracket principal = false ->
      answered lib planning_call (svc [] planning_call) = true ->
      products (snd out) =
      match get products_response "products" (PList []) with
      | Ok found => found
      | Raise _ => PList []
      end).
Proof.
  intros out products_response buy_response.
  destruct (run_script_spec svc lib principal) as (Hp & Hf & Hf' & Hm & _).
  conj_split; assumption.
Qed.

(** X5: phase 6 changes the targeting only on under-delivery.  On every
    service and whatever the replies hold, the phase issues at most three
    calls and changes no attribute; an update_media_buy is among the
    calls only if the optimization read came back with the pacing
    "under_delivery". *)
Theorem targeting_changes_only_when_under_delivering
  (svc : service) (lib : library) (st : sim) :
  let out := _phase_6_optimization svc lib st in
  let response := reply svc (calls st) (optimization_read st) in
  (List.length (issued (_phase_6_optimization svc lib) st) <= 3)%nat
  /\ (existsb is_update (issued (_phase_6_optimization svc lib) st) = true ->
      get response "pacing" (PStr "unknown") = Ok (PStr "under_delivery"))
  /\ same_attributes st (snd out).
Proof.
  intros out response.
  destruct (phase_6_follows svc lib st)
    as (Hattr & done & rest & (observed & HS) & Hc & _).
  rewrite (issued_app _ _ _ Hc).
  assert (Hlen := f_equal (@List.length call) HS).
  assert (Hupd := f_equal (existsb is_update) HS).
  rewrite existsb_app in Hupd. rewrite length_app in Hlen.
  unfold pacing_acted_on in HS, Hlen, Hupd. fold response in HS, Hlen, Hupd.
  split; [| split; [| exact Hattr]].
  - destruct (py_eq_str _ "under_delivery") in Hlen; cbn in Hlen; lia.
  - intros Hdone. rewrite Hdone in Hupd. cbn [orb] in Hupd.
    destruct (get response "pacing" (PStr "unknown")) as [pacing | e].
    + destruct (py_eq_str pacing "under_delivery") eqn:Hp;
        [| discriminate Hupd].
      apply py_eq_str_spec in Hp. congruence.
    + discriminate Hupd.
Qed.

(** ** Planning *)

Lemma product_row_of_dict (d : list (string * pyval)) :
  product_row (PDict d) =
  if forallb renderable (cells (PDict d))
  then Ok (table_row (PDict d)) else Raise NotRenderableError.
Proof.
  unfold product_row, table_row, cells, field. cbn [get rbind].
  destruct (truthy _); cbn [rbind];
    destruct (forallb renderable _); reflexivity.
Qed.

Lemma add_rows_tabular (items : list pyval) : forall (table : list line),
  forallb tabular items = true ->
  add_rows table items = Ok (table ++ map table_row items)%list.
Proof.
  induction items as [| product rest IH]; intros table Hitems.
  - cbn. rewrite app_nil_r. reflexivity.
  - cbn [forallb] in Hitems. apply andb_prop in Hitems.
    destruct Hitems as [Hproduct Hrest]. unfold tabular in Hproduct.
    apply andb_prop in Hproduct. destruct Hproduct as [Hdict Hcells].
    destruct product; try discriminate Hdict.
    cbn [add_rows map]. rewrite product_row_of_dict, Hcells. cbn [rbind].
    rewrite (IH _ Hrest), <- app_assoc. reflexivity.
Qed.

Lemma add_rows_not_tabular (items : list pyval) : forall (table : list line),
  forallb is_dict items = true -> forallb tabular items = false ->
  add_rows table items = Raise NotRenderableError.
Proof.
  induction items as [| product rest IH]; intros table Hdicts Hitems;
    [discriminate Hitems |].
  cbn [forallb] in Hdicts, Hitems. apply andb_prop in Hdicts.
  destruct Hdicts as [Hdict Hrest]. destruct product; try discriminate Hdict.
  cbn [add_rows]. rewrite product_row_of_dict.
  unfold tabular in Hitems at 1. cbn [is_dict andb] in Hitems.
  destruct (forallb renderable (cells (PDict d))); cbn [rbind andb] in *;
    [apply IH; assumption | reflexivity].
Qed.

Lemma bracketed_field (v : pyval) (k : string) (default : pyval) :
  bracketed v = false -> bracketed default = false ->
  bracketed (field v k default) = false.
Proof.
  intros Hv Hdefault. unfold field.
  destruct (get v k default) as [x | e] eqn:Hx; [| exact Hdefault].
  exact (bracketed_get v k default x Hv Hdefault Hx).
Qed.

(** The rows of products without a bracket show no bracket. *)
Lemma rows_plain (items : list pyval) :
  bracketed (PList items) = false ->
  forallb (fun x => negb (bracketed x)) (flat_map shown (map table_row items)) = true.
Proof.
  induction items as [| product rest IH]; [reflexivity |].
  rewrite bracketed_cons. intros H. apply orb_false_elim in H.
  destruct H as [Hproduct Hrest]. cbn [map flat_map].
  rewrite forallb_app, (IH Hrest), andb_true_r.
  assert (Hcells : forallb (fun x => negb (bracketed x)) (cells product) = true).
  { unfold cells. cbn [forallb].
    rewrite !bracketed_field by (assumption || reflexivity). reflexivity. }
  unfold table_row. destruct (truthy _); cbn [shown]; [| exact Hcells].
  rewrite forallb_app, Hcells. cbn [forallb andb].
  rewrite bracketed_field by (assumption || reflexivity). reflexivity.
Qed.

(** X6: what phase 1 reports, for a list_products call that is answered
    with a dict.  The attribute products holds the value found.  Without
    products (no such key, an empty list, null or another false value)
    the phase prints "No products available" and returns.  For a
    non-empty list of product dicts: if a product_id, name or
    delivery_type is neither a string nor None, the table refuses it, the
    phase raises NotRenderableError and no row is shown; otherwise the
    table is printed whole or not at all: either the phase returns having
    shown one row per product, in the order given, and then their
    number, or the console refuses a text and nothing more is shown.  It
    is not refused when the products hold no bracket.  The price of a row
    is the product's cpm only when its is_fixed_price is true, and
    "Variable" otherwise. *)
Theorem planning_reports_the_products
  (svc : service) (lib : library) (st : sim) (found : pyval) :
  let o := svc (calls st) planning_call in
  let out := _phase_1_planning svc lib st in
  let opening := ([Day planning_date "Beginning campaign planning";
                   Say "Discovering available media products..." []]
                  ++ reported "list_products" o)%list in
  answered lib planning_call o = true ->
  get (content_of o) "products" (PList []) = Ok found ->
  products (snd out) = found
  /\ (truthy found = false ->
      fst out = Ok tt
      /\ printed (_phase_1_planning svc lib) st =
         (opening ++ [Say "No products available" []])%list)
  /\ (forall items,
        found = PList items -> items <> [] -> forallb is_dict items = true ->
        let table :=
          (opening ++ map table_row items
           ++ [Say "Found {} available products"
                   [PInt (Z.of_nat (List.length items))]])%list in
        (forallb tabular items = false ->
         fst out = Raise NotRenderableError
         /\ printed (_phase_1_planning svc lib) st = opening)
        /\ (forallb tabular items = true ->
            (fst out = Ok tt /\ printed (_phase_1_planning svc lib) st = table)
            \/ (fst out = Raise MarkupError
                /\ printed (_phase_1_planning svc lib) st = opening))
        /\ (forallb tabular items = true -> bracketed found = false ->
            fst out = Ok tt /\ printed (_phase_1_planning svc lib) st = table)).
Proof.
  intros o out opening Hanswered Hfound.
  assert (Hstart : forall Q : result unit -> sim -> Prop,
    (forall st1,
       principal_id st1 = principal_id st -> media_buy_id st1 = media_buy_id st ->
       creative_ids st1 = creative_ids st -> products st1 = found ->
       calls st1 = (calls st ++ [planning_call])%list ->
       console st1 = (console st ++ opening)%list ->
       wp (if truthy found
           then items <- lift (py_iter found) ;;
                table <- lift (add_rows [] items) ;;
                print lib "Available Media Products" (flat_map shown table) table ;;
                n <- lift (py_len found) ;;
                say lib "Found {} available products" [PInt n]
           else say lib "No products available" []) st1 Q) ->
    wp (_phase_1_planning svc lib) st Q).
  { intros Q HQ. unfold _phase_1_planning. do 5 wp_prim.
    apply wp_call_tool_reported;
      change ("list_products", planning_request) with planning_call; fold o;
      [intros _ | intros H; exfalso; exact (eq_true_false_abs _ Hanswered H)].
    unfold reply. fold o.
    wp_prim. unfold wp at 1. cbn [lift fst snd]. fold o. rewrite Hfound.
    wp_run. apply HQ; cbn [called principal_id media_buy_id creative_ids
                           products calls console]; try reflexivity.
    unfold opening. repeat rewrite <- app_assoc. reflexivity. }
  split; [| split].
  - destruct (phase_1_stores svc lib st) as (_ & _ & _ & _ & _ & H).
    fold out in H. rewrite (H Hanswered). unfold reply. fold o. rewrite Hfound.
    reflexivity.
  - intros Hfalse.
    assert (H : wp (_phase_1_planning svc lib) st (fun r st' =>
      r = Ok tt
      /\ console st' =
         (console st ++ opening ++ [Say "No products available" []])%list)).
    { apply Hstart. intros st1 _ _ _ _ _ Hc. rewrite Hfalse. wp_run.
      split; [reflexivity |]. rewrite Hc, <- app_assoc. reflexivity. }
    destruct H as [Hr Hc]. split; [exact Hr | apply printed_app; exact Hc].
  - intros items -> Hne Hdicts table.
    assert (Htrue : truthy (PList items) = true)
      by (destruct items; [congruence | reflexivity]).
    split; [| split].
    + intros Hcells.
      assert (H : wp (_phase_1_planning svc lib) st (fun r st' =>
        r = Raise NotRenderableError
        /\ console st' = (console st ++ opening)%list)).
      { apply Hstart. intros st1 _ _ _ _ _ Hc. rewrite Htrue.
        cbn [py_iter]. wp_run.
        rewrite (add_rows_not_tabular _ _ Hdicts Hcells).
        split; [reflexivity | exact Hc]. }
      destruct H as [Hr Hc]. split; [exact Hr | apply printed_app; exact Hc].
    + intros Hcells.
      assert (H : wp (_phase_1_planning svc lib) st (fun r st' =>
        (r = Ok tt /\ console st' = (console st ++ table)%list)
        \/ (r = Raise MarkupError
            /\ console st' = (console st ++ opening)%list))).
      { apply Hstart. intros st1 _ _ _ _ _ Hc. rewrite Htrue.
        cbn [py_iter py_len]. wp_run.
        rewrite (add_rows_tabular _ _ Hcells). cbn [app].
        wp_run; [right; split; [reflexivity | exact Hc] |].
        left. split; [reflexivity |]. rewrite Hc. unfold table.
        repeat rewrite <- app_assoc. reflexivity. }
      destruct H as [[Hr Hc] | [Hr Hc]]; [left | right];
        (split; [exact Hr | apply printed_app; exact Hc]).
    + intros Hcells Hplain.
      assert (H : wp (_phase_1_planning svc lib) st (fun r st' =>
        r = Ok tt /\ console st' = (console st ++ table)%list)).
      { apply Hstart. intros st1 _ _ _ _ _ Hc. rewrite Htrue.
        cbn [py_iter py_len]. wp_run.
        rewrite (add_rows_tabular _ _ Hcells). cbn [app].
        wp_run.
        { exfalso.
          rewrite (plain_texts_print _ _ _ (rows_plain _ Hplain)) in Hrefused.
          discriminate Hrefused. }
        split; [reflexivity |]. rewrite Hc. unfold table.
        repeat rewrite <- app_assoc. reflexivity. }
      destruct H as [Hr Hc]. split; [exact Hr | apply printed_app; exact Hc].
Qed.

(** A catalogue of two products gives two rows. *)
Lemma planning_reports_the_products_witness :
  printed (_phase_1_planning catalogue py) (init "purina") =
  [Day planning_date "Beginning campaign planning";
   Say "Discovering available media products..." [];
   Say "{} | {} | {} | ${} CPM"
       [PStr "prod_video_guaranteed_sports";
        PStr "Sports Video - Guaranteed"; PStr "guaranteed"; PFloat 45.0];
   Say "{} | {} | {} | Variable"
       [PStr "prod_audio_streaming"; PStr "Streaming Audio";
        PStr "non_guaranteed"];
   Say "Found {} available products" [PInt 2]].
Proof.
  refine (proj2 (proj2 (proj2 (proj2 (proj2
            (planning_reports_the_products catalogue py (init "purina") _
               eq_refl eq_refl))
            [PDict [("product_id", PStr "prod_video_guaranteed_sports");
                    ("name", PStr "Sports Video - Guaranteed");
                    ("delivery_type", PStr "guaranteed");
                    ("is_fixed_price", PBool true);
                    ("cpm", PFloat 45.0)];
             PDict [("product_id", PStr "prod_audio_streaming");
                    ("name", PStr "Streaming Audio");
                    ("delivery_type", PStr "non_guaranteed");
                    ("is_fixed_price", PBool false);
                    ("cpm", PFloat 12.0)]]
            eq_refl _ eq_refl)) eq_refl eq_refl)).
  discriminate.
Defined.

(** ** Pre-flight *)

(** Runs the program up to its next call. *)
Ltac wp_upto_call :=
  repeat lazymatch goal with
         | |- wp (_call_tool _ _ _ _) _ _ => fail
         | _ => wp_prim
         end.

(** A value that can be shown with a format specification is a number. *)
Lemma formatted_plain (v : pyval) (f : fmt) :
  format_spec v f = Ok tt -> bracketed v = false.
Proof. destruct v; try discriminate; reflexivity. Qed.

Lemma plain_text_print (lib : library) (msg : string) (v : pyval) :
  bracketed v = false -> raises_markup lib msg [v] = false.
Proof.
  intros H. apply plain_texts_print. cbn [forallb]. rewrite H. reflexivity.
Qed.

(** X7: the pre-flight check informs, it does not decide.  When the read
    (as of two days before the flight) is answered with a dict, the phase
    issues that one call and changes no attribute.  If the console
    refuses the status, the phase raises MarkupError before any verdict.
    For a status without a bracket: if the total_budget shown can be
    formatted, the phase returns whatever the status is, its last line
    being "Campaign ready for launch" exactly when the status is
    "scheduled" and the unexpected status otherwise ("unknown" when the
    reply has none); if it cannot (null, a string, an int too large for a
    float), the phase raises before any verdict. *)
Theorem pre_flight_verdict
  (svc : service) (lib : library) (st : sim) (status total_budget : pyval) :
  let o := svc (calls st) (pre_flight_read st) in
  let response := reply svc (calls st) (pre_flight_read st) in
  let out := _phase_4_pre_flight svc lib st in
  answered lib (pre_flight_read st) o = true ->
  get response "status" (PStr "unknown") = Ok status ->
  get response "total_budget" (PInt 0) = Ok total_budget ->
  calls (snd out) = (calls st ++ [pre_flight_read st])%list
  /\ same_attributes st (snd out)
  /\ (raises_markup lib "Campaign status: {}" [status] = true ->
      fst out = Raise MarkupError
      /\ last (console (snd out)) (Say "" []) =
         Say "Verifying campaign setup..." [])
  /\ (bracketed status = false ->
      (format_spec total_budget Fixed = Ok tt ->
       fst out = Ok tt
       /\ last (console (snd out)) (Say "" []) =
          if py_eq_str status "scheduled"
          then Say "Campaign ready for launch" []
          else Say "Unexpected status: {}" [status])
      /\ (forall e, format_spec total_budget Fixed = Raise e ->
          fst out = Raise e
          /\ last (console (snd out)) (Say "" []) =
             Say "Days until launch: 2" [])).
Proof.
  intros o response out Hanswered Hstatus Hbudget.
  change (wp (_phase_4_pre_flight svc lib) st (fun r st' =>
    calls st' = (calls st ++ [pre_flight_read st])%list
    /\ same_attributes st st'
    /\ (raises_markup lib "Campaign status: {}" [status] = true ->
        r = Raise MarkupError
        /\ last (console st') (Say "" []) = Say "Verifying campaign setup..." [])
    /\ (bracketed status = false ->
        (format_spec total_budget Fixed = Ok tt ->
         r = Ok tt
         /\ last (console st') (Say "" []) =
            if py_eq_str status "scheduled"
            then Say "Campaign ready for launch" []
            else Say "Unexpected status: {}" [status])
        /\ (forall e, format_spec total_budget Fixed = Raise e ->
            r = Raise e
            /\ last (console st') (Say "" []) = Say "Days until launch: 2" [])))).
  unfold _phase_4_pre_flight. wp_upto_call.
  apply wp_call_tool_reported;
    change ("get_media_buy_delivery",
            delivery_request (media_buy_id st) (add_days flight_start (-2)))
      with (pre_flight_read st); fold o; fold response;
    [intros _ | intros H; exfalso; exact (eq_true_false_abs _ Hanswered H)].
  wp_prim. unfold wp at 1. cbn [lift fst snd calls called]. fold response.
  rewrite Hstatus. wp_prim.
  apply wp_say; wp_simpl; [intros Hrefused | intros Haccepted].
  - (* the status is refused *)
    assert (Ho : reported "get_media_buy_delivery" o = []).
    { destruct o as [r | e] eqn:Eo; [reflexivity | exfalso].
      unfold response, reply in Hstatus. fold o in Hstatus. rewrite Eo in Hstatus.
      cbn in Hstatus. injection Hstatus as <-.
      never_refused Hrefused. }
    fold o. rewrite Ho, app_nil_r.
    split; [reflexivity |]. split; [repeat split |]. split.
    + intros _. split; [reflexivity | apply last_line].
    + intros Hplain. rewrite (plain_text_print _ _ _ Hplain) in Hrefused.
      discriminate Hrefused.
  - assert (Hnot : forall P : Prop,
              raises_markup lib "Campaign status: {}" [status] = true -> P).
    { intros P H. rewrite H in Haccepted. discriminate Haccepted. }
    wp_run. rewrite Hbudget. wp_run.
    destruct (format_spec total_budget Fixed) as [[] | e] eqn:Hformat.
    + wp_run.
      { exfalso.
        rewrite (plain_text_print _ _ _ (formatted_plain _ _ Hformat)) in Hrefused.
        discriminate Hrefused. }
      destruct (py_eq_str status "scheduled") eqn:Hscheduled; wp_run.
      * split; [reflexivity |]. split; [repeat split |].
        split; [apply Hnot |].
        intros _. split; [| discriminate].
        intros _. split; [reflexivity | apply last_line].
      * split; [reflexivity |]. split; [repeat split |].
        split; [apply Hnot |].
        intros Hplain. exfalso.
        rewrite (plain_text_print _ _ _ Hplain) in Hrefused.
        discriminate Hrefused.
      * split; [reflexivity |]. split; [repeat split |].
        split; [apply Hnot |].
        intros _. split; [| discriminate].
        intros _. split; [reflexivity | apply last_line].
    + split; [reflexivity |]. split; [repeat split |].
      split; [apply Hnot |].
      intros _. split; [discriminate |].
      intros e' [= <-]. split; [reflexivity | apply last_line].
Qed.

(** Two days before the flight the campaign is scheduled and its budget
    is a float: ready for launch. *)
Lemma pre_flight_verdict_witness :
  fst (_phase_4_pre_flight (ad_server "on_track") py booked) = Ok tt
  /\ last (console (snd (_phase_4_pre_flight (ad_server "on_track") py booked)))
          (Say "" []) = Say "Campaign ready for launch" [].
Proof.
  apply (proj1 (proj2 (proj2 (proj2 (pre_flight_verdict (ad_server "on_track") py
                                       booked (PStr "scheduled") (PFloat 50000.00)
                                       eq_refl eq_refl eq_refl)))
                      eq_refl)).
  reflexivity.
Defined.
(** ** Polling without convergence *)

(** The inner loop on status dicts without a bracket: one line per
    status, and [all_approved] stays true only if every status reads
    approved. *)
Lemma scan_statuses_value (lib : library) (items : list pyval) :
  forall (b : bool) (st : sim),
  forallb is_dict items = true ->
  forallb (fun x => negb (bracketed x)) items = true ->
  wp (scan_statuses lib b items) st (fun r st' =>
    quiet st st'
    /\ r = Ok (b && forallb approved_status items)
    /\ console st' = (console st ++ map status_line items)%list).
Proof.
  induction items as [| status rest IH]; intros b st Hdicts Hplain.
  - cbn [scan_statuses forallb map]. wp_run. split; [apply quiet_refl |].
    split; [rewrite andb_true_r; reflexivity | symmetry; apply app_nil_r].
  - cbn [forallb] in Hdicts, Hplain.
    apply andb_prop in Hdicts. destruct Hdicts as [Hd Hrest].
    apply andb_prop in Hplain. destruct Hplain as [Hs Hplain].
    apply negb_true_iff in Hs. destruct status; try discriminate Hd.
    cbn [scan_statuses forallb map].
    unfold check_status, approved_status at 1, status_line at 1,
      creative_id_of, field.
    wp_run.
    { exfalso.
      rewrite (status_line_prints lib _ (PDict d) _ _ Hs eq_refl eq_refl)
        with (prefix := [PBool (py_eq_str
                                  match lookup "status" d with
                                  | Some v => v
                                  | None => PStr "unknown"
                                  end "approved")]) in Hrefused;
        [discriminate | reflexivity]. }
    eapply wp_weaken; [apply (IH _ _ Hrest Hplain) |].
    cbv beta. intros r st' (Hq & Hr & Hout).
    split; [| split].
    + unfold quiet in *.
      cbn [principal_id media_buy_id creative_ids products calls] in Hq.
      exact Hq.
    + rewrite Hr. f_equal. cbn [get].
      destruct (py_eq_str _ "approved"); cbn [negb andb];
        [reflexivity | rewrite andb_false_r; reflexivity].
    + cbn [console] in Hout. rewrite Hout, <- app_assoc. reflexivity.
Qed.

(** A reply that lists a status was returned by the service. *)
Lemma undecided_answered (svc : service) (lib : library)
      (history : list call) (c : call) :
  undecided (reply svc history c) = true ->
  svc history c = Returns (mkresult (structured_content
                                       match svc history c with
                                       | Returns r => r
                                       | Raises _ => mkresult None
                                       end))
  /\ answered lib c (svc history c) = true
  /\ reported (fst c) (svc history c) = [].
Proof.
  unfold reply, undecided, answered, reported.
  destruct (svc history c) as [[content] | e]; cbn; [repeat split | discriminate].
Qed.

(** X8: polling that does not converge runs out of dates, and that is
    not an error.  For every schedule, if each status query gets a reply
    that holds no bracket and lists status dicts of which one at least is
    not "approved", the loop issues one query per scheduled date, all for
    the tracked identifiers, returns with all_approved false and changes
    no attribute.  What it prints is, for each date, the day and one line
    per status of the reply: the approval is never announced. *)
Theorem polling_exhausts_the_schedule
  (svc : service) (lib : library) (days : list date) (st : sim) :
  let out := approval_loop svc lib days st in
  (forall i, (i < List.length days)%nat ->
     let status_response :=
       reply svc (calls st ++ repeat (status_round st) i)%list (status_round st) in
     undecided status_response = true /\ bracketed status_response = false) ->
  fst out = Ok false
  /\ calls (snd out) =
     (calls st ++ repeat (status_round st) (List.length days))%list
  /\ same_attributes st (snd out)
  /\ printed (approval_loop svc lib days) st =
     polling_lines svc (calls st) (status_round st) days.
Proof.
  intros out Hreplies.
  assert (H : wp (approval_loop svc lib days) st (fun r st' =>
    r = Ok false
    /\ calls st' = (calls st ++ repeat (status_round st) (List.length days))%list
    /\ same_attributes st st'
    /\ console st' =
       (console st ++ polling_lines svc (calls st) (status_round st) days)%list)).
  { clear out. revert st Hreplies.
    induction days as [| check_date rest IH]; intros st Hreplies.
    - cbn [approval_loop List.length repeat polling_lines]. wp_run.
      split; [reflexivity |]. split; [symmetry; apply app_nil_r |].
      split; [apply same_attributes_refl | symmetry; apply app_nil_r].
    - destruct (Hreplies 0%nat ltac:(cbn [List.length]; lia)) as [H0 Hplain0].
      cbn [repeat] in H0, Hplain0. rewrite app_nil_r in H0, Hplain0.
      destruct (undecided_answered svc lib _ _ H0) as (_ & Hanswered & Hquiet).
      cbn [approval_loop polling_lines]. unfold approval_check. wp_upto_call.
      apply wp_call_tool_reported; wp_simpl;
        change ("check_creative_status", status_request (creative_ids st))
          with (status_round st);
        [intros _ | intros H; exfalso; exact (eq_true_false_abs _ Hanswered H)].
      change (fst (status_round st)) with "check_creative_status" in Hquiet.
      rewrite Hquiet. unfold statuses_of. unfold undecided in H0.
      destruct (get (reply svc (calls st) (status_round st)) "statuses" (PList []))
        as [[| | | | | items |] | e] eqn:Hstatuses; try discriminate H0.
      apply andb_prop in H0. destruct H0 as [Hdicts Hsome].
      apply negb_true_iff in Hsome.
      assert (Hitems : forallb (fun x => negb (bracketed x)) items = true).
      { apply (bracketed_iter (PList items)); [| reflexivity].
        exact (bracketed_get _ "statuses" (PList []) _ Hplain0 eq_refl Hstatuses). }
      wp_run. eapply wp_weaken; [apply (scan_statuses_value _ _ _ _ Hdicts Hitems) |].
      cbv beta. intros r st1 (Hq & -> & Hout1).
      rewrite Hsome. cbn [andb].
      destruct Hq as (Q1 & Q2 & Q3 & Q4 & Q5).
      cbn [principal_id media_buy_id creative_ids products calls console called]
        in Q1, Q2, Q3, Q4, Q5, Hout1.
      assert (Hround : status_round st1 = status_round st)
        by (unfold status_round; rewrite Q3; reflexivity).
      eapply wp_weaken; [apply IH |].
      + intros i Hi. rewrite Hround, Q5, <- app_assoc.
        apply (Hreplies (S i)). cbn [List.length]. lia.
      + cbv beta. intros r st2 (Hr & Hc & Hattr & Hout2).
        split; [exact Hr |]. split; [| split].
        * rewrite Hc, Hround, Q5, <- app_assoc. reflexivity.
        * unfold same_attributes in *. intuition congruence.
        * rewrite Hout2, Hout1, Hround, Q5, app_nil_r.
          repeat rewrite <- app_assoc. reflexivity. }
  destruct H as (Hr & Hc & Hattr & Hout).
  split; [exact Hr |]. split; [exact Hc |]. split; [exact Hattr |].
  apply printed_app. exact Hout.
Qed.

(** Two creatives that stay pending: three queries for the three dates. *)
Lemma polling_exhausts_the_schedule_witness :
  fst (approval_loop stalled py approval_days submitted) = Ok false
  /\ map fst (calls (snd (approval_loop stalled py approval_days submitted))) =
     ["check_creative_status"; "check_creative_status"; "check_creative_status"].
Proof.
  destruct (polling_exhausts_the_schedule stalled py approval_days submitted)
    as (Hr & Hc & _).
  - intros i Hi. cbn [List.length approval_days] in Hi.
    destruct i as [| [| [| i]]];
      [split; reflexivity | split; reflexivity | split; reflexivity | lia].
  - split; [exact Hr | rewrite Hc; reflexivity].
Defined.

(** ** The performance trend *)

(** An int divided by itself is exactly 1.0. *)
Lemma int_truediv_self (p : positive) : int_truediv (Zpos p) (Zpos p) = Ok 1%float.
Proof.
  unfold int_truediv. cbn [Z.ltb Z.compare Z.abs Z.to_pos].
  unfold SFdiv, SFdiv_core_binary.
  replace (Zdigits2 (Z.pos p) + 0 - (Zdigits2 (Z.pos p) + 0)) with 0 by lia.
  change (Z.min (fexp prec emax 0) (0 - 0)) with (-53).
  change (0 - 0 - -53) with 53. cbv iota.
  rewrite Z.shiftl_mul_pow2 by lia.
  destruct (Z.div_eucl (Z.pos p * 2 ^ 53) (Z.pos p)) as [q r] eqn:E.
  assert (Hq : q = 2 ^ 53).
  { change q with (fst (q, r)). rewrite <- E.
    change (fst (Z.div_eucl (Z.pos p * 2 ^ 53) (Z.pos p)))
      with (Z.pos p * 2 ^ 53 / Z.pos p).
    rewrite Z.mul_comm. apply Z.div_mul. discriminate. }
  assert (Hr : r = 0).
  { change r with (snd (q, r)). rewrite <- E.
    change (snd (Z.div_eucl (Z.pos p * 2 ^ 53) (Z.pos p)))
      with ((Z.pos p * 2 ^ 53) mod Z.pos p).
    rewrite Z.mul_comm. apply Z.mod_mul. discriminate. }
  subst q r. unfold new_location.
  destruct (Z.even (Z.pos p)); vm_compute; reflexivity.
Qed.

Lemma formats_ok (v : pyval) (f : fmt) :
  formats v f = true -> format_spec v f = Ok tt.
Proof.
  unfold formats. destruct (format_spec v f) as [[] | e];
    [reflexivity | discriminate].
Qed.

(** The maximum of impressions that are ints none above 0 is such an int. *)
Lemma max_of_idle_days (daily_data : list snapshot) : forall (n : Z),
  n <= 0 -> forallb idle daily_data = true ->
  exists n', py_max_from (PInt n) (map impressions daily_data) = Ok (PInt n')
             /\ n' <= 0.
Proof.
  induction daily_data as [| data rest IH]; intros n Hn Hidle.
  - exists n. split; [reflexivity | exact Hn].
  - cbn [forallb] in Hidle. apply andb_prop in Hidle.
    destruct Hidle as [Hd Hrest]. unfold idle in Hd.
    cbn [map py_max_from].
    destruct (impressions data) as [| | x | | | |]; try discriminate Hd.
    apply andb_prop in Hd. destruct Hd as [Hx _]. apply Z.leb_le in Hx.
    cbn [py_gt as_num rbind num_gt].
    destruct (n <? x); apply IH; assumption.
Qed.


Lemma has_bracket_app (a b : string) :
  has_bracket (a ++ b) = has_bracket a || has_bracket b.
Proof.
  induction a as [| c a IH]; [reflexivity |].
  cbn [String.append has_bracket]. rewrite IH, orb_assoc. reflexivity.
Qed.

Lemma digit_plain (n : Z) : has_bracket (digit n) = false.
Proof.
  unfold digit. set (k := Z.to_nat (n mod 10)).
  assert (Hk : (k < 10)%nat).
  { subst k. pose proof (Z.mod_pos_bound n 10 ltac:(lia)). lia. }
  do 10 (destruct k as [| k]; [reflexivity |]). lia.
Qed.

(** The label of a day in the trend holds no bracket. *)
Lemma label_plain (m d : Z) : has_bracket (pad2 m ++ "/" ++ pad2 d) = false.
Proof.
  unfold pad2. rewrite !has_bracket_app, !digit_plain. reflexivity.
Qed.

(** A row of the trend whose numbers can be shown is never refused. *)
Lemma trend_row_prints (lib : library) (msg : string) (data : snapshot)
      (bar : Z) :
  format_spec (impressions data) Grouped = Ok tt ->
  format_spec (spend data) Fixed = Ok tt ->
  raises_markup lib msg
    [PStr (pad2 (month (snap_date data)) ++ "/" ++ pad2 (day (snap_date data)));
     PInt bar; impressions data; spend data] = false.
Proof.
  intros Himp Hspend. apply plain_texts_print. cbn [forallb bracketed].
  rewrite label_plain, (formatted_plain _ _ Himp), (formatted_plain _ _ Hspend).
  reflexivity.
Qed.

(** The row of an idle day, under a maximum that is not above 0. *)
Lemma show_idle_bar (lib : library) (n : Z) (data : snapshot) (st : sim) :
  n <= 0 -> idle data = true ->
  show_bar lib (PInt n) data st =
  (Ok tt, mksim (principal_id st) (media_buy_id st) (creative_ids st)
                (products st) (calls st) (console st ++ [trend_row 0 data])).
Proof.
  intros Hn Hidle. unfold idle in Hidle.
  destruct (impressions data) as [| | x | | | |] eqn:Hx; try discriminate Hidle.
  apply andb_prop in Hidle. destruct Hidle as [_ Hspend].
  apply formats_ok in Hspend.
  assert (Hprints := trend_row_prints lib "{}: {} {:,} imps (${:,.0f})" data
                       (Z.max 0 0)).
  rewrite Hx in Hprints. specialize (Hprints eq_refl Hspend).
  unfold show_bar, trend_row, bind, lift, ret, say, print. rewrite Hx, Hspend.
  cbn [py_gt as_num rbind num_gt format_spec].
  replace (0 <? n) with false by (symmetry; apply Z.ltb_ge; exact Hn).
  cbv iota. cbn [fst snd]. rewrite Hprints. reflexivity.
Qed.

Lemma show_idle_bars (lib : library) (n : Z) (daily_data : list snapshot) :
  forall (st : sim),
  n <= 0 -> forallb idle daily_data = true ->
  for_each daily_data (show_bar lib (PInt n)) st =
  (Ok tt, mksim (principal_id st) (media_buy_id st) (creative_ids st)
                (products st) (calls st)
                (console st ++ map (trend_row 0) daily_data)).
Proof.
  induction daily_data as [| data rest IH]; intros st Hn Hidle.
  - cbn. rewrite app_nil_r. destruct st; reflexivity.
  - cbn [forallb] in Hidle. apply andb_prop in Hidle.
    destruct Hidle as [Hd Hrest].
    cbn [for_each map]. unfold bind at 1. rewrite (show_idle_bar _ _ _ _ Hn Hd).
    rewrite (IH _ Hn Hrest).
    cbn [principal_id media_buy_id creative_ids products calls console].
    rewrite <- app_assoc. reflexivity.
Qed.

(** X9: the trend of a campaign that has not delivered.  When no day has
    impressions above 0 (ints, with a spend that can be shown), and in
    particular when there is no day at all, the trend returns having
    printed its heading and one row per day, in order, each with an
    empty bar: nothing is divided by the zero maximum.  It issues no call
    and changes no attribute. *)
Theorem trend_of_an_idle_campaign
  (lib : library) (daily_data : list snapshot) (st : sim) :
  let out := _show_performance_trend lib daily_data st in
  forallb idle daily_data = true ->
  fst out = Ok tt
  /\ printed (_show_performance_trend lib daily_data) st =
     Say "Performance Trend:" [] :: map (trend_row 0) daily_data
  /\ quiet st (snd out).
Proof.
  intros out Hidle.
  assert (H : wp (_show_performance_trend lib daily_data) st (fun r st' =>
    r = Ok tt
    /\ console st' =
       (console st ++ Say "Performance Trend:" [] :: map (trend_row 0) daily_data)%list
    /\ quiet st st')).
  { unfold _show_performance_trend. wp_run.
    destruct daily_data as [| data rest].
    - cbn [map for_each]. wp_run. repeat split.
    - cbn [forallb] in Hidle. apply andb_prop in Hidle.
      destruct Hidle as [Hd Hrest].
      assert (Hall : forallb idle (data :: rest) = true)
        by (cbn [forallb]; rewrite Hd, Hrest; reflexivity).
      unfold idle in Hd. cbn [map].
      destruct (impressions data) as [| | x | | | |]; try discriminate Hd.
      apply andb_prop in Hd. destruct Hd as [Hx _]. apply Z.leb_le in Hx.
      destruct (max_of_idle_days rest x Hx Hrest) as (n' & -> & Hn').
      unfold wp. rewrite (show_idle_bars _ _ _ _ Hn' Hall).
      cbn [fst snd console]. split; [reflexivity |].
      split; [rewrite <- app_assoc; reflexivity | repeat split]. }
  destruct H as (Hr & Hc & Hq).
  split; [exact Hr |]. split; [apply printed_app; exact Hc | exact Hq].
Qed.

(** Two days without impressions. *)
Lemma trend_of_an_idle_campaign_witness :
  printed (_show_performance_trend py quiet_days) booked =
  [Say "Performance Trend:" [];
   Say "{}: {} {:,} imps (${:,.0f})" [PStr "08/01"; PInt 0; PInt 0; PInt 0];
   Say "{}: {} {:,} imps (${:,.0f})" [PStr "08/03"; PInt 0; PInt 0; PFloat 0]].
Proof.
  apply (proj1 (proj2 (trend_of_an_idle_campaign py quiet_days booked eq_refl))).
Defined.

(** X10: the scale of the bars.  Under a maximum that is a positive int,
    a day whose impressions equal the maximum gets a bar of exactly 40
    cells and a day with 0 impressions an empty bar; in both cases the
    row is printed and nothing is raised. *)
Theorem bar_scale_ends (lib : library) (m : Z) (data : snapshot) (st : sim) :
  0 < m -> format_spec (spend data) Fixed = Ok tt ->
  (impressions data = PInt m ->
   fst (show_bar lib (PInt m) data st) = Ok tt
   /\ printed (show_bar lib (PInt m) data) st = [trend_row 40 data])
  /\ (impressions data = PInt 0 ->
      fst (show_bar lib (PInt m) data st) = Ok tt
      /\ printed (show_bar lib (PInt m) data) st = [trend_row 0 data]).
Proof.
  intros Hm Hspend.
  assert (Hgt : (0 <? m) = true) by (apply Z.ltb_lt; exact Hm).
  assert (Hnz : (m =? 0) = false) by (apply Z.eqb_neq; lia).
  split; intros Himp.
  - assert (H : show_bar lib (PInt m) data st =
      (Ok tt, mksim (principal_id st) (media_buy_id st) (creative_ids st)
                    (products st) (calls st) (console st ++ [trend_row 40 data]))).
    { assert (Hprints := trend_row_prints lib "{}: {} {:,} imps (${:,.0f})" data
                           (Z.max 0 40)).
      rewrite Himp in Hprints. specialize (Hprints eq_refl Hspend).
      unfold show_bar, trend_row, bind, lift, ret, say, print.
      rewrite Himp, Hspend.
      cbn [py_gt as_num rbind num_gt py_truediv format_spec].
      rewrite Hgt, Hnz. destruct m as [| p |]; try discriminate Hgt.
      rewrite int_truediv_self.
      change (py_int (1 * 40)%float) with (@Ok Z 40).
      cbv iota beta. cbn [fst snd]. rewrite Hprints. reflexivity. }
    rewrite H. split; [reflexivity |]. apply printed_app. rewrite H. reflexivity.
  - assert (H : show_bar lib (PInt m) data st =
      (Ok tt, mksim (principal_id st) (media_buy_id st) (creative_ids st)
                    (products st) (calls st) (console st ++ [trend_row 0 data]))).
    { assert (Hprints := trend_row_prints lib "{}: {} {:,} imps (${:,.0f})" data
                           (Z.max 0 0)).
      rewrite Himp in Hprints. specialize (Hprints eq_refl Hspend).
      unfold show_bar, trend_row, bind, lift, ret, say, print.
      rewrite Himp, Hspend.
      cbn [py_gt as_num rbind num_gt py_truediv format_spec int_truediv].
      rewrite Hgt, Hnz. destruct m as [| p |]; try discriminate Hgt.
      cbn [Z.ltb Z.compare]. cbv iota.
      change (py_int (zero * 40)%float) with (@Ok Z 0).
      cbv iota beta. cbn [fst snd]. rewrite Hprints. reflexivity. }
    rewrite H. split; [reflexivity |]. apply printed_app. rewrite H. reflexivity.
Qed.

(** The best day of three: 240000 impressions out of a maximum of
    240000. *)
Lemma bar_scale_ends_witness :
  printed (show_bar py (PInt 240000)
             (mksnapshot (add_days flight_start 8) (PInt 9600) (PInt 240000)
                         (PStr "on_track"))) booked =
  [Say "{}: {} {:,} imps (${:,.0f})"
       [PStr "08/09"; PInt 40; PInt 240000; PInt 9600]].
Proof.
  apply (proj1 (bar_scale_ends py 240000
                  (mksnapshot (add_days flight_start 8) (PInt 9600) (PInt 240000)
                              (PStr "on_track")) booked eq_refl eq_refl)).
  reflexivity.
Defined.
